(** * MicroAI-Paygate gateway: request pipeline

    A shallow embedding of the Go gateway (package [main]): the buffering
    timeout guard of [middleware.go], the payment-gated cache of [cache.go],
    the verification orchestrator, receipt issuance and rate-limit
    middleware of [main.go], and the token bucket the rate limiter is
    built on.

    Conventions.
    - Go [string] and [[]byte] are both [string] (a sequence of bytes).
    - Go [int], [int64], [time.Time] (nanoseconds) and [time.Duration]
      are [Z]; [wrap64] is applied where the source multiplies or
      subtracts values that can leave the 64-bit range.
    - [http.Header] is [gmap string (list string)]; header names are taken
      in the canonical form in which [Header.Set] and [Header.Add] store
      them.
    - Mutexes are not represented: every method of a writer is one atomic
      step, which is what the locks in the source provide.
    - Functions of libraries ([encoding/json], [crypto/sha256], the HTTP
      client, Redis) are parameters. *)

From Stdlib Require Import ZArith String Ascii List Bool Lia.
From Stdlib Require Import QArith Qcanon Qround.
From Stdlib Require Import DecimalString.
From stdpp Require Import base option list gmap strings fin_maps.

Local Open Scope string_scope.
Local Open Scope Z_scope.

(** ** Go errors *)

(** An error value: the sentinel [context.DeadlineExceeded], the error of
    [http.MaxBytesReader], an opaque error with a message, or an error
    wrapping another ([fmt.Errorf] with [%w], [*url.Error]). *)
Inductive GoError : Type :=
| DeadlineExceeded : GoError
| MaxBytesError : GoError
| ErrorString (msg : string) : GoError
| Wrap (msg : string) (inner : GoError) : GoError.

(** [errors.Is(err, context.DeadlineExceeded)]: walks the [Unwrap] chain. *)
Fixpoint errors_Is_DeadlineExceeded (e : GoError) : bool :=
  match e with
  | DeadlineExceeded => true
  | Wrap _ inner => errors_Is_DeadlineExceeded inner
  | _ => false
  end.

(** [errors.As(err, &maxBytesErr)] with [*http.MaxBytesError]. *)
Fixpoint errors_As_MaxBytesError (e : GoError) : bool :=
  match e with
  | MaxBytesError => true
  | Wrap _ inner => errors_As_MaxBytesError inner
  | _ => false
  end.

(** ** Time and [context.Context] *)

Definition Time := Z.
Definition Duration := Z.

Definition Second : Duration := 1000000000.

(** Arithmetic on [int], [int64] and [time.Duration] wraps around:
    the value of a result as a 64-bit signed integer. *)
Definition wrap64 (z : Z) : Z := (z + 2 ^ 63) mod 2 ^ 64 - 2 ^ 63.

(** The part of a [context.Context] the gateway reads: its deadline and
    the correlation id stored under [correlationIDKey]. *)
Record GoContext : Type := mkGoContext {
  ctx_deadline : option Time;
  ctx_correlation_id : option string
}.

Definition context_Background : GoContext :=
  {| ctx_deadline := None; ctx_correlation_id := None |}.

(** [ctx.Deadline()] *)
Definition Deadline (c : GoContext) : option Time := ctx_deadline c.

(** [context.WithDeadline(parent, d)]: when the parent's deadline is
    already earlier than [d] the parent's deadline stays in force;
    otherwise the child's deadline is [d]. The second component stands for
    the returned [CancelFunc], which is never nil. *)
Definition context_WithDeadline (parent : GoContext) (d : Time)
  : GoContext * bool :=
  match Deadline parent with
  | Some cur =>
      if cur <? d then (parent, true)
      else ({| ctx_deadline := Some d;
               ctx_correlation_id := ctx_correlation_id parent |}, true)
  | None => ({| ctx_deadline := Some d;
                ctx_correlation_id := ctx_correlation_id parent |}, true)
  end.

(** [context.WithTimeout(parent, timeout)] is
    [WithDeadline(parent, time.Now().Add(timeout))]. *)
Definition context_WithTimeout (now : Time) (parent : GoContext)
  (timeout : Duration) : GoContext * bool :=
  context_WithDeadline parent (now + timeout).

(** The deadline selection at the head of [RequestTimeoutMiddleware]
    (middleware.go, lines 147-169): the context installed on the request
    and whether a cancel function was obtained. *)
Definition RequestTimeoutMiddleware_ctx (timeout : Duration) (now : Time)
  (parent : GoContext) : GoContext * bool :=
  if timeout <=? 0 then
    context_WithTimeout now parent timeout
  else
    match Deadline parent with
    | Some d =>
        let desired := now + timeout in
        if d <? desired then (parent, false)
        else context_WithDeadline parent desired
    | None => context_WithTimeout now parent timeout
    end.

(** ** HTTP headers *)

Abbreviation Header := (gmap string (list string)).

Definition Header_values (h : Header) (k : string) : list string :=
  default [] (h !! k).

(** [h.Add(k, v)] *)
Definition Header_Add (k v : string) (h : Header) : Header :=
  <[k := (Header_values h k ++ [v])%list]> h.

(** [h.Set(k, v)] *)
Definition Header_Set (k v : string) (h : Header) : Header :=
  <[k := [v]]> h.

(** [h.Del(k)] *)
Definition Header_Del (k : string) (h : Header) : Header :=
  delete k h.

(** ** Response writers *)

Definition StatusOK : Z := 200.

Definition len (s : string) : Z := Z.of_nat (String.length s).

(** [strconv.Itoa] *)
Definition Itoa (n : Z) : string := NilZero.string_of_int (Z.to_int n).

(** The methods of [gin.ResponseWriter] that handlers and the middleware
    use to produce a response. [rw_HeaderUpdate f] is a mutation [f] of
    the map returned by [Header()]. *)
Class ResponseWriter (W : Type) : Type := {
  rw_Header : W -> Header;
  rw_HeaderUpdate : (Header -> Header) -> W -> W;
  rw_WriteHeader : Z -> W -> W;
  rw_WriteHeaderNow : W -> W;
  rw_Write : string -> W -> W * (Z * option GoError);
  rw_WriteString : string -> W -> W * (Z * option GoError);
  rw_Status : W -> Z
}.

(** [bodyAllowedForStatus], the same function in gin and in [net/http]. *)
Definition bodyAllowedForStatus (code : Z) : bool :=
  negb (((100 <=? code) && (code <=? 199)) || (code =? 204) || (code =? 304)).

(** [net/http]'s [checkWriteHeaderCode] accepts the codes of three
    digits; [WriteHeader] panics on any other. *)
Definition validStatusCode (code : Z) : bool :=
  (100 <=? code) && (code <=? 999).

Definition http_ErrHijacked : GoError :=
  ErrorString "http: connection has been hijacked".

Definition http_ErrBodyNotAllowed : GoError :=
  ErrorString
    "http: request method or response status code does not allow body".

(** *** The real transport

    Gin's own [responseWriter] over the response of [net/http] on an
    HTTP/1.1 connection, for a request other than HEAD and a response
    that declares no [Content-Length] of its own.

    Gin keeps the status and whether anything was written ([rw_status],
    [rw_written]); the header map [rw_head] can be changed at any time.
    [net/http] sends the status with a snapshot of the headers when its
    [WriteHeader] is first called ([rw_sent], [sent_status],
    [sent_head]), then the body bytes ([sent_body]); it refuses a body
    under a status that allows none, and a status it does not accept
    makes it panic. A hijacked connection ([rw_hijacked]) is out of the
    server's hands: [conn_raw] holds the bytes the handler has written
    to it directly. Gin marks the writer as written before it hands
    anything to [net/http], so [rw_sent] and [rw_hijacked] say something
    only when [rw_written] holds and are not read otherwise. *)
Record realWriter : Type := mkRealWriter {
  rw_head : Header;
  rw_status : Z;
  rw_written : bool;
  sent_status : Z;
  sent_head : Header;
  sent_body : string;
  rw_sent : bool;
  rw_hijacked : bool;
  conn_raw : string
}.

Definition newRealWriter (h : Header) : realWriter :=
  {| rw_head := h; rw_status := StatusOK; rw_written := false;
     sent_status := 0; sent_head := ∅; sent_body := "";
     rw_sent := false; rw_hijacked := false; conn_raw := "" |}.

(** gin's [WriteHeader]: the status is recorded, unless something was
    written already. *)
Definition real_WriteHeader (code : Z) (w : realWriter) : realWriter :=
  if (0 <? code) && negb (rw_status w =? code) then
    if rw_written w then w
    else {| rw_head := rw_head w; rw_status := code;
            rw_written := rw_written w; sent_status := sent_status w;
            sent_head := sent_head w; sent_body := sent_body w;
            rw_sent := rw_sent w; rw_hijacked := rw_hijacked w;
            conn_raw := conn_raw w |}
  else w.

(** The panic of [net/http]'s [WriteHeader] that the next call which has
    to send the status runs into, if any. *)
Definition real_commit_panic (w : realWriter) : option string :=
  if rw_written w then None
  else if validStatusCode (rw_status w) then None
  else Some (String.append "invalid WriteHeader code " (Itoa (rw_status w))).

(** [net/http]'s [WriteHeader(code)] with an accepted code on a
    connection that has not sent a status and is not hijacked. *)
Definition http_send_header (code : Z) (w : realWriter) : realWriter :=
  {| rw_head := rw_head w; rw_status := rw_status w;
     rw_written := rw_written w; sent_status := code;
     sent_head := rw_head w; sent_body := sent_body w;
     rw_sent := true; rw_hijacked := rw_hijacked w;
     conn_raw := conn_raw w |}.

(** gin's [WriteHeaderNow]: on the first call the writer is marked as
    written and the status goes to [net/http], which sends it with the
    headers as they are, or panics ([real_commit_panic]) and sends
    nothing. *)
Definition real_WriteHeaderNow (w : realWriter) : realWriter :=
  if rw_written w then w
  else if validStatusCode (rw_status w) then
    {| rw_head := rw_head w; rw_status := rw_status w;
       rw_written := true; sent_status := rw_status w;
       sent_head := rw_head w; sent_body := sent_body w;
       rw_sent := true; rw_hijacked := false; conn_raw := conn_raw w |}
  else
    {| rw_head := rw_head w; rw_status := rw_status w;
       rw_written := true; sent_status := sent_status w;
       sent_head := sent_head w; sent_body := sent_body w;
       rw_sent := false; rw_hijacked := false; conn_raw := conn_raw w |}.

(** [net/http]'s [Write] below a writer that gin has marked as written:
    nothing on a hijacked connection; otherwise the status 200 is sent
    first if none was, and the bytes follow when the status allows a
    body. *)
Definition http_Write (data : string) (w : realWriter)
  : realWriter * (Z * option GoError) :=
  if rw_hijacked w then (w, (0, Some http_ErrHijacked))
  else
    let w1 := if rw_sent w then w else http_send_header StatusOK w in
    if bodyAllowedForStatus (sent_status w1) then
      ({| rw_head := rw_head w1; rw_status := rw_status w1;
          rw_written := rw_written w1; sent_status := sent_status w1;
          sent_head := sent_head w1;
          sent_body := String.append (sent_body w1) data;
          rw_sent := rw_sent w1; rw_hijacked := rw_hijacked w1;
          conn_raw := conn_raw w1 |},
       (len data, None))
    else
      (w1, (0, if String.eqb data "" then None
               else Some http_ErrBodyNotAllowed)).

(** gin's [Write] and [WriteString]: [WriteHeaderNow], then the write of
    [net/http]. When [WriteHeaderNow] panics the write is not reached. *)
Definition real_Write (data : string) (w : realWriter)
  : realWriter * (Z * option GoError) :=
  match real_commit_panic w with
  | Some _ => (real_WriteHeaderNow w, (0, None))
  | None => http_Write data (real_WriteHeaderNow w)
  end.

Definition real_HeaderUpdate (f : Header -> Header) (w : realWriter)
  : realWriter :=
  {| rw_head := f (rw_head w); rw_status := rw_status w;
     rw_written := rw_written w; sent_status := sent_status w;
     sent_head := sent_head w; sent_body := sent_body w;
     rw_sent := rw_sent w; rw_hijacked := rw_hijacked w;
     conn_raw := conn_raw w |}.

(** gin's [Flush]: [WriteHeaderNow], then the flush of [net/http], which
    sends the status 200 first if none was sent and the connection is
    still the server's. *)
Definition real_Flush (w : realWriter) : realWriter :=
  match real_commit_panic w with
  | Some _ => real_WriteHeaderNow w
  | None =>
      let w1 := real_WriteHeaderNow w in
      if rw_hijacked w1 || rw_sent w1 then w1
      else http_send_header StatusOK w1
  end.

(** gin's [Hijack]: the writer counts as written, and [net/http] hands
    the connection over unless it was handed over before. What was sent
    until then stays sent; nothing more is sent by the server. *)
Definition real_Hijack (w : realWriter) : realWriter * option GoError :=
  if rw_written w && rw_hijacked w then (w, Some http_ErrHijacked)
  else
    ({| rw_head := rw_head w; rw_status := rw_status w;
        rw_written := true; sent_status := sent_status w;
        sent_head := sent_head w; sent_body := sent_body w;
        rw_sent := rw_written w && rw_sent w; rw_hijacked := true;
        conn_raw := "" |}, None).

(** A write on the connection that [Hijack] returned; without a
    successful [Hijack] there is no connection to write to. *)
Definition conn_Write (data : string) (w : realWriter) : realWriter :=
  if rw_written w && rw_hijacked w then
    {| rw_head := rw_head w; rw_status := rw_status w;
       rw_written := rw_written w; sent_status := sent_status w;
       sent_head := sent_head w; sent_body := sent_body w;
       rw_sent := rw_sent w; rw_hijacked := rw_hijacked w;
       conn_raw := String.append (conn_raw w) data |}
  else w.

#[export] Instance realWriter_ResponseWriter : ResponseWriter realWriter := {
  rw_Header := rw_head;
  rw_HeaderUpdate := real_HeaderUpdate;
  rw_WriteHeader := real_WriteHeader;
  rw_WriteHeaderNow := real_WriteHeaderNow;
  rw_Write := real_Write;
  rw_WriteString := real_Write;
  rw_Status := rw_status
}.

(** What the client has received from the server as the response. *)
Record Response : Type := mkResponse {
  resp_status : Z;
  resp_header : Header;
  resp_body : string
}.

Definition client_view (w : realWriter) : option Response :=
  if rw_written w && rw_sent w then
    Some {| resp_status := sent_status w; resp_header := sent_head w;
            resp_body := sent_body w |}
  else None.

(** *** [bufferedWriter] (middleware.go, lines 46-135) *)

Record bufferedWriter : Type := mkBufferedWriter {
  buf : string;
  head : Header;
  status : Z;
  wrote : bool;
  closed : bool
}.

Definition newBufferedWriter : bufferedWriter :=
  {| buf := ""; head := ∅; status := StatusOK; wrote := false;
     closed := false |}.

Definition bw_Header (b : bufferedWriter) : Header := head b.

Definition bw_HeaderUpdate (f : Header -> Header) (b : bufferedWriter)
  : bufferedWriter :=
  {| buf := buf b; head := f (head b); status := status b;
     wrote := wrote b; closed := closed b |}.

Definition bw_Write (data : string) (b : bufferedWriter)
  : bufferedWriter * (Z * option GoError) :=
  if closed b then (b, (0, None))
  else ({| buf := String.append (buf b) data; head := head b; status := status b;
           wrote := true; closed := closed b |}, (len data, None)).

Definition bw_WriteString (s : string) (b : bufferedWriter)
  : bufferedWriter * (Z * option GoError) :=
  if closed b then (b, (0, None))
  else ({| buf := String.append (buf b) s; head := head b; status := status b;
           wrote := true; closed := closed b |}, (len s, None)).

Definition bw_WriteHeader (statusCode : Z) (b : bufferedWriter)
  : bufferedWriter :=
  if closed b then b
  else {| buf := buf b; head := head b; status := statusCode;
          wrote := wrote b; closed := closed b |}.

Definition bw_WriteHeaderNow (b : bufferedWriter) : bufferedWriter :=
  {| buf := buf b; head := head b;
     status := (if status b =? 0 then StatusOK else status b);
     wrote := true; closed := closed b |}.

Definition bw_Status (b : bufferedWriter) : Z :=
  if status b =? 0 then StatusOK else status b.

(** The assignment [bw.closed = true] of the timeout branch. *)
Definition bw_close (b : bufferedWriter) : bufferedWriter :=
  {| buf := buf b; head := head b; status := status b;
     wrote := wrote b; closed := true |}.

(** [responseWriterShim] forwards each of these methods to its
    [bufferedWriter]. *)
#[export] Instance shim_ResponseWriter : ResponseWriter bufferedWriter := {
  rw_Header := bw_Header;
  rw_HeaderUpdate := bw_HeaderUpdate;
  rw_WriteHeader := bw_WriteHeader;
  rw_WriteHeaderNow := bw_WriteHeaderNow;
  rw_Write := bw_Write;
  rw_WriteString := bw_WriteString;
  rw_Status := bw_Status
}.

(** The header loop of [flushTo]: [w.Header().Add(k, v)] for every value
    [v] of every key [k], the keys in the order in which the map is
    ranged over. *)
Definition add_values {W} `{ResponseWriter W} (k : string)
  (vv : list string) (w : W) : W :=
  fold_left (fun w v => rw_HeaderUpdate (Header_Add k v) w) vv w.

Definition add_headers {W} `{ResponseWriter W}
  (kvs : list (string * list string)) (w : W) : W :=
  fold_left (fun w kv => add_values (fst kv) (snd kv) w) kvs w.

Definition bw_flushTo {W} `{ResponseWriter W} (b : bufferedWriter) (w : W)
  : W :=
  let w1 := add_headers (map_to_list (head b)) w in
  let w2 := rw_WriteHeader (bw_Status b) w1 in
  fst (rw_Write (buf b) w2).

(** ** The timeout guard (middleware.go, lines 141-213) *)

Definition dq : string := String (Ascii.ascii_of_nat 34) EmptyString.

(** A Go string literal between double quotes. *)
Definition quoted (s : string) : string :=
  String.append dq (String.append s dq).

(** The literal body written by the timeout branch (line 209). *)
Definition timeoutBody : string :=
  String.concat ""
    [ "{"; quoted "error"; ":"; quoted "Gateway Timeout"; ",";
      quoted "message"; ":";
      quoted "Request exceeded maximum allowed time"; "}" ].

Definition jsonContentType : string := "application/json; charset=utf-8".

(** One call of a handler that the shim hands to the buffer: a change of
    the header map, or one of the write methods. These are the calls
    that the handlers and middleware of this package make. [Flush] and
    [Hijack], which the shim hands to the original writer, are calls of
    [ShimCall] below. *)
Inductive HandlerOp : Type :=
| OpHeaderSet (k v : string)
| OpHeaderAdd (k v : string)
| OpHeaderDel (k : string)
| OpWriteHeader (code : Z)
| OpWriteHeaderNow
| OpWrite (data : string)
| OpWriteString (s : string).

Definition run_op {W} `{ResponseWriter W} (op : HandlerOp) (w : W) : W :=
  match op with
  | OpHeaderSet k v => rw_HeaderUpdate (Header_Set k v) w
  | OpHeaderAdd k v => rw_HeaderUpdate (Header_Add k v) w
  | OpHeaderDel k => rw_HeaderUpdate (Header_Del k) w
  | OpWriteHeader code => rw_WriteHeader code w
  | OpWriteHeaderNow => rw_WriteHeaderNow w
  | OpWrite data => fst (rw_Write data w)
  | OpWriteString s => fst (rw_WriteString s w)
  end.

Definition run_ops {W} `{ResponseWriter W} (ops : list HandlerOp) (w : W)
  : W :=
  fold_left (fun w op => run_op op w) ops w.

(** The guard and the handler goroutine share the buffer; the guard alone
    holds the original writer. [g_pc] counts the statements of the timeout
    branch that have been executed. *)
Record GuardState (W : Type) : Type := mkGuardState {
  g_bw : bufferedWriter;
  g_orig : W;
  g_pc : nat
}.
Arguments mkGuardState {W} _ _ _.
Arguments g_bw {W} _.
Arguments g_orig {W} _.
Arguments g_pc {W} _.

(** The [case <-ctx.Done()] branch, one statement at a time: close the
    buffer, set the content type, write status 504, write the body. *)
Definition timeout_step {W} `{ResponseWriter W} (s : GuardState W)
  : GuardState W :=
  match g_pc s with
  | 0%nat => mkGuardState (bw_close (g_bw s)) (g_orig s) 1
  | 1%nat =>
      mkGuardState (g_bw s)
        (rw_HeaderUpdate (Header_Set "Content-Type" jsonContentType)
           (g_orig s)) 2
  | 2%nat => mkGuardState (g_bw s) (rw_WriteHeader 504 (g_orig s)) 3
  | 3%nat =>
      mkGuardState (g_bw s) (fst (rw_Write timeoutBody (g_orig s))) 4
  | _ => s
  end.

(** A step of the race after the deadline has been selected: either the
    handler goroutine, still running, makes a call on the shim, or the
    guard executes its next statement. *)
Inductive Tick : Type :=
| HandlerTick (op : HandlerOp)
| GuardTick.

Definition tick {W} `{ResponseWriter W} (t : Tick) (s : GuardState W)
  : GuardState W :=
  match t with
  | HandlerTick op => mkGuardState (run_op op (g_bw s)) (g_orig s) (g_pc s)
  | GuardTick => timeout_step s
  end.

Definition run_ticks {W} `{ResponseWriter W} (ts : list Tick)
  (s : GuardState W) : GuardState W :=
  fold_left (fun s t => tick t s) ts s.

(** The guard returns only after its last statement. *)
Definition finish_guard {W} `{ResponseWriter W} (s : GuardState W)
  : GuardState W :=
  timeout_step (timeout_step (timeout_step (timeout_step s))).

(** How one execution of the [select] went. *)
Inductive Run : Type :=
| RunFinished (ops : list HandlerOp)
    (* the handler made the calls [ops] and returned; [finished] is
       selected *)
| RunPanicked (ops : list HandlerOp) (p : string)
    (* the handler made the calls [ops] and panicked with [p] *)
| RunTimedOut (before : list HandlerOp) (sched : list Tick).
    (* the handler had made the calls [before] when [ctx.Done()] was
       selected; [sched] interleaves its later calls with the statements
       of the timeout branch *)

(** What the middleware leaves behind: the original writer, the buffer,
    and the panic value it re-raised, if any. *)
Record GuardResult (W : Type) : Type := mkGuardResult {
  res_orig : W;
  res_bw : bufferedWriter;
  res_panic : option string
}.
Arguments mkGuardResult {W} _ _ _.
Arguments res_orig {W} _.
Arguments res_bw {W} _.
Arguments res_panic {W} _.

(** The guard in front of any writer, for a handler that makes buffered
    calls only. [res_panic] is the panic of the handler;
    [RequestTimeoutMiddleware_shim] below is the guard in front of gin's
    own writer with every call of the shim, and reports a panic of the
    flush as well. *)
Definition RequestTimeoutMiddleware {W} `{ResponseWriter W} (r : Run)
  (origWriter : W) : GuardResult W :=
  let bw := newBufferedWriter in
  match r with
  | RunFinished ops =>
      let bw1 := run_ops ops bw in
      mkGuardResult (bw_flushTo bw1 origWriter) bw1 None
  | RunPanicked ops p =>
      mkGuardResult origWriter (run_ops ops bw) (Some p)
  | RunTimedOut before sched =>
      let s0 := mkGuardState (run_ops before bw) origWriter 0 in
      let s1 := finish_guard (run_ticks sched (timeout_step s0)) in
      mkGuardResult (g_orig s1) (g_bw s1) None
  end.

(** The bytes, the status and the headers a sequence of calls asks for,
    read off the calls themselves. *)
Definition op_bytes (op : HandlerOp) : string :=
  match op with
  | OpWrite data => data
  | OpWriteString s => s
  | _ => ""
  end.

Definition written_bytes (ops : list HandlerOp) : string :=
  String.concat "" (map op_bytes ops).

Definition op_status (st : Z) (op : HandlerOp) : Z :=
  match op with
  | OpWriteHeader code => code
  | OpWriteHeaderNow => if st =? 0 then StatusOK else st
  | _ => st
  end.

Definition written_status (ops : list HandlerOp) : Z :=
  let st := fold_left op_status ops StatusOK in
  if st =? 0 then StatusOK else st.

Definition op_header (h : Header) (op : HandlerOp) : Header :=
  match op with
  | OpHeaderSet k v => Header_Set k v h
  | OpHeaderAdd k v => Header_Add k v h
  | OpHeaderDel k => Header_Del k h
  | _ => h
  end.

Definition written_header (ops : list HandlerOp) : Header :=
  fold_left op_header ops ∅.

(** Headers of the original writer after the buffered ones were added. *)
Definition merged_header (orig buffered : Header) : Header :=
  union_with (fun a b => Some (a ++ b)%list) orig buffered.

(** ** JSON, library functions and the environment *)

(** A JSON document: what [gin.H] literals and the structs with [json]
    tags denote, and what decoding into [interface{}] yields. *)
#[local] Unset Elimination Schemes.
Inductive JValue : Type :=
| JNull
| JBool (b : bool)
| JInt (n : Z)
| JString (s : string)
| JObject (fields : list (string * JValue))
| JArray (items : list JValue).
#[local] Set Elimination Schemes.

(** [main.go], lines 55-76, and [cache.go], lines 22-25. *)
Record PaymentContext : Type := mkPaymentContext {
  Recipient : string;
  Token : string;
  Amount : string;
  Nonce : string;
  ChainID : Z
}.

Record VerifyRequest : Type := mkVerifyRequest {
  vreq_Context : PaymentContext;
  vreq_Signature : string
}.

Record VerifyResponse : Type := mkVerifyResponse {
  IsValid : bool;
  RecoveredAddress : string;
  Error : string
}.

Record SummarizeRequest : Type := mkSummarizeRequest {
  Text : string
}.

Record CachedResponse : Type := mkCachedResponse {
  Result : string;
  CachedAt : Z
}.

(** The receipt types. Their declarations (receipt.go) are not among the
    sources; the fields are those [validateReceipt] reads (main.go, lines
    754-818), which are the fields of the Receipt of the data model. *)
Record PaymentDetails : Type := mkPaymentDetails {
  Payer : string;
  pd_Recipient : string;
  pd_Amount : string;
  pd_Token : string;
  pd_Nonce : string
}.

Record ServiceDetails : Type := mkServiceDetails {
  Endpoint : string;
  RequestHash : string;
  ResponseHash : string
}.

Record Receipt : Type := mkReceipt {
  ID : string;
  Version : string;
  Timestamp : Time;
  Payment : PaymentDetails;
  Service : ServiceDetails
}.

Record SignedReceipt : Type := mkSignedReceipt {
  Receipt_ : Receipt;
  Signature : string;
  ServerPublicKey : string
}.

(** The documents the [json] tags of these structs describe. *)
Definition PaymentContext_json (p : PaymentContext) : JValue :=
  JObject [ ("recipient", JString (Recipient p));
            ("token", JString (Token p));
            ("amount", JString (Amount p));
            ("nonce", JString (Nonce p));
            ("chainId", JInt (ChainID p)) ].

Definition VerifyRequest_json (r : VerifyRequest) : JValue :=
  JObject [ ("context", PaymentContext_json (vreq_Context r));
            ("signature", JString (vreq_Signature r)) ].

Definition CachedResponse_json (r : CachedResponse) : JValue :=
  JObject [ ("result", JString (Result r)); ("cached_at", JInt (CachedAt r)) ].

(** Functions of the Go standard library the gateway calls. *)
Class Library : Type := {
  (* [json.Marshal] *)
  json_Marshal : JValue -> GoError + string;
  (* [json.Unmarshal] into a [map[string]interface{}] *)
  json_Unmarshal_map : string -> GoError + gmap string JValue;
  (* [json.Unmarshal] into a [SummarizeRequest] *)
  json_Unmarshal_SummarizeRequest : string -> GoError + SummarizeRequest;
  (* [json.Unmarshal] into a [CachedResponse] *)
  json_Unmarshal_CachedResponse : string -> GoError + CachedResponse;
  (* [hex.EncodeToString] of [sha256.Sum256] *)
  sha256_hex : string -> string;
  (* [base64.StdEncoding.EncodeToString] *)
  base64_EncodeToString : string -> string;
  (* [strconv.Atoi] *)
  strconv_Atoi : string -> GoError + Z;
  (* [json.Marshal] of a [*SignedReceipt] *)
  json_Marshal_receipt : SignedReceipt -> GoError + string;
  (* the content hash of receipt issuance *)
  content_hash : string -> string
}.

(** [err.Error()] *)
Fixpoint GoError_Error (e : GoError) : string :=
  match e with
  | DeadlineExceeded => "context deadline exceeded"
  | MaxBytesError => "http: request body too large"
  | ErrorString msg => msg
  | Wrap msg inner =>
      String.append msg (String.append ": " (GoError_Error inner))
  end.

(** What the verifier exchange of [verifyPayment] can come to:
    [http.NewRequestWithContext] fails, [http.DefaultClient.Do] fails, or
    a response arrives with a status and a body that decodes into a
    [VerifyResponse] or does not. *)
Inductive VerifierReply : Type :=
| NewRequestFailed (err : GoError)
| DoFailed (err : GoError)
| Responded (statusCode : Z) (decoded : GoError + VerifyResponse).

(** The same for the provider exchange of [callOpenRouter]; the body is
    decoded into a [map[string]interface{}]. *)
Inductive ProviderReply : Type :=
| ProviderNewRequestFailed (err : GoError)
| ProviderDoFailed (err : GoError)
| ProviderResponded (decoded : GoError + gmap string JValue).

(** The rest of the world as one request sees it: the process
    environment, the clock, the two HTTP collaborators, the state of the
    request context when it is asked for its error, and the fresh values
    drawn while the request is served. *)
Record Env : Type := mkEnv {
  Getenv : string -> string;
  time_Now : Time;
  (* url, body, correlation id, context *)
  verifier_Do : string -> string -> option string -> GoContext
                -> VerifierReply;
  (* url, body, context *)
  provider_Do : string -> string -> GoContext -> ProviderReply;
  ctx_Err : GoContext -> option GoError;
  uuid_New : string;
  (* receipt issuance: the schema version, the random part of the fresh
     id, and the outcome of signing with the server key, a signature and
     the server public key *)
  receipt_version : string;
  receipt_entropy : string;
  sign_receipt : Receipt -> GoError + (string * string)
}.

(** ** The HTTP request and the gin context *)

(** [c.Request.Body]: absent, or a reader that yields [data] or fails. *)
Inductive Body : Type :=
| BodyData (data : string)
| BodyError (err : GoError).

Record Request : Type := mkRequest {
  req_Header : Header;
  req_ContentLength : Z;
  req_Body : option Body;
  req_Context : GoContext;
  req_Path : string;
  req_ClientIP : string
}.

(** [io.ReadAll(http.MaxBytesReader(w, body, n))] *)
Definition ReadAll_MaxBytes (n : Z) (b : Body) : GoError + string :=
  match b with
  | BodyData data => if n <? len data then inl MaxBytesError else inr data
  | BodyError err => inl err
  end.

(** Values stored with [c.Set]. *)
Inductive KeyValue : Type :=
| KBytes (b : string)
| KVerifyResponse (v : VerifyResponse)
| KPaymentContext (p : PaymentContext)
| KString (s : string).

Record Context (W : Type) : Type := mkContext {
  Request_ : Request;
  Writer : W;
  Keys : gmap string KeyValue;
  aborted : bool
}.
Arguments mkContext {W} _ _ _ _.
Arguments Request_ {W} _.
Arguments Writer {W} _.
Arguments Keys {W} _.
Arguments aborted {W} _.

Definition set_Writer {W W'} (w : W') (c : Context W) : Context W' :=
  mkContext (Request_ c) w (Keys c) (aborted c).

Definition set_Request {W} (r : Request) (c : Context W) : Context W :=
  mkContext r (Writer c) (Keys c) (aborted c).

(** [c.GetHeader(k)] *)
Definition c_GetHeader {W} (c : Context W) (k : string) : string :=
  match Header_values (req_Header (Request_ c)) k with
  | v :: _ => v
  | [] => ""
  end.

(** [c.Header(k, v)] *)
Definition c_Header {W} `{ResponseWriter W} (k v : string) (c : Context W)
  : Context W :=
  if String.eqb v "" then
    set_Writer (rw_HeaderUpdate (Header_Del k) (Writer c)) c
  else set_Writer (rw_HeaderUpdate (Header_Set k v) (Writer c)) c.

(** [c.Abort()] *)
Definition c_Abort {W} (c : Context W) : Context W :=
  mkContext (Request_ c) (Writer c) (Keys c) true.

(** [c.Set(k, v)] and [c.Get(k)] *)
Definition c_Set {W} (k : string) (v : KeyValue) (c : Context W)
  : Context W :=
  mkContext (Request_ c) (Writer c) (<[k := v]> (Keys c)) (aborted c).

Definition c_Get {W} (c : Context W) (k : string) : option KeyValue :=
  Keys c !! k.

(** gin's [writeContentType]: set only when no content type is there. *)
Definition writeContentType {W} `{ResponseWriter W} (w : W) : W :=
  match Header_values (rw_Header w) "Content-Type" with
  | [] => rw_HeaderUpdate (<["Content-Type" := [jsonContentType]]>) w
  | _ => w
  end.

(** [c.JSON(code, obj)]: the status, the content type, then the encoded
    document in one [Write]; when encoding fails gin records the error
    and aborts. *)
Definition c_JSON {W} `{ResponseWriter W} `{Library} (code : Z)
  (obj : JValue) (c : Context W) : Context W :=
  let w := rw_WriteHeader code (Writer c) in
  if bodyAllowedForStatus code then
    let w := writeContentType w in
    match json_Marshal obj with
    | inr bytes => set_Writer (fst (rw_Write bytes w)) c
    | inl _ => c_Abort (set_Writer w c)
    end
  else set_Writer (rw_WriteHeaderNow (writeContentType w)) c.

(** ** Configuration helpers (main.go, lines 436-470 and 670-682;
    the timeout helpers of the configuration file) *)

Section Gateway.
Context `{Library}.

(** [getEnvAsInt]; the warning it logs for a value that is no number is
    not recorded. *)
Definition getEnvAsInt (env : Env) (key : string) (defaultValue : Z) : Z :=
  let valStr := Getenv env key in
  if String.eqb valStr "" then defaultValue
  else match strconv_Atoi valStr with
       | inr val => val
       | inl _ => defaultValue
       end.

(** [getPositiveTimeout]: the product with [time.Second] is a
    [time.Duration] and wraps around. *)
Definition getPositiveTimeout (env : Env) (envKey : string)
  (defaultSeconds : Z) : Duration :=
  let seconds := getEnvAsInt env envKey defaultSeconds in
  let seconds := if seconds <=? 0 then defaultSeconds else seconds in
  wrap64 (seconds * Second).

Definition getRequestTimeout (env : Env) : Duration :=
  getPositiveTimeout env "REQUEST_TIMEOUT_SECONDS" 60.
Definition getAITimeout (env : Env) : Duration :=
  getPositiveTimeout env "AI_REQUEST_TIMEOUT_SECONDS" 30.
Definition getVerifierTimeout (env : Env) : Duration :=
  getPositiveTimeout env "VERIFIER_TIMEOUT_SECONDS" 2.

(** [getRecipientAddress]; the warning it logs when no recipient is
    configured is not recorded. *)
Definition getRecipientAddress (env : Env) : string :=
  let addr := Getenv env "RECIPIENT_ADDRESS" in
  if String.eqb addr "" then "0x2cAF48b4BA1C58721a85dFADa5aC01C2DFa62219"
  else addr.

Definition getPaymentAmount (env : Env) : string :=
  let amount := Getenv env "PAYMENT_AMOUNT" in
  if String.eqb amount "" then "0.001" else amount.

(** [getChainID]; the warning it logs for a value that is no number is
    not recorded. *)
Definition getChainID (env : Env) : Z :=
  let chainIDStr := Getenv env "CHAIN_ID" in
  if String.eqb chainIDStr "" then 8453
  else match strconv_Atoi chainIDStr with
       | inr chainID => chainID
       | inl _ => 8453
       end.

Definition getReceiptTTL (env : Env) : Duration :=
  wrap64 (getEnvAsInt env "RECEIPT_TTL" 86400 * Second).

(** [createPaymentContext] (main.go, lines 426-434) *)
Definition createPaymentContext (env : Env) : PaymentContext :=
  {| Recipient := getRecipientAddress env;
     Token := "USDC";
     Amount := getPaymentAmount env;
     Nonce := uuid_New env;
     ChainID := getChainID env |}.

(** ** The verification orchestrator (main.go, lines 327-384) *)

Definition verifyPayment (env : Env) (ctx : GoContext)
  (signature nonce : string)
  : GoError + (VerifyResponse * PaymentContext) :=
  let paymentCtx :=
    {| Recipient := getRecipientAddress env;
       Token := "USDC";
       Amount := getPaymentAmount env;
       Nonce := nonce;
       ChainID := getChainID env |} in
  let verifyReq :=
    {| vreq_Context := paymentCtx; vreq_Signature := signature |} in
  match json_Marshal (VerifyRequest_json verifyReq) with
  | inl err => inl (Wrap "marshal verification request" err)
  | inr verifyBody =>
      let verifierURL :=
        if String.eqb (Getenv env "VERIFIER_URL") ""
        then "http://127.0.0.1:3002"
        else Getenv env "VERIFIER_URL" in
      let verifierCtx :=
        fst (context_WithTimeout (time_Now env) ctx
               (getVerifierTimeout env)) in
      match verifier_Do env (String.append verifierURL "/verify")
              verifyBody (ctx_correlation_id ctx) verifierCtx with
      | NewRequestFailed err => inl (Wrap "create verifier request" err)
      | DoFailed err => inl (Wrap "verifier request failed" err)
      | Responded statusCode decoded =>
          if negb (statusCode =? 200) then
            inl (ErrorString
                   (String.append "verifier returned status "
                      (Itoa statusCode)))
          else
            match decoded with
            | inl err => inl (Wrap "decode verification response" err)
            | inr verifyResp => inr (verifyResp, paymentCtx)
            end
      end
  end.

(** ** Process state *)

(** The Redis client: the stored strings and, when the server cannot be
    reached or the call is cut short, the error every command returns.
    Expiry of entries is the server's business and is not represented. *)
Record RedisClient : Type := mkRedisClient {
  rd_data : gmap string string;
  rd_error : option GoError
}.

Definition redis_Get (rc : RedisClient) (key : string) : GoError + string :=
  match rd_error rc with
  | Some err => inl err
  | None =>
      match rd_data rc !! key with
      | Some val => inr val
      | None => inl (ErrorString "redis: nil")
      end
  end.

Definition redis_Set (rc : RedisClient) (key val : string) (ttl : Duration)
  : RedisClient * option GoError :=
  match rd_error rc with
  | Some err => (rc, Some err)
  | None => (mkRedisClient (<[key := val]> (rd_data rc)) None, None)
  end.

Record receiptEntry : Type := mkReceiptEntry {
  receipt : SignedReceipt;
  expiresAt : Time
}.

(** A goroutine started with [go] and not waited for: the cache store of
    [CacheMiddleware] with its key, its value and its own timeout. *)
Inductive Goroutine : Type :=
| StoreTask (k v : string) (timeout : Duration).

(** The package-level variables [redisClient] and [receiptStore], the
    goroutines started and not yet run, and the lines logged. [logs]
    holds the lines that the handlers, the middleware and the receipt
    store print themselves. The warnings of the configuration getters
    ([getRecipientAddress], [getChainID], [getEnvAsInt]) and the dump of
    a provider response without choices in [callOpenRouter] are not
    recorded: those functions are read for the values they return. *)
Record Globals : Type := mkGlobals {
  redisClient : option RedisClient;
  receiptStore : gmap string receiptEntry;
  goroutines : list Goroutine;
  logs : list string
}.

Definition log_Printf (line : string) (g : Globals) : Globals :=
  mkGlobals (redisClient g) (receiptStore g) (goroutines g)
    (logs g ++ [line])%list.

Definition go (t : Goroutine) (g : Globals) : Globals :=
  mkGlobals (redisClient g) (receiptStore g) (goroutines g ++ [t])%list
    (logs g).

Definition set_redisClient (rc : option RedisClient) (g : Globals)
  : Globals :=
  mkGlobals rc (receiptStore g) (goroutines g) (logs g).

Definition set_receiptStore (s : gmap string receiptEntry) (g : Globals)
  : Globals :=
  mkGlobals (redisClient g) s (goroutines g) (logs g).

(** ** Receipts (main.go, lines 736-836) *)

(** The zero [time.Time] is January 1 of year 1. *)
Definition zeroTime : Time := -62135596800 * Second.

Definition validateReceipt (receipt : option SignedReceipt)
  : option GoError :=
  match receipt with
  | None => Some (ErrorString "receipt is nil")
  | Some r =>
      let rc := Receipt_ r in
      if String.eqb (ID rc) "" then
        Some (ErrorString "receipt ID is empty")
      else if negb (String.prefix "rcpt_" (ID rc)) then
        Some (ErrorString "receipt ID must start with 'rcpt_'")
      else if String.eqb (Version rc) "" then
        Some (ErrorString "receipt version is empty")
      else if Timestamp rc =? zeroTime then
        Some (ErrorString "receipt timestamp is zero")
      else if String.eqb (Payer (Payment rc)) "" then
        Some (ErrorString "payer address is empty")
      else if String.eqb (pd_Recipient (Payment rc)) "" then
        Some (ErrorString "recipient address is empty")
      else if String.eqb (pd_Amount (Payment rc)) "" then
        Some (ErrorString "payment amount is empty")
      else if String.eqb (pd_Token (Payment rc)) "" then
        Some (ErrorString "token is empty")
      else if String.eqb (pd_Nonce (Payment rc)) "" then
        Some (ErrorString "nonce is empty")
      else if String.eqb (Endpoint (Service rc)) "" then
        Some (ErrorString "service endpoint is empty")
      else if String.eqb (RequestHash (Service rc)) "" then
        Some (ErrorString "request hash is empty")
      else if String.eqb (ResponseHash (Service rc)) "" then
        Some (ErrorString "response hash is empty")
      else if String.eqb (Signature r) "" then
        Some (ErrorString "signature is empty")
      else if negb (String.prefix "0x" (Signature r)) then
        Some (ErrorString "signature must start with '0x'")
      else if String.eqb (ServerPublicKey r) "" then
        Some (ErrorString "server public key is empty")
      else if negb (String.prefix "0x" (ServerPublicKey r)) then
        Some (ErrorString "server public key must start with '0x'")
      else None
  end.

Definition storeReceipt (env : Env) (receipt : option SignedReceipt)
  (ttl : Duration) (g : Globals) : Globals * option GoError :=
  match validateReceipt receipt with
  | Some err => (g, Some (Wrap "invalid receipt format" err))
  | None =>
      match receipt with
      | Some r =>
          (set_receiptStore
             (<[ID (Receipt_ r) :=
                  mkReceiptEntry r (time_Now env + ttl)]> (receiptStore g))
             g, None)
      | None => (g, Some (Wrap "invalid receipt format"
                            (ErrorString "receipt is nil")))
      end
  end.

Definition getReceipt (env : Env) (id : string) (g : Globals)
  : option SignedReceipt :=
  match receiptStore g !! id with
  | None => None
  | Some entry =>
      if expiresAt entry <? time_Now env then None
      else Some (receipt entry)
  end.

(** Modelled from the spec: [GenerateReceipt], whose file (receipt.go) is
    not among the sources. Per section 4.5, issuance "computes content
    hashes of the exact request and response bytes, assembles the
    Receipt, signs it with the server's long-lived signing key"; the id
    is "freshly generated, prefixed, high-entropy"; per section 3 the
    payment details are payer, recipient, amount, token and nonce, and
    the service details the endpoint path and the two content hashes. *)
Definition GenerateReceipt (env : Env) (paymentCtx : PaymentContext)
  (payer endpoint requestBody responseBody : string)
  : GoError + SignedReceipt :=
  let r :=
    {| ID := String.append "rcpt_" (receipt_entropy env);
       Version := receipt_version env;
       Timestamp := time_Now env;
       Payment :=
         {| Payer := payer;
            pd_Recipient := Recipient paymentCtx;
            pd_Amount := Amount paymentCtx;
            pd_Token := Token paymentCtx;
            pd_Nonce := Nonce paymentCtx |};
       Service :=
         {| Endpoint := endpoint;
            RequestHash := content_hash requestBody;
            ResponseHash := content_hash responseBody |} |} in
  match sign_receipt env r with
  | inl err => inl err
  | inr (sig, pub) =>
      inr {| Receipt_ := r; Signature := sig; ServerPublicKey := pub |}
  end.

(** [generateAndSendReceipt] (main.go, lines 389-423) *)
Definition generateAndSendReceipt {W} `{ResponseWriter W} (env : Env)
  (c : Context W) (g : Globals) (paymentCtx : PaymentContext)
  (recoveredAddr requestBody aiResult : string)
  : Globals * Context W * option GoError :=
  let responseMap := JObject [("result", JString aiResult)] in
  match json_Marshal responseMap with
  | inl err =>
      (g, c_JSON 500
            (JObject [("error", JString "Failed to encode response")]) c,
       Some err)
  | inr responseBody =>
      match GenerateReceipt env paymentCtx recoveredAddr
              (req_Path (Request_ c)) requestBody responseBody with
      | inl err =>
          (g, c_JSON 500
                (JObject [("error", JString "Failed to generate receipt");
                          ("details", JString (GoError_Error err))]) c,
           Some err)
      | inr receipt =>
          match storeReceipt env (Some receipt) (getReceiptTTL env) g with
          | (g1, Some err) =>
              (g1, c_JSON 500
                     (JObject [("error", JString "Failed to store receipt")])
                     c,
               Some err)
          | (g1, None) =>
              match json_Marshal_receipt receipt with
              | inl err =>
                  (g1, c_JSON 500
                         (JObject
                            [("error", JString "Failed to encode receipt")])
                         c,
                   Some err)
              | inr receiptJSON =>
                  let receiptBase64 := base64_EncodeToString receiptJSON in
                  (g1, c_JSON 200 responseMap
                         (c_Header "X-402-Receipt" receiptBase64 c),
                   None)
              end
          end
      end
  end.

(** ** The provider call (main.go, lines 476-546) *)

(** Indexing a decoded JSON object; when a name occurs twice the decoder
    keeps the later value. *)
Definition JObject_get (fields : list (string * JValue)) (k : string)
  : option JValue :=
  match List.filter (fun kv => String.eqb (fst kv) k) fields with
  | [] => None
  | kv :: rest => Some (snd (List.last rest kv))
  end.

(** [callOpenRouter]: the result or the error. The line that prints a
    provider response without choices is not recorded. *)
Definition callOpenRouter (env : Env) (ctx : GoContext) (text : string)
  : GoError + string :=
  let model :=
    if String.eqb (Getenv env "OPENROUTER_MODEL") ""
    then "z-ai/glm-4.5-air:free" else Getenv env "OPENROUTER_MODEL" in
  let prompt := String.append "Summarize this text in 2 sentences: " text in
  let reqBody :=
    match json_Marshal
            (JObject [("model", JString model);
                      ("messages",
                       JArray [JObject [("role", JString "user");
                                        ("content", JString prompt)]])]) with
    | inr b => b
    | inl _ => ""
    end in
  let openRouterURL :=
    if String.eqb (Getenv env "OPENROUTER_URL") ""
    then "https://openrouter.ai/api/v1/chat/completions"
    else Getenv env "OPENROUTER_URL" in
  match provider_Do env openRouterURL reqBody ctx with
  | ProviderNewRequestFailed err =>
      inl (Wrap "failed to create OpenRouter request" err)
  | ProviderDoFailed err =>
      if errors_Is_DeadlineExceeded err
         || match ctx_Err env ctx with
            | Some DeadlineExceeded => true
            | _ => false
            end
      then inl DeadlineExceeded
      else inl err
  | ProviderResponded (inl err) =>
      inl (Wrap "failed to decode AI response" err)
  | ProviderResponded (inr result) =>
      match result !! "choices" with
      | Some (JArray (choice0 :: _)) =>
          match choice0 with
          | JObject choice =>
              match JObject_get choice "message" with
              | Some (JObject message) =>
                  match JObject_get message "content" with
                  | Some (JString content) => inr content
                  | _ => inl (ErrorString
                      "invalid response from AI provider: missing content")
                  end
              | _ => inl (ErrorString
                  "invalid response from AI provider: malformed message")
              end
          | _ => inl (ErrorString
              "invalid response from AI provider: malformed choice")
          end
      | _ => inl (ErrorString
          "invalid response from AI provider: no choices")
      end
  end.

(** ** [handleSummarize] (main.go, lines 233-324)

    A handler returns [None] when it panics. *)

Definition maxBodySize : Z := 10 * 1024 * 1024.

(** The response of both call sites to an error of [verifyPayment]. *)
Definition verification_error_response {W} `{ResponseWriter W}
  (err : GoError) (c : Context W) : Context W :=
  if errors_Is_DeadlineExceeded err then
    c_JSON 504
      (JObject [("error", JString "Gateway Timeout");
                ("message", JString "Verifier request timed out")]) c
  else
    c_JSON 500
      (JObject [("error", JString "Verification Service Failed");
                ("message", JString "An internal error occurred")]) c.

(** From the comment [// Verify] (line 275) to the end. *)
Definition handleSummarize_verify {W} `{ResponseWriter W} (env : Env)
  (signature nonce requestBody : string) (c : Context W) (g : Globals)
  : Globals * Context W :=
  match verifyPayment env (req_Context (Request_ c)) signature nonce with
  | inl err =>
      let g := log_Printf (String.append "Verification error: "
                             (GoError_Error err)) g in
      (g, verification_error_response err c)
  | inr (verifyResp, paymentCtx) =>
      if negb (IsValid verifyResp) then
        (g, c_JSON 403
              (JObject [("error", JString "Invalid Signature");
                        ("details", JString (Error verifyResp))]) c)
      else
        match json_Unmarshal_SummarizeRequest requestBody with
        | inl _ =>
            (g, c_JSON 400
                  (JObject [("error", JString "Invalid request body")]) c)
        | inr req =>
            if String.eqb (Text req) "" then
              (g, c_JSON 400
                    (JObject [("error", JString "Invalid request");
                              ("message",
                               JString "text field cannot be empty")]) c)
            else
              match callOpenRouter env (req_Context (Request_ c))
                      (Text req) with
              | inl err =>
                  if errors_Is_DeadlineExceeded err
                     || match ctx_Err env (req_Context (Request_ c)) with
                        | Some DeadlineExceeded => true
                        | _ => false
                        end
                  then
                    (g, c_JSON 504
                          (JObject [("error", JString "Gateway Timeout");
                                    ("message",
                                     JString "AI request timed out")]) c)
                  else
                    (g, c_JSON 500
                          (JObject [("error", JString "AI Service Failed");
                                    ("details",
                                     JString (GoError_Error err))]) c)
              | inr summary =>
                  match generateAndSendReceipt env c g paymentCtx
                          (RecoveredAddress verifyResp) requestBody
                          summary with
                  | (g1, c1, Some err) =>
                      (log_Printf (String.append
                                     "Failed to generate receipt: "
                                     (GoError_Error err)) g1, c1)
                  | (g1, c1, None) => (g1, c1)
                  end
              end
        end
  end.

Definition handleSummarize {W} `{ResponseWriter W} (env : Env)
  (c : Context W) (g : Globals) : option (Globals * Context W) :=
  let signature := c_GetHeader c "X-402-Signature" in
  let nonce := c_GetHeader c "X-402-Nonce" in
  if String.eqb signature "" || String.eqb nonce "" then
    Some (g, c_JSON 402
               (JObject [("error", JString "Payment Required");
                         ("message",
                          JString "Please sign the payment context");
                         ("paymentContext",
                          PaymentContext_json (createPaymentContext env))])
               c)
  else
    match c_Get c "request_body" with
    | Some (KBytes requestBody) =>
        Some (handleSummarize_verify env signature nonce requestBody c g)
    | Some _ => None (* the type assertion [body.([]byte)] panics *)
    | None =>
        match req_Body (Request_ c) with
        | None => None (* reading through a nil reader panics *)
        | Some body =>
            match ReadAll_MaxBytes maxBodySize body with
            | inl err =>
                if errors_As_MaxBytesError err then
                  Some (g, c_JSON 413
                             (JObject [("error", JString "Payload too large");
                                       ("max_size", JString "10MB")]) c)
                else
                  Some (g, c_JSON 500
                             (JObject [("error",
                                        JString "Failed to read request body")])
                             c)
            | inr requestBody =>
                Some (handleSummarize_verify env signature nonce
                        requestBody c g)
            end
        end
    end.

(** ** The response cache (cache.go) *)

(** [cachedWriter] (lines 250-269): the embedded writer and a copy of
    every body byte written through it. *)
Record cachedWriter (W : Type) : Type := mkCachedWriter {
  cw_ResponseWriter : W;
  cw_body : string;
  cw_cacheKey : string
}.
Arguments mkCachedWriter {W} _ _ _.
Arguments cw_ResponseWriter {W} _.
Arguments cw_body {W} _.
Arguments cw_cacheKey {W} _.

Definition cw_lift {W} (f : W -> W) (w : cachedWriter W) : cachedWriter W :=
  mkCachedWriter (f (cw_ResponseWriter w)) (cw_body w) (cw_cacheKey w).

Definition cw_Write {W} `{ResponseWriter W} (data : string)
  (w : cachedWriter W) : cachedWriter W * (Z * option GoError) :=
  let r := rw_Write data (cw_ResponseWriter w) in
  (mkCachedWriter (fst r) (String.append (cw_body w) data) (cw_cacheKey w),
   snd r).

Definition cw_WriteString {W} `{ResponseWriter W} (s : string)
  (w : cachedWriter W) : cachedWriter W * (Z * option GoError) :=
  let r := rw_WriteString s (cw_ResponseWriter w) in
  (mkCachedWriter (fst r) (String.append (cw_body w) s) (cw_cacheKey w),
   snd r).

#[export] Instance cachedWriter_ResponseWriter {W} `{ResponseWriter W}
  : ResponseWriter (cachedWriter W) := {
  rw_Header w := rw_Header (cw_ResponseWriter w);
  rw_HeaderUpdate f := cw_lift (rw_HeaderUpdate f);
  rw_WriteHeader code := cw_lift (rw_WriteHeader code);
  rw_WriteHeaderNow := cw_lift rw_WriteHeaderNow;
  rw_Write := cw_Write;
  rw_WriteString := cw_WriteString;
  rw_Status w := rw_Status (cw_ResponseWriter w)
}.

Definition getCacheKey (text model : string) : string :=
  let cacheVersion := "v1" in
  let combined :=
    String.concat "" [cacheVersion; ":"; text; ":"; model] in
  String.append "ai:summary:" (sha256_hex combined).

Definition getFromCache (g : Globals) (key : string)
  : GoError + CachedResponse :=
  match redisClient g with
  | None => inl (ErrorString "redis not available")
  | Some rc =>
      match redis_Get rc key with
      | inl err => inl err
      | inr val => json_Unmarshal_CachedResponse val
      end
  end.

Definition safeKeyPrefix (key : string) : string :=
  if 32 <? len key then String.append (String.substring 0 32 key) "..."
  else key.

(** [time.Now().Unix()] *)
Definition Unix (t : Time) : Z := t / Second.

Definition storeInCache (env : Env) (key data : string) (g : Globals)
  : Globals :=
  match redisClient g with
  | None => g
  | Some rc =>
      let ttl :=
        wrap64 (getEnvAsInt env "CACHE_TTL_SECONDS" 3600 * Second) in
      let cached := {| Result := data; CachedAt := Unix (time_Now env) |} in
      match json_Marshal (CachedResponse_json cached) with
      | inl err =>
          log_Printf
            (String.concat ""
               ["[WARNING] Failed to marshal cache data for key ";
                safeKeyPrefix key; ": "; GoError_Error err]) g
      | inr jsonData =>
          match redis_Set rc key jsonData ttl with
          | (rc1, Some err) =>
              log_Printf
                (String.concat ""
                   ["[WARNING] Failed to store in cache for key ";
                    safeKeyPrefix key; ": "; GoError_Error err])
                (set_redisClient (Some rc1) g)
          | (rc1, None) => set_redisClient (Some rc1) g
          end
      end
  end.

(** Running a goroutine that was started earlier. *)
Definition run_goroutine (env : Env) (t : Goroutine) (g : Globals)
  : Globals :=
  match t with
  | StoreTask k v _ => storeInCache env k v g
  end.

Definition payload_too_large {W} `{ResponseWriter W} (c : Context W)
  : Context W :=
  c_Abort
    (c_JSON 413
       (JObject [("error", JString "Payload too large");
                 ("max_size", JString "10MB")])
       (c_Header "Connection" "close" c)).

(** The cache HIT branch (lines 111-149). *)
Definition CacheMiddleware_hit {W} `{ResponseWriter W} (env : Env)
  (signature nonce requestBody : string) (cached : CachedResponse)
  (c : Context W) (g : Globals) : Globals * Context W :=
  match verifyPayment env (req_Context (Request_ c)) signature nonce with
  | inl err =>
      let g := log_Printf (String.append "Verification error on cache hit: "
                             (GoError_Error err)) g in
      (g, c_Abort (verification_error_response err c))
  | inr (verifyResp, paymentCtx) =>
      if negb (IsValid verifyResp) then
        (g, c_Abort
              (c_JSON 403
                 (JObject [("error", JString "Invalid Signature");
                           ("details", JString (Error verifyResp))]) c))
      else
        let c := c_Set "payment_verification" (KVerifyResponse verifyResp) c in
        let c := c_Set "payment_context" (KPaymentContext paymentCtx) c in
        match generateAndSendReceipt env c g paymentCtx
                (RecoveredAddress verifyResp) requestBody
                (Result cached) with
        | (g1, c1, Some err) =>
            (log_Printf (String.append
                           "Failed to send cached response receipt: "
                           (GoError_Error err)) g1, c_Abort c1)
        | (g1, c1, None) => (g1, c_Abort c1)
        end
  end.

(** The cache MISS branch (lines 151-184). The wrapper stays installed
    in the source; nothing reads what it captured once the middleware has
    returned, and the context is given back with the embedded writer. *)
Definition CacheMiddleware_miss {W} `{ResponseWriter W}
  (next : forall W', ResponseWriter W' -> Context W' -> Globals
                     -> option (Globals * Context W'))
  (cacheKey : string) (c : Context W) (g : Globals)
  : option (Globals * Context W) :=
  let writer := mkCachedWriter (Writer c) "" cacheKey in
  match next (cachedWriter W) _ (set_Writer writer c) g with
  | None => None
  | Some (g1, c1) =>
      let statusCode := rw_Status (cw_ResponseWriter (Writer c1)) in
      let bodyBytes := cw_body (Writer c1) in
      let g2 :=
        if statusCode =? 200 then
          match json_Unmarshal_map bodyBytes with
          | inr resp =>
              match resp !! "result" with
              | Some (JString result) =>
                  go (StoreTask cacheKey result (5 * Second)) g1
              | _ => g1
              end
          | inl _ => g1
          end
        else g1 in
      Some (g2, set_Writer (cw_ResponseWriter (Writer c1)) c1)
  end.

Definition CacheMiddleware {W} `{ResponseWriter W} (env : Env)
  (next : forall W', ResponseWriter W' -> Context W' -> Globals
                     -> option (Globals * Context W'))
  (c : Context W) (g : Globals) : option (Globals * Context W) :=
  match redisClient g with
  | None => next W _ c g
  | Some _ =>
      let signature := c_GetHeader c "X-402-Signature" in
      let nonce := c_GetHeader c "X-402-Nonce" in
      if String.eqb signature "" || String.eqb nonce "" then next W _ c g
      else if maxBodySize <? req_ContentLength (Request_ c) then
        Some (g, payload_too_large c)
      else
        (* lines 57-81: the body is read, kept under [request_body] and
           put back on the request *)
        let read : (Globals * Context W) + (string * Context W) :=
          match req_Body (Request_ c) with
          | None => inr ("", c)
          | Some body =>
              match ReadAll_MaxBytes maxBodySize body with
              | inl err =>
                  if errors_As_MaxBytesError err then
                    inl (g, payload_too_large c)
                  else
                    inl (log_Printf
                           (String.append
                              "[ERROR] Failed to read request body: "
                              (GoError_Error err)) g,
                         c_Abort
                           (c_JSON 500
                              (JObject
                                 [("error",
                                   JString "Failed to read request body")])
                              c))
              | inr requestBody =>
                  let c := c_Set "request_body" (KBytes requestBody) c in
                  let r := Request_ c in
                  inr (requestBody,
                       set_Request
                         (mkRequest (req_Header r) (req_ContentLength r)
                            (Some (BodyData requestBody)) (req_Context r)
                            (req_Path r) (req_ClientIP r)) c)
              end
          end in
        match read with
        | inl resp => Some resp
        | inr (requestBody, c) =>
            match json_Unmarshal_SummarizeRequest requestBody with
            | inl err =>
                Some (log_Printf
                        (String.append "[DEBUG] Invalid JSON in request: "
                           (GoError_Error err)) g,
                      c_Abort
                        (c_JSON 400
                           (JObject
                              [("error", JString "Invalid request body");
                               ("message",
                                JString "Request must be valid JSON")]) c))
            | inr req =>
                if String.eqb (Text req) "" then
                  Some (g, c_Abort
                             (c_JSON 400
                                (JObject
                                   [("error", JString "Invalid request");
                                    ("message",
                                     JString "text field cannot be empty")])
                                c))
                else
                  let model :=
                    if String.eqb (Getenv env "OPENROUTER_MODEL") ""
                    then "z-ai/glm-4.5-air:free"
                    else Getenv env "OPENROUTER_MODEL" in
                  let cacheKey := getCacheKey (Text req) model in
                  match getFromCache g cacheKey with
                  | inr cached =>
                      Some (CacheMiddleware_hit env signature nonce
                              requestBody cached c
                              (log_Printf
                                 (String.append "Cache HIT: " cacheKey) g))
                  | inl _ =>
                      CacheMiddleware_miss next cacheKey c
                        (log_Printf
                           (String.append "Cache MISS: " cacheKey) g)
                  end
            end
        end
  end.

(** ** Rate limiting middleware (main.go, lines 575-662) *)

(** The [RateLimiter] interface: the three methods the middleware calls.
    A limiter reads the clock and updates its buckets, so each method
    also returns the limiter. *)
Class RateLimiter (L : Type) : Type := {
  Allow : string -> L -> bool * L;
  GetRemaining : string -> L -> Z * L;
  GetResetTime : string -> L -> Z * L
}.


Definition getRateLimitKey {W} (c : Context W) : string :=
  let signature := c_GetHeader c "X-402-Signature" in
  let nonce := c_GetHeader c "X-402-Nonce" in
  if negb (String.eqb signature "") && negb (String.eqb nonce "") then
    String.append "nonce:" (String.substring 0 32 (sha256_hex nonce))
  else String.append "ip:" (req_ClientIP (Request_ c)).

Definition selectRateLimitTier {W} (c : Context W) : string :=
  let signature := c_GetHeader c "X-402-Signature" in
  let nonce := c_GetHeader c "X-402-Nonce" in
  if negb (String.eqb signature "") && negb (String.eqb nonce "") then
    "standard"
  else "anonymous".

Definition calculateRetryAfter {L} `{RateLimiter L} (env : Env)
  (limiter : L) (key : string) : Z * L :=
  let (resetTime, limiter) := GetResetTime key limiter in
  let now := Unix (time_Now env) in
  let retryAfter := wrap64 (resetTime - now) in
  if retryAfter <? 1 then (1, limiter) else (retryAfter, limiter).

Definition getLimitForTier (env : Env) (tier : string) : Z :=
  if String.eqb tier "anonymous" then
    getEnvAsInt env "RATE_LIMIT_ANONYMOUS_RPM" 10
  else if String.eqb tier "standard" then
    getEnvAsInt env "RATE_LIMIT_STANDARD_RPM" 60
  else if String.eqb tier "verified" then
    getEnvAsInt env "RATE_LIMIT_VERIFIED_RPM" 120
  else 10.

(** The middleware gives back the limiters as the calls left them. It
    panics ([None]) when no limiter is registered for the tier. *)
Definition RateLimitMiddleware {W L} `{ResponseWriter W} `{RateLimiter L}
  (env : Env) (limiters : gmap string L)
  (next : Context W -> Globals -> option (Globals * Context W))
  (c : Context W) (g : Globals)
  : option (gmap string L * (Globals * Context W)) :=
  let key := getRateLimitKey c in
  let tier := selectRateLimitTier c in
  match limiters !! tier with
  | None => None
  | Some limiter =>
      let (allowed, limiter) := Allow key limiter in
      if negb allowed then
        let (retryAfter, limiter) := calculateRetryAfter env limiter key in
        let c := c_Header "Retry-After" (Itoa retryAfter) c in
        let c := c_Header "X-RateLimit-Limit"
                   (Itoa (getLimitForTier env tier)) c in
        let c := c_Header "X-RateLimit-Remaining" "0" c in
        let (reset, limiter) := GetResetTime key limiter in
        let c := c_Header "X-RateLimit-Reset" (Itoa reset) c in
        let c :=
          c_JSON 429
            (JObject [("error", JString "Too Many Requests");
                      ("message",
                       JString "Rate limit exceeded. Please retry later.");
                      ("retry_after", JInt retryAfter)]) c in
        Some (<[tier := limiter]> limiters, (g, c_Abort c))
      else
        let c := c_Header "X-RateLimit-Limit"
                   (Itoa (getLimitForTier env tier)) c in
        let (remaining, limiter) := GetRemaining key limiter in
        let c := c_Header "X-RateLimit-Remaining" (Itoa remaining) c in
        let (reset, limiter) := GetResetTime key limiter in
        let c := c_Header "X-RateLimit-Reset" (Itoa reset) c in
        match next c g with
        | None => None
        | Some r => Some (<[tier := limiter]> limiters, r)
        end
  end.

End Gateway.

Arguments mkCachedWriter {W} _ _ _.
Arguments cw_ResponseWriter {W} _.
Arguments cw_body {W} _.
Arguments cw_cacheKey {W} _.

(** ** Receipt housekeeping and lookup (main.go, lines 716-732 and 845-863) *)

Section ReceiptEndpoints.
Context `{Library}.

(** One turn of the loop of [cleanupExpiredReceipts]: the store so far
    and the number of entries deleted. *)
Definition cleanup_visit (now : Time)
  (acc : gmap string receiptEntry * Z) (kv : string * receiptEntry)
  : gmap string receiptEntry * Z :=
  if expiresAt (snd kv) <? now
  then (delete (fst kv) (fst acc), snd acc + 1)
  else acc.

(** [cleanupExpiredReceipts]: ranges over the store, deletes the entries
    [now] is after, and logs how many there were when there were any. *)
Definition cleanupExpiredReceipts (env : Env) (g : Globals) : Globals :=
  let now := time_Now env in
  let swept :=
    fold_left (cleanup_visit now) (map_to_list (receiptStore g))
      (receiptStore g, 0) in
  let g := set_receiptStore (fst swept) g in
  if 0 <? snd swept then
    log_Printf
      (String.concat ""
         ["Cleaned up "; Itoa (snd swept); " expired receipts"]) g
  else g.

(** The document of the [json] tags of [Receipt], whose declaration
    (receipt.go) is not among the sources. *)
Variable Receipt_json : Receipt -> JValue.

(** [handleGetReceipt]; [id] is [c.Param("id")]. *)
Definition handleGetReceipt {W} `{ResponseWriter W} (env : Env)
  (id : string) (c : Context W) (g : Globals) : Context W :=
  match getReceipt env id g with
  | None =>
      c_JSON 404
        (JObject [("error", JString "Receipt not found");
                  ("message",
                   JString "Receipt may have expired or never existed")]) c
  | Some receipt =>
      c_JSON 200
        (JObject [("receipt", Receipt_json (Receipt_ receipt));
                  ("signature", JString (Signature receipt));
                  ("server_public_key", JString (ServerPublicKey receipt));
                  ("status", JString "valid")]) c
  end.

End ReceiptEndpoints.

(** A call that writes the receipt store. *)
Inductive ReceiptOp : Type :=
| OpStore (env : Env) (receipt : option SignedReceipt) (ttl : Duration)
| OpCleanup (env : Env).

Definition run_receipt_op `{Library} (g : Globals) (op : ReceiptOp)
  : Globals :=
  match op with
  | OpStore env receipt ttl => fst (storeReceipt env receipt ttl g)
  | OpCleanup env => cleanupExpiredReceipts env g
  end.

(** ** Start-up configuration (main.go, lines 45-53 and 78-92; the
    timeout helpers) *)

(** [\d] of the regular expression: an ASCII digit. *)
Definition isDigit (a : ascii) : bool :=
  ((48 <=? N_of_ascii a) && (N_of_ascii a <=? 57))%N.

Fixpoint skip_digits (s : string) : string :=
  match s with
  | String a rest => if isDigit a then skip_digits rest else s
  | EmptyString => s
  end.

(** [\d+] at the head of [s]: what follows the longest run of digits,
    which has to have one digit at least. No shorter run can be followed
    by the [\.] or the end of text the expression asks for next. *)
Definition match_digits (s : string) : option string :=
  match s with
  | String a rest => if isDigit a then Some (skip_digits rest) else None
  | EmptyString => None
  end.

(** [\.] at the head of [s]. *)
Definition match_dot (s : string) : option string :=
  match s with
  | String a rest => if Ascii.eqb a "."%char then Some rest else None
  | EmptyString => None
  end.

(** [swaggerVersionRe.MatchString], the expression being
    [^\d+\.\d+\.\d+$]. *)
Definition swaggerVersionRe_MatchString (v : string) : bool :=
  match match_digits v with
  | Some r1 =>
      match match_dot r1 with
      | Some r2 =>
          match match_digits r2 with
          | Some r3 =>
              match match_dot r3 with
              | Some r4 =>
                  match match_digits r4 with
                  | Some EmptyString => true
                  | _ => false
                  end
              | None => false
              end
          | None => false
          end
      | None => false
      end
  | None => false
  end.

Definition getSwaggerUIVersion (env : Env) : string :=
  let v := Getenv env "SWAGGER_UI_VERSION" in
  if swaggerVersionRe_MatchString v then v else "5.11.0".

(** [validateConfig]; [%v] of a slice of strings writes them between
    brackets with spaces in between. *)
Definition validateConfig (env : Env) : option GoError :=
  let required := ["OPENROUTER_API_KEY"] in
  let missing :=
    List.filter (fun key => String.eqb (Getenv env key) "") required in
  if 0 <? Z.of_nat (length missing) then
    Some (ErrorString
            (String.concat ""
               ["missing required environment variables: [";
                String.concat " " missing; "]"]))
  else None.

Section Configuration.
Context `{Library}.

Definition getHealthCheckTimeout (env : Env) : Duration :=
  getPositiveTimeout env "HEALTH_CHECK_TIMEOUT_SECONDS" 2.

End Configuration.

(** ** The server key (main.go, lines 866-920) *)

(** [strings.TrimPrefix] *)
Definition strings_TrimPrefix (s prefix : string) : string :=
  if String.prefix prefix s then
    String.substring (String.length prefix)
      (String.length s - String.length prefix) s
  else s.

(** [reverseHexTable] of [encoding/hex]: the value of a hexadecimal
    digit of either case. *)
Definition fromHexChar (a : ascii) : option N :=
  let n := N_of_ascii a in
  (if (48 <=? n) && (n <=? 57) then Some (n - 48)
   else if (97 <=? n) && (n <=? 102) then Some (n - 87)
   else if (65 <=? n) && (n <=? 70) then Some (n - 55)
   else None)%N.

Definition hex_ErrLength : GoError :=
  ErrorString "encoding/hex: odd length hex string".

Section ServerKey.

(** [hex.InvalidByteError] as an error value, the parsed key, and
    [crypto.ToECDSA]. *)
Variable hex_InvalidByteError : ascii -> GoError.
Variable PrivateKey : Type.
Variable crypto_ToECDSA : string -> GoError + PrivateKey.

(** [hex.DecodeString]: pairs of digits from the left; the first
    character that is no digit is the error, and a digit left over at
    the end is [ErrLength]. *)
Fixpoint hex_DecodeString (s : string) : GoError + string :=
  match s with
  | EmptyString => inr EmptyString
  | String p EmptyString =>
      match fromHexChar p with
      | None => inl (hex_InvalidByteError p)
      | Some _ => inl hex_ErrLength
      end
  | String p (String q rest) =>
      match fromHexChar p with
      | None => inl (hex_InvalidByteError p)
      | Some a =>
          match fromHexChar q with
          | None => inl (hex_InvalidByteError q)
          | Some b =>
              match hex_DecodeString rest with
              | inl err => inl err
              | inr bytes =>
                  inr (String (ascii_of_N (16 * a + b)) bytes)
              end
          end
      end
  end.

(** [make([]byte, n)] *)
Definition zero_bytes (n : nat) : string :=
  string_of_list_ascii (repeat Ascii.zero n).

(** The function given to [serverPrivateKeyOnce.Do]: the values it
    leaves in [serverPrivateKey] and [serverPrivateKeyErr], and whether
    it logged the success. *)
Definition loadServerPrivateKey (env : Env)
  : option PrivateKey * option GoError * bool :=
  let keyHex := Getenv env "SERVER_WALLET_PRIVATE_KEY" in
  if String.eqb keyHex "" then
    (None, Some (ErrorString "SERVER_WALLET_PRIVATE_KEY not set"), false)
  else
    let keyHex := strings_TrimPrefix keyHex "0x" in
    match hex_DecodeString keyHex with
    | inl err => (None, Some (Wrap "invalid private key format" err), false)
    | inr keyBytes =>
        if len keyBytes <? 31 then
          (None,
           Some (ErrorString
                   (String.concat ""
                      ["private key too short: got "; Itoa (len keyBytes);
                       " bytes, expected at least 31 bytes"])), false)
        else
          let padded : GoError + string :=
            if len keyBytes <? 32 then
              inr (String.append
                     (zero_bytes (32 - String.length keyBytes)) keyBytes)
            else if 32 <? len keyBytes then
              inl (ErrorString
                     (String.concat ""
                        ["private key must be at most 32 bytes, got ";
                         Itoa (len keyBytes); " bytes"]))
            else inr keyBytes in
          match padded with
          | inl err => (None, Some err, false)
          | inr keyBytes =>
              match crypto_ToECDSA keyBytes with
              | inl err =>
                  (None, Some (Wrap "failed to parse private key" err),
                   false)
              | inr privateKey => (Some privateKey, None, true)
              end
          end
    end.

(** The package-level variables of the key: whether the [sync.Once] has
    run, and what it left. *)
Record ServerKeyState : Type := mkServerKeyState {
  once_done : bool;
  serverPrivateKey : option PrivateKey;
  serverPrivateKeyErr : option GoError
}.

Definition getServerPrivateKey (env : Env) (st : ServerKeyState)
  (g : Globals)
  : ServerKeyState * Globals * (option PrivateKey * option GoError) :=
  if once_done st then
    (st, g, (serverPrivateKey st, serverPrivateKeyErr st))
  else
    let '(key, err, logged) := loadServerPrivateKey env in
    let key := match key with Some k => Some k | None => serverPrivateKey st end in
    let err := match err with Some e => Some e | None => serverPrivateKeyErr st end in
    (mkServerKeyState true key err,
     (if logged then log_Printf "Server private key loaded successfully" g
      else g),
     (key, err)).

End ServerKey.

(** ** Health endpoints (main.go, lines 922-1034) *)

(** [strings.TrimSuffix] *)
Definition strings_TrimSuffix (s suffix : string) : string :=
  let n := String.length s in
  let k := String.length suffix in
  if (k <=? n)%nat && String.eqb (String.substring (n - k) k s) suffix
  then String.substring 0 (n - k) s
  else s.

(** What a probe of a dependency comes to: the request cannot be built,
    the client returns an error, or a response with a status arrives. *)
Inductive ProbeReply : Type :=
| ProbeNewRequestFailed (err : GoError)
| ProbeDoFailed (err : GoError)
| ProbeResponded (statusCode : Z).

(** The process as the health handlers see it: the HTTP client, given
    the method, the URL, the [Authorization] header if one is set and
    the context; and the figures of package [runtime]. *)
Record Runtime : Type := mkRuntime {
  probe_Do : string -> string -> option string -> GoContext -> ProbeReply;
  NumGoroutine : Z;
  MemStats_Alloc : Z;
  MemStats_Sys : Z
}.

Section Health.
Context `{Library}.

(** [checkVerifierHealth] (lines 971-995) *)
Definition checkVerifierHealth (env : Env) (rt : Runtime) : string :=
  let verifierURL :=
    if String.eqb (Getenv env "VERIFIER_URL") ""
    then "http://127.0.0.1:3002" else Getenv env "VERIFIER_URL" in
  let ctx :=
    fst (context_WithTimeout (time_Now env) context_Background
           (2 * Second)) in
  match probe_Do rt "GET" (String.append verifierURL "/health") None ctx with
  | ProbeNewRequestFailed _ => "unreachable"
  | ProbeDoFailed _ => "unreachable"
  | ProbeResponded statusCode =>
      if negb (statusCode =? 200) then "degraded" else "ok"
  end.

(** [checkOpenRouterHealth] (lines 1004-1034) *)
Definition checkOpenRouterHealth (env : Env) (rt : Runtime) : string :=
  let apiKey := Getenv env "OPENROUTER_API_KEY" in
  if String.eqb apiKey "" then "unconfigured"
  else
    let baseURL :=
      if String.eqb (Getenv env "OPENROUTER_URL") ""
      then "https://openrouter.ai" else Getenv env "OPENROUTER_URL" in
    let healthURL :=
      String.append (strings_TrimSuffix baseURL "/") "/api/v1/models" in
    let ctx :=
      fst (context_WithTimeout (time_Now env) context_Background
             (2 * Second)) in
    match probe_Do rt "GET" healthURL
            (Some (String.append "Bearer " apiKey)) ctx with
    | ProbeNewRequestFailed _ => "unreachable"
    | ProbeDoFailed _ => "unreachable"
    | ProbeResponded statusCode =>
        if negb (statusCode =? 200) then "degraded" else "ok"
    end.

(** [handleHealthz] (lines 925-927) *)
Definition handleHealthz {W} `{ResponseWriter W} (env : Env)
  (c : Context W) : Context W :=
  c_JSON 200
    (JObject [("status", JString "ok"); ("service", JString "gateway");
              ("timestamp", JInt (Unix (time_Now env)))]) c.

(** [handleReadyz] (lines 935-963) *)
Definition handleReadyz {W} `{ResponseWriter W} (env : Env) (rt : Runtime)
  (c : Context W) : Context W :=
  let verifierStatus := checkVerifierHealth env rt in
  let openRouterStatus := checkOpenRouterHealth env rt in
  let checks :=
    JObject
      [("verifier", JString verifierStatus);
       ("openrouter", JString openRouterStatus);
       ("gateway",
        JObject [("goroutines", JInt (NumGoroutine rt));
                 ("memory_alloc_mb", JInt (MemStats_Alloc rt / 1024 / 1024));
                 ("memory_sys_mb", JInt (MemStats_Sys rt / 1024 / 1024));
                 ("status", JString "ok")])] in
  let ready :=
    String.eqb verifierStatus "ok" && String.eqb openRouterStatus "ok" in
  let statusCode := if negb ready then 503 else 200 in
  c_JSON statusCode
    (JObject [("ready", JBool ready);
              ("timestamp", JInt (Unix (time_Now env)));
              ("checks", checks)]) c.

End Health.

(** ** The correlation id (middleware.go, lines 18-41) *)

(** [CorrelationIDMiddleware]. [method] is [c.Request.Method] and
    [fresh] the value of [uuid.New().String()], drawn only when the
    request carries no id. [context.WithValue] under [correlationIDKey]
    is the [ctx_correlation_id] of the request context. *)
Definition CorrelationIDMiddleware {W} `{ResponseWriter W}
  (method fresh : string)
  (next : Context W -> Globals -> option (Globals * Context W))
  (c : Context W) (g : Globals) : option (Globals * Context W) :=
  let id := c_GetHeader c "X-Correlation-ID" in
  let id := if String.eqb id "" then fresh else id in
  let c := c_Set "correlation_id" (KString id) c in
  let r := Request_ c in
  let ctx :=
    {| ctx_deadline := ctx_deadline (req_Context r);
       ctx_correlation_id := Some id |} in
  let c :=
    set_Request
      (mkRequest (req_Header r) (req_ContentLength r) (req_Body r) ctx
         (req_Path r) (req_ClientIP r)) c in
  let c := c_Header "X-Correlation-ID" id c in
  let g :=
    log_Printf
      (String.concat ""
         ["[CorrelationID: "; id; "] "; method; " "; req_Path r]) g in
  next c g.

(** The environment with another verifier behind the HTTP client. *)
Definition with_verifier
  (v : string -> string -> option string -> GoContext -> VerifierReply)
  (env : Env) : Env :=
  {| Getenv := Getenv env;
     time_Now := time_Now env;
     verifier_Do := v;
     provider_Do := provider_Do env;
     ctx_Err := ctx_Err env;
     uuid_New := uuid_New env;
     receipt_version := receipt_version env;
     receipt_entropy := receipt_entropy env;
     sign_receipt := sign_receipt env |}.

(** The same for the provider. *)
Definition with_provider
  (p : string -> string -> GoContext -> ProviderReply) (env : Env) : Env :=
  {| Getenv := Getenv env;
     time_Now := time_Now env;
     verifier_Do := verifier_Do env;
     provider_Do := p;
     ctx_Err := ctx_Err env;
     uuid_New := uuid_New env;
     receipt_version := receipt_version env;
     receipt_entropy := receipt_entropy env;
     sign_receipt := sign_receipt env |}.

(** ** [Flush] through the shim (middleware.go, lines 230-239) *)

(** [responseWriterShim.Size] *)
Definition shim_Size (b : bufferedWriter) : Z := len (buf b).

(** A call of the handler on the shim: one of the buffered methods, or
    [Flush], which the shim hands to the original writer. *)
Inductive ShimOp : Type :=
| ShimBuffered (op : HandlerOp)
| ShimFlush.

(** [responseWriterShim.Flush] in the guard that holds gin's own writer:
    that writer is an [http.Flusher], and its [Flush] is
    [WriteHeaderNow] followed by the flush of the connection. *)
Definition run_shim_op (s : bufferedWriter * realWriter) (op : ShimOp)
  : bufferedWriter * realWriter :=
  match op with
  | ShimBuffered op => (run_op op (fst s), snd s)
  | ShimFlush => (fst s, real_Flush (snd s))
  end.

Definition run_shim_ops (ops : list ShimOp)
  (s : bufferedWriter * realWriter) : bufferedWriter * realWriter :=
  fold_left run_shim_op ops s.

(** The [finished] branch of the guard after the handler made the calls
    [ops] on the shim. *)
Definition finished_with (ops : list ShimOp) (origWriter : realWriter)
  : realWriter :=
  let s := run_shim_ops ops (newBufferedWriter, origWriter) in
  bw_flushTo (fst s) (snd s).

(** The buffered calls among [ops]. *)
Definition buffered_calls (ops : list ShimOp) : list HandlerOp :=
  omap (fun op => match op with
                  | ShimBuffered op => Some op
                  | ShimFlush => None
                  end) ops.

(** ** The guard with every call of the shim (middleware.go, lines
    141-268) *)

(** A call of the handler on the writer it was given. The shim hands
    the methods of [HandlerOp] to the buffer and [Flush] and [Hijack] to
    the original writer; after a [Hijack] that succeeded the handler
    holds the connection and can write to it. [Status], [Written],
    [Size] and [WriteHeaderNowWithoutLock] read the buffer or do
    nothing, [CloseNotify] returns a channel, and [Pusher] returns no
    pusher on an HTTP/1.1 connection: none of them changes the buffer
    or the original writer. Every call is taken as one step. *)
Inductive ShimCall : Type :=
| CallShim (op : ShimOp)
| CallHijack
| CallConnWrite (data : string).

Definition run_shim_call (s : bufferedWriter * realWriter)
  (call : ShimCall) : bufferedWriter * realWriter :=
  match call with
  | CallShim op => run_shim_op s op
  | CallHijack => (fst s, fst (real_Hijack (snd s)))
  | CallConnWrite data => (fst s, conn_Write data (snd s))
  end.

Definition run_shim_calls (calls : list ShimCall)
  (s : bufferedWriter * realWriter) : bufferedWriter * realWriter :=
  fold_left run_shim_call calls s.



(** A step of the race after the deadline has been selected, with every
    call the handler can make. *)
Inductive ShimTick : Type :=
| HandlerCall (call : ShimCall)
| GuardStep.

Definition shim_tick (t : ShimTick) (s : GuardState realWriter)
  : GuardState realWriter :=
  match t with
  | HandlerCall call =>
      let s' := run_shim_call (g_bw s, g_orig s) call in
      mkGuardState (fst s') (snd s') (g_pc s)
  | GuardStep => timeout_step s
  end.

Definition run_shim_ticks (ts : list ShimTick) (s : GuardState realWriter)
  : GuardState realWriter :=
  fold_left (fun s t => shim_tick t s) ts s.

(** How one execution of the [select] went, by the calls the handler
    made; a handler that panics makes no call after that. *)
Inductive ShimRun : Type :=
| ShimFinished (calls : list ShimCall)
| ShimPanicked (calls : list ShimCall) (p : string)
| ShimTimedOut (before : list ShimCall) (sched : list ShimTick).

(** [RequestTimeoutMiddleware] in front of gin's own writer. The
    [finished] branch flushes the buffer; when the [Write] of [flushTo]
    makes [net/http] panic, the panic leaves the middleware. The [Write]
    of the timeout branch comes after [WriteHeader(504)] and finds an
    accepted status whenever it has to send one. *)
Definition RequestTimeoutMiddleware_shim (r : ShimRun)
  (origWriter : realWriter) : GuardResult realWriter :=
  let s0 := (newBufferedWriter, origWriter) in
  match r with
  | ShimFinished calls =>
      let s := run_shim_calls calls s0 in
      let w1 := add_headers (map_to_list (head (fst s))) (snd s) in
      let w2 := rw_WriteHeader (bw_Status (fst s)) w1 in
      mkGuardResult (bw_flushTo (fst s) (snd s)) (fst s)
        (real_commit_panic w2)
  | ShimPanicked calls p =>
      let s := run_shim_calls calls s0 in
      mkGuardResult (snd s) (fst s) (Some p)
  | ShimTimedOut before sched =>
      let s := run_shim_calls before s0 in
      let s1 :=
        finish_guard
          (run_shim_ticks sched
             (timeout_step (mkGuardState (fst s) (snd s) 0))) in
      mkGuardResult (g_orig s1) (g_bw s1) None
  end.

(** ** The token bucket

    Modelled from the spec: the [TokenBucket] rate limiter, whose file
    (ratelimit.go) is not among the sources; only its tests are. Per
    sections 3 and 4.1: a bucket holds its available tokens, capacity,
    refill rate (tokens per second), last-refill and last-access
    timestamps; "each key owns an independent bucket initialized at full
    capacity (the configured burst size)", created lazily on first use;
    "tokens refill continuously at rpm/60 tokens per second, capped at
    capacity; refill is computed lazily from elapsed wall-clock time at
    each admission check"; "admit succeeds iff at least one token is
    available, and atomically deducts one; admitN deducts n atomically
    only if n are available, otherwise deducts nothing"; "remaining
    returns the floor of currently available tokens without mutating
    state"; a sweep removes buckets idle for longer than a TTL.

    Tokens and seconds are exact rationals where the implementation has
    floating-point numbers. The clock reading of each call is an
    argument. *)

Module TokenBucketModel.

Local Open Scope Qc_scope.

Definition Qc_leb (x y : Qc) : bool := Qle_bool (this x) (this y).

Definition Qc_min (x y : Qc) : Qc := if Qc_leb x y then x else y.

Definition Qc_of_Z (z : Z) : Qc := Q2Qc (inject_Z z).

Record Bucket : Type := mkBucket {
  tokens : Qc;
  capacity : Qc;
  refillRate : Qc;
  lastRefill : Qc;
  lastAccess : Qc
}.

Record TokenBucket : Type := mkTokenBucket {
  rate : Qc;
  burst : Qc;
  cleanupTTL : Qc;
  buckets : gmap string Bucket
}.

(** [NewTokenBucket(rpm, burst, cleanupTTL)] *)
Definition NewTokenBucket (rpm burst_ : Z) (ttl : Qc) : TokenBucket :=
  {| rate := Qc_of_Z rpm / Qc_of_Z 60;
     burst := Qc_of_Z burst_;
     cleanupTTL := ttl;
     buckets := ∅ |}.

(** The bucket of a key: the stored one, or for a key not seen before a
    full one. *)
Definition getBucket (tb : TokenBucket) (key : string) (now : Qc) : Bucket :=
  match buckets tb !! key with
  | Some b => b
  | None =>
      {| tokens := burst tb; capacity := burst tb; refillRate := rate tb;
         lastRefill := now; lastAccess := now |}
  end.

(** Lazy refill from the time elapsed since the last one. *)
Definition refill (b : Bucket) (now : Qc) : Bucket :=
  let elapsed := now - lastRefill b in
  {| tokens := Qc_min (capacity b) (tokens b + elapsed * refillRate b);
     capacity := capacity b;
     refillRate := refillRate b;
     lastRefill := now;
     lastAccess := lastAccess b |}.

(** The tokens a key has at [now]. *)
Definition available (tb : TokenBucket) (key : string) (now : Qc) : Qc :=
  tokens (refill (getBucket tb key now) now).

Definition set_bucket (key : string) (b : Bucket) (tb : TokenBucket)
  : TokenBucket :=
  {| rate := rate tb; burst := burst tb; cleanupTTL := cleanupTTL tb;
     buckets := <[key := b]> (buckets tb) |}.

(** [AllowN(key, n)]: all or nothing. *)
Definition AllowN (tb : TokenBucket) (key : string) (n : Z) (now : Qc)
  : bool * TokenBucket :=
  let b := refill (getBucket tb key now) now in
  if Qc_leb (Qc_of_Z n) (tokens b) then
    (true,
     set_bucket key
       {| tokens := tokens b - Qc_of_Z n; capacity := capacity b;
          refillRate := refillRate b; lastRefill := lastRefill b;
          lastAccess := now |} tb)
  else
    (false,
     set_bucket key
       {| tokens := tokens b; capacity := capacity b;
          refillRate := refillRate b; lastRefill := lastRefill b;
          lastAccess := now |} tb).

(** [Allow(key)] *)
Definition Allow (tb : TokenBucket) (key : string) (now : Qc)
  : bool * TokenBucket :=
  AllowN tb key 1 now.

(** [GetRemaining(key)] *)
Definition GetRemaining (tb : TokenBucket) (key : string) (now : Qc) : Z :=
  Qfloor (this (available tb key now)).

(** The background sweep. *)
Definition cleanup (tb : TokenBucket) (now : Qc) : TokenBucket :=
  {| rate := rate tb; burst := burst tb; cleanupTTL := cleanupTTL tb;
     buckets :=
       filter (fun kb => Qc_leb (now - lastAccess (snd kb)) (cleanupTTL tb)
                         = true)
         (buckets tb) |}.

(** [k] calls of [Allow] for one key, all at the instant [now]: the
    answers in order, and the limiter afterwards. *)
Fixpoint admissions (k : nat) (tb : TokenBucket) (key : string) (now : Qc)
  : list bool * TokenBucket :=
  match k with
  | O => ([], tb)
  | S k' =>
      let (ok, tb1) := Allow tb key now in
      let (oks, tb2) := admissions k' tb1 key now in
      (ok :: oks, tb2)
  end.

End TokenBucketModel.

(** ** An example deployment

    A small library, environment and request on which the functions
    above can be run: an encoder for JSON documents that writes strings
    without escapes, decoders for the three documents the gateway reads,
    a verifier that gives a fixed reply and a provider that returns one
    summary. *)

Module Example.

Fixpoint strip_prefix (p s : string) : option string :=
  match p with
  | EmptyString => Some s
  | String a p' =>
      match s with
      | String b s' => if Ascii.eqb a b then strip_prefix p' s' else None
      | EmptyString => None
      end
  end.

Fixpoint strip_suffix (suf s : string) {struct s} : option string :=
  if String.eqb s suf then Some EmptyString
  else match s with
       | EmptyString => None
       | String a s' => option_map (String a) (strip_suffix suf s')
       end.

Fixpoint until_quote (s : string) : string :=
  match s with
  | EmptyString => EmptyString
  | String a s' =>
      if Ascii.eqb a (Ascii.ascii_of_nat 34) then EmptyString
      else String a (until_quote s')
  end.

Fixpoint encode (v : JValue) : string :=
  match v with
  | JNull => "null"
  | JBool b => if b then "true" else "false"
  | JInt n => Itoa n
  | JString s => quoted s
  | JObject fields =>
      String.concat ""
        [ "{";
          (fix members (fs : list (string * JValue)) : string :=
             match fs with
             | [] => ""
             | (k, x) :: rest =>
                 String.concat ""
                   [ quoted k; ":"; encode x;
                     match rest with [] => "" | _ => "," end;
                     members rest ]
             end) fields;
          "}" ]
  | JArray items =>
      String.concat ""
        [ "[";
          (fix elements (xs : list JValue) : string :=
             match xs with
             | [] => ""
             | x :: rest =>
                 String.concat ""
                   [ encode x; match rest with [] => "" | _ => "," end;
                     elements rest ]
             end) items;
          "]" ]
  end.

(** The opening of an object whose first member is a string called
    [name], and the end of an object after a string. *)
Definition framed (name : string) : string :=
  String.concat "" ["{"; quoted name; ":"; dq].

Definition frame_end : string := String.append dq "}".

Definition unframe (name body : string) : option string :=
  match strip_prefix (framed name) body with
  | Some rest => strip_suffix frame_end rest
  | None => None
  end.

Definition syntax_error : GoError := ErrorString "invalid character".

Definition SignedReceipt_json (r : SignedReceipt) : JValue :=
  JObject
    [ ("receipt",
       JObject
         [ ("id", JString (ID (Receipt_ r)));
           ("version", JString (Version (Receipt_ r)));
           ("timestamp", JInt (Timestamp (Receipt_ r)));
           ("payer", JString (Payer (Payment (Receipt_ r))));
           ("nonce", JString (pd_Nonce (Payment (Receipt_ r))));
           ("endpoint", JString (Endpoint (Service (Receipt_ r))));
           ("request_hash", JString (RequestHash (Service (Receipt_ r))));
           ("response_hash",
            JString (ResponseHash (Service (Receipt_ r)))) ]);
      ("signature", JString (Signature r));
      ("server_public_key", JString (ServerPublicKey r)) ].

Definition library : Library :=
  {| json_Marshal v := inr (encode v);
     json_Unmarshal_map body :=
       match unframe "result" body with
       | Some s => inr {["result" := JString s]}
       | None => inl syntax_error
       end;
     json_Unmarshal_SummarizeRequest body :=
       match unframe "text" body with
       | Some s => inr {| Text := s |}
       | None => inl syntax_error
       end;
     json_Unmarshal_CachedResponse body :=
       match strip_prefix (framed "result") body with
       | Some rest => inr {| Result := until_quote rest; CachedAt := 0 |}
       | None => inl syntax_error
       end;
     sha256_hex s := String.append "sha256:" s;
     base64_EncodeToString s := String.append "base64:" s;
     strconv_Atoi s :=
       match NilZero.int_of_string s with
       | Some d => inr (Z.of_int d)
       | None => inl (ErrorString "invalid syntax")
       end;
     json_Marshal_receipt r := inr (encode (SignedReceipt_json r));
     content_hash s := String.append "sha256:" s |}.

(** An environment without settings, where the verifier gives [reply]
    to whatever it is sent. *)
Definition env (reply : VerifierReply) : Env :=
  {| Getenv := fun _ => "";
     time_Now := 1700000000 * Second;
     verifier_Do := fun _ _ _ _ => reply;
     provider_Do := fun _ _ _ =>
       ProviderResponded
         (inr {["choices" :=
                  JArray
                    [JObject
                       [("message",
                         JObject [("content", JString "A summary.")])]]]});
     ctx_Err := fun _ => None;
     uuid_New := "6f1c2a9e-0000-4000-8000-000000000001";
     receipt_version := "1.0";
     receipt_entropy := "k3v9x1q7w2z8";
     sign_receipt := fun _ => inr ("0x5167", "0x04ab") |}.

Definition accepts : VerifierReply :=
  Responded 200
    (inr {| IsValid := true; RecoveredAddress := "0x1111"; Error := "" |}).

Definition rejects : VerifierReply :=
  Responded 200
    (inr {| IsValid := false; RecoveredAddress := "";
            Error := "signer mismatch" |}).

Definition requestBody : string :=
  String.concat "" ["{"; quoted "text"; ":"; quoted "hello"; "}"].

Definition request : Request :=
  {| req_Header :=
       {[ "X-402-Signature" := ["0xfeed"]; "X-402-Nonce" := ["n-1"] ]};
     req_ContentLength := 16;
     req_Body := Some (BodyData requestBody);
     req_Context := context_Background;
     req_Path := "/api/ai/summarize";
     req_ClientIP := "203.0.113.7" |}.

(** The context as the handlers of the AI group find it: the writer is
    the fresh buffer of the timeout guard. *)
Definition context : Context bufferedWriter :=
  mkContext request newBufferedWriter ∅ false.

Definition cacheKey : string :=
  getCacheKey (H := library) "hello" "z-ai/glm-4.5-air:free".

Definition cachedEntry : string :=
  String.concat ""
    ["{"; quoted "result"; ":"; quoted "An earlier summary."; ",";
     quoted "cached_at"; ":1699990000}"].

(** The process with the entry of the request in the cache, with an
    empty cache, and with a Redis that cannot be reached. *)
Definition warm : Globals :=
  mkGlobals (Some (mkRedisClient {[ cacheKey := cachedEntry ]} None))
    ∅ [] [].

Definition cold : Globals :=
  mkGlobals (Some (mkRedisClient ∅ None)) ∅ [] [].

Definition unreachable : Globals :=
  mkGlobals
    (Some (mkRedisClient ∅ (Some (ErrorString "dial tcp: refused"))))
    ∅ [] [].

(** The handler that stands behind the cache middleware. *)
Definition handler (e : Env) :=
  fun W' (inst : ResponseWriter W') =>
    handleSummarize (H := library) (W := W') e.

(** A limiter that answers every key alike. *)
Record FixedLimiter : Type := mkFixedLimiter {
  fl_allow : bool;
  fl_remaining : Z;
  fl_reset : Z
}.

#[export] Instance FixedLimiter_RateLimiter : RateLimiter FixedLimiter := {
  Allow _ l := (fl_allow l, l);
  GetRemaining _ l := (fl_remaining l, l);
  GetResetTime _ l := (fl_reset l, l)
}.

(** What the gateway sends the verifier for [request]. *)
Definition verifyBody : string :=
  encode
    (VerifyRequest_json
       {| vreq_Context :=
            {| Recipient := "0x2cAF48b4BA1C58721a85dFADa5aC01C2DFa62219";
               Token := "USDC"; Amount := "0.001"; Nonce := "n-1";
               ChainID := 8453 |};
          vreq_Signature := "0xfeed" |}).

(** The same deployment a minute later, with other fresh values. *)
Definition later (e : Env) : Env :=
  {| Getenv := Getenv e;
     time_Now := time_Now e + 60 * Second;
     verifier_Do := verifier_Do e;
     provider_Do := provider_Do e;
     ctx_Err := ctx_Err e;
     uuid_New := "6f1c2a9e-0000-4000-8000-000000000002";
     receipt_version := receipt_version e;
     receipt_entropy := "p4m6t0c5r8b2";
     sign_receipt := sign_receipt e |}.

(** A limiter out of tokens whose reset time is ten seconds past. *)
Definition exhausted : FixedLimiter :=
  {| fl_allow := false; fl_remaining := 0; fl_reset := 1699999990 |}.

Definition limiters : gmap string FixedLimiter :=
  {[ "standard" := exhausted ]}.

(** The context as the rate limiter finds it: gin's own writer. *)
Definition throttled : Context realWriter :=
  mkContext request (newRealWriter ∅) ∅ false.

End Example.

(** ** More of the example deployment

    Environments with single variables set, requests with other headers
    and bodies, collaborators that answer selectively, a stored receipt,
    a server key and the figures of a healthy process. *)

Module Deployment.
Import Example.

(** The environment [e] with the variable [name] set to [value]. *)
Definition setenv (name value : string) (e : Env) : Env :=
  {| Getenv := fun k => if String.eqb k name then value else Getenv e k;
     time_Now := time_Now e;
     verifier_Do := verifier_Do e;
     provider_Do := provider_Do e;
     ctx_Err := ctx_Err e;
     uuid_New := uuid_New e;
     receipt_version := receipt_version e;
     receipt_entropy := receipt_entropy e;
     sign_receipt := sign_receipt e |}.

(** The example request with other headers and another body. *)
Definition request_with (h : Header) (body : string) : Request :=
  {| req_Header := h;
     req_ContentLength := len body;
     req_Body := Some (BodyData body);
     req_Context := context_Background;
     req_Path := "/api/ai/summarize";
     req_ClientIP := "203.0.113.7" |}.

(** A request that carries a correlation id. *)
Definition traced : Context bufferedWriter :=
  mkContext
    (request_with
       {[ "X-402-Signature" := ["0xfeed"]; "X-402-Nonce" := ["n-1"];
          "X-Correlation-ID" := ["trace-7"] ]} requestBody)
    newBufferedWriter ∅ false.

(** A request without payment headers. *)
Definition unsigned : Context bufferedWriter :=
  mkContext (request_with ∅ requestBody) newBufferedWriter ∅ false.

(** A signed request whose body is no JSON document. *)
Definition garbled : Context bufferedWriter :=
  mkContext
    (request_with
       {[ "X-402-Signature" := ["0xfeed"]; "X-402-Nonce" := ["n-1"] ]}
       "summarize this")
    newBufferedWriter ∅ false.

(** A verifier that accepts requests traced as [trace-7] only. *)
Definition tracing_verifier (url body : string) (cid : option string)
  (vctx : GoContext) : VerifierReply :=
  match cid with
  | Some id => if String.eqb id "trace-7" then accepts else rejects
  | None => rejects
  end.

(** A verifier that accepts requests it is given two seconds for. *)
Definition punctual_verifier (url body : string) (cid : option string)
  (vctx : GoContext) : VerifierReply :=
  match Deadline vctx with
  | Some d => if d =? 1700000002 * Second then accepts else rejects
  | None => rejects
  end.

(** A provider that cannot be reached in time. *)
Definition slow_provider (url body : string) (ctx : GoContext)
  : ProviderReply :=
  ProviderDoFailed DeadlineExceeded.

(** A provider that answers only the request for the default model. *)
Definition strict_provider (url body : string) (ctx : GoContext)
  : ProviderReply :=
  if String.eqb body
       (encode
          (JObject
             [("model", JString "z-ai/glm-4.5-air:free");
              ("messages",
               JArray
                 [JObject
                    [("role", JString "user");
                     ("content",
                      JString
                        "Summarize this text in 2 sentences: hello")]])]))
  then provider_Do (env accepts) url body ctx
  else ProviderDoFailed (ErrorString "unexpected request").

(** A limiter with tokens left. *)
Definition generous : FixedLimiter :=
  {| fl_allow := true; fl_remaining := 19; fl_reset := 1700000003 |}.

Definition open_limiters : gmap string FixedLimiter :=
  {[ "standard" := generous ]}.

(** A receipt as issuance makes them. *)
Definition receipt0 : SignedReceipt :=
  {| Receipt_ :=
       {| ID := "rcpt_k3v9x1q7w2z8"; Version := "1.0";
          Timestamp := 1700000000 * Second;
          Payment := {| Payer := "0x1111";
                        pd_Recipient := "0x2222";
                        pd_Amount := "0.001"; pd_Token := "USDC";
                        pd_Nonce := "n-1" |};
          Service := {| Endpoint := "/api/ai/summarize";
                        RequestHash := "sha256:a";
                        ResponseHash := "sha256:b" |} |};
     Signature := "0x5167"; ServerPublicKey := "0x04ab" |}.

(** A rendering of the receipt for the lookup endpoint. *)
Definition brief_receipt (r : Receipt) : JValue :=
  JObject [("id", JString (ID r)); ("version", JString (Version r))].

(** The environment of the example with a server key configured. *)
Definition keyed (k : string) : Env :=
  setenv "SERVER_WALLET_PRIVATE_KEY" k (env accepts).

(** Thirty-one bytes in hexadecimal. *)
Definition shortKey : string :=
  "01f3a5c7e9b2d4f60a1c3e5078929bbddff1032547698badcfe1f2a3b4c5d6".

Definition invalidByte (a : ascii) : GoError :=
  ErrorString "encoding/hex: invalid byte".

(** A parser that takes the bytes as they are. *)
Definition ToECDSA (bytes : string) : GoError + string := inr bytes.

(** The key the example loads from [shortKey]. *)
Definition loadedKey : string :=
  match fst (fst (loadServerPrivateKey invalidByte string ToECDSA
                    (keyed shortKey))) with
  | Some k => k
  | None => ""
  end.

(** Both dependencies answer 200. *)
Definition healthy : Runtime :=
  {| probe_Do := fun _ _ _ _ => ProbeResponded 200;
     NumGoroutine := 12;
     MemStats_Alloc := 8 * 1024 * 1024;
     MemStats_Sys := 32 * 1024 * 1024 |}.

(** The environment of the example with an API key. *)
Definition configured : Env :=
  setenv "OPENROUTER_API_KEY" "sk-test" (env accepts).

End Deployment.

(** * Properties *)

(** ** Strings *)

Lemma append_nil_r (s : string) : String.append s "" = s.
Proof.
  induction s as [|a s IH]; [reflexivity|].
  change (String a (String.append s "") = String a s). now f_equal.
Qed.

Lemma append_assoc (s1 s2 s3 : string) :
  String.append (String.append s1 s2) s3
  = String.append s1 (String.append s2 s3).
Proof.
  induction s1 as [|a s1 IH]; [reflexivity|].
  change (String a (String.append (String.append s1 s2) s3)
          = String a (String.append s1 (String.append s2 s3))).
  now f_equal.
Qed.

Lemma concat_cons (x : string) (xs : list string) :
  String.concat "" (x :: xs) = String.append x (String.concat "" xs).
Proof.
  destruct xs as [|y ys]; [|reflexivity].
  change (x = String.append x ""). symmetry. apply append_nil_r.
Qed.

(** ** The deadline of the timeout guard *)

Lemma WithDeadline_deadline (parent : GoContext) (d : Time) :
  Deadline (fst (context_WithDeadline parent d))
  = Some (match Deadline parent with
          | Some cur => Z.min cur d
          | None => d
          end).
Proof.
  unfold context_WithDeadline.
  destruct (Deadline parent) as [cur|] eqn:E; [|reflexivity].
  destruct (Z.ltb_spec cur d); simpl.
  - rewrite E. f_equal. lia.
  - unfold Deadline; simpl. f_equal. lia.
Qed.

Lemma WithDeadline_keeps_earlier (parent : GoContext) (cur d : Time) :
  Deadline parent = Some cur -> cur < d ->
  fst (context_WithDeadline parent d) = parent.
Proof.
  intros E Hlt. unfold context_WithDeadline. rewrite E.
  destruct (Z.ltb_spec cur d); [reflexivity | lia].
Qed.

(** C6. The context that [RequestTimeoutMiddleware] installs has as its
    deadline the minimum of the deadline the request already carries and
    now plus the configured timeout (the latter when the request carries
    none); when the request carries an earlier deadline the context is
    the request's own, unchanged; and the new deadline is never later
    than one the request already carried. *)
Theorem timeout_deadline_is_minimum
  (timeout : Duration) (now : Time) (parent : GoContext) :
  let ctx := fst (RequestTimeoutMiddleware_ctx timeout now parent) in
  Deadline ctx
  = Some (match Deadline parent with
          | Some d => Z.min d (now + timeout)
          | None => now + timeout
          end)
  /\ (forall d, Deadline parent = Some d -> d < now + timeout ->
                ctx = parent)
  /\ (forall d d', Deadline parent = Some d -> Deadline ctx = Some d' ->
                   d' <= d).
Proof.
  assert (Hmin :
    Deadline (fst (RequestTimeoutMiddleware_ctx timeout now parent))
    = Some (match Deadline parent with
            | Some d => Z.min d (now + timeout)
            | None => now + timeout
            end)).
  { unfold RequestTimeoutMiddleware_ctx, context_WithTimeout.
    destruct (timeout <=? 0); [apply WithDeadline_deadline|].
    destruct (Deadline parent) as [d|] eqn:E.
    - destruct (Z.ltb_spec d (now + timeout)); simpl.
      + rewrite E. f_equal. lia.
      + rewrite WithDeadline_deadline, E. reflexivity.
    - rewrite WithDeadline_deadline, E. reflexivity. }
  cbv zeta. split; [exact Hmin|]. split.
  - intros d E Hlt.
    unfold RequestTimeoutMiddleware_ctx, context_WithTimeout.
    destruct (timeout <=? 0).
    + now apply WithDeadline_keeps_earlier with (cur := d).
    + rewrite E. destruct (Z.ltb_spec d (now + timeout)); [reflexivity|lia].
  - intros d d' E E'. rewrite Hmin, E in E'. inversion E'. lia.
Qed.

(** A request that carries the deadline 5 enters a guard configured with
    a timeout of 30 at time 0. *)
Lemma timeout_deadline_is_minimum_witness :
  let parent := {| ctx_deadline := Some 5; ctx_correlation_id := None |} in
  Deadline (fst (RequestTimeoutMiddleware_ctx 30 0 parent)) = Some 5
  /\ fst (RequestTimeoutMiddleware_ctx 30 0 parent) = parent.
Proof.
  intros parent.
  destruct (timeout_deadline_is_minimum 30 0 parent) as (H1 & H2 & H3).
  split.
  - exact H1.
  - apply (H2 5); [reflexivity | lia].
Defined.

(** ** The buffer of the timeout guard *)

Lemma run_ops_cons {W} `{ResponseWriter W} (op : HandlerOp)
  (ops : list HandlerOp) (w : W) :
  run_ops (op :: ops) w = run_ops ops (run_op op w).
Proof. reflexivity. Qed.

Lemma run_op_closed (op : HandlerOp) (b : bufferedWriter) :
  closed (run_op op b) = closed b.
Proof.
  destruct op; simpl; try reflexivity;
    unfold bw_WriteHeader, bw_Write, bw_WriteString;
    destruct (closed b) eqn:E; simpl; congruence.
Qed.

Lemma run_ops_closed (ops : list HandlerOp) (b : bufferedWriter) :
  closed (run_ops ops b) = closed b.
Proof.
  revert b. induction ops as [|op ops IH]; intros b; [reflexivity|].
  rewrite run_ops_cons, IH. apply run_op_closed.
Qed.

(** While the buffer is open it holds exactly what the calls ask for. *)
Lemma run_ops_open (ops : list HandlerOp) (b : bufferedWriter) :
  closed b = false ->
  buf (run_ops ops b) = String.append (buf b) (written_bytes ops)
  /\ head (run_ops ops b) = fold_left op_header ops (head b)
  /\ status (run_ops ops b) = fold_left op_status ops (status b).
Proof.
  revert b. induction ops as [|op ops IH]; intros b Hopen.
  - simpl. now rewrite append_nil_r.
  - rewrite run_ops_cons.
    assert (Hopen' : closed (run_op op b) = false)
      by now rewrite run_op_closed.
    destruct (IH _ Hopen') as (Hb & Hh & Hs).
    rewrite Hb, Hh, Hs. unfold written_bytes.
    change (map op_bytes (op :: ops)) with (op_bytes op :: map op_bytes ops).
    rewrite concat_cons, <- append_assoc.
    destruct op; simpl;
      unfold bw_WriteHeader, bw_Write, bw_WriteString;
      rewrite ?Hopen; simpl; rewrite ?append_nil_r; auto.
Qed.

(** Once the buffer is closed its bytes never change again. *)
Lemma run_op_closed_buf (op : HandlerOp) (b : bufferedWriter) :
  closed b = true -> buf (run_op op b) = buf b.
Proof.
  intros Hc. destruct op; simpl; try reflexivity;
    unfold bw_WriteHeader, bw_Write, bw_WriteString; now rewrite Hc.
Qed.

(** ** Headers *)

Lemma Header_values_Add (k v : string) (h : Header) (k' : string) :
  Header_values (Header_Add k v h) k'
  = if decide (k = k') then (Header_values h k ++ [v])%list
    else Header_values h k'.
Proof.
  unfold Header_Add, Header_values at 1.
  destruct (decide (k = k')) as [->|Hne].
  - now rewrite lookup_insert_eq.
  - now rewrite lookup_insert_ne.
Qed.

Definition add_list (k : string) (vv : list string) (h : Header) : Header :=
  fold_left (fun h v => Header_Add k v h) vv h.

Definition add_all (kvs : list (string * list string)) (h : Header)
  : Header :=
  fold_left (fun h kv => add_list (fst kv) (snd kv) h) kvs h.

Lemma Header_values_add_list (k : string) (vv : list string) (h : Header)
  (k' : string) :
  Header_values (add_list k vv h) k'
  = if decide (k = k') then (Header_values h k ++ vv)%list
    else Header_values h k'.
Proof.
  revert h. induction vv as [|v vv IH]; intros h.
  - change (add_list k [] h) with h.
    destruct (decide (k = k')) as [->|]; [now rewrite app_nil_r | reflexivity].
  - change (add_list k (v :: vv) h) with (add_list k vv (Header_Add k v h)).
    rewrite IH, !Header_values_Add.
    destruct (decide (k = k')) as [->|Hne].
    + rewrite decide_True by reflexivity. now rewrite <- app_assoc.
    + reflexivity.
Qed.

Lemma Header_values_add_all (kvs : list (string * list string))
  (h : Header) (k' : string) :
  NoDup (kvs.*1) ->
  Header_values (add_all kvs h) k'
  = (Header_values h k'
     ++ Header_values (list_to_map kvs : Header) k')%list.
Proof.
  revert h. induction kvs as [|[k vv] kvs IH]; intros h Hnd.
  - simpl. unfold Header_values at 3. rewrite lookup_empty. simpl.
    now rewrite app_nil_r.
  - simpl in Hnd. apply NoDup_cons in Hnd as [Hnotin Hnd].
    change (add_all ((k, vv) :: kvs) h) with (add_all kvs (add_list k vv h)).
    rewrite (IH _ Hnd), Header_values_add_list.
    unfold Header_values at 5. simpl.
    destruct (decide (k = k')) as [->|Hne].
    + rewrite lookup_insert_eq. simpl.
      unfold Header_values at 2.
      rewrite (not_elem_of_list_to_map_1 kvs k') by exact Hnotin.
      simpl. now rewrite app_nil_r.
    + rewrite lookup_insert_ne by exact Hne. reflexivity.
Qed.

Lemma add_values_real (k : string) (vv : list string) (w : realWriter) :
  add_values k vv w = real_HeaderUpdate (add_list k vv) w.
Proof.
  revert w. induction vv as [|v vv IH]; intros w.
  - now destruct w.
  - unfold add_values in *. simpl. rewrite IH. now destruct w.
Qed.

Lemma add_headers_real (kvs : list (string * list string)) (w : realWriter) :
  add_headers kvs w = real_HeaderUpdate (add_all kvs) w.
Proof.
  revert w. induction kvs as [|kv kvs IH]; intros w.
  - now destruct w.
  - unfold add_headers in *. simpl. rewrite IH, add_values_real.
    now destruct w.
Qed.

(** ** [flushTo] on gin's writer *)

(** On a writer nothing was written on: the buffered header values are
    added and the buffered status is recorded when it is positive; the
    [Write] then sends status and headers, and the bytes when the status
    allows a body. A status that [net/http] does not accept makes the
    [Write] panic, and nothing is sent. *)
Lemma bw_flushTo_unwritten (b : bufferedWriter) (w : realWriter) :
  rw_written w = false ->
  let st := if 0 <? bw_Status b then bw_Status b else rw_status w in
  let hd := add_all (map_to_list (head b)) (rw_head w) in
  bw_flushTo b w
  = if validStatusCode st then
      {| rw_head := hd; rw_status := st; rw_written := true;
         sent_status := st; sent_head := hd;
         sent_body := (if bodyAllowedForStatus st
                       then String.append (sent_body w) (buf b)
                       else sent_body w);
         rw_sent := true; rw_hijacked := false; conn_raw := conn_raw w |}
    else
      {| rw_head := hd; rw_status := st; rw_written := true;
         sent_status := sent_status w; sent_head := sent_head w;
         sent_body := sent_body w;
         rw_sent := false; rw_hijacked := false; conn_raw := conn_raw w |}.
Proof.
  intros Hw st hd. unfold bw_flushTo. rewrite add_headers_real.
  cbn [rw_WriteHeader rw_Write realWriter_ResponseWriter fst].
  destruct w as [h s wr ss sh sb sn hj raw]. cbn [rw_written] in Hw.
  subst wr. cbn [rw_status rw_head sent_body sent_status sent_head conn_raw]
    in st, hd |- *.
  assert (Hrec :
    real_WriteHeader (bw_Status b)
      (real_HeaderUpdate (add_all (map_to_list (head b)))
         (mkRealWriter h s false ss sh sb sn hj raw))
    = mkRealWriter hd st false ss sh sb sn hj raw).
  { unfold real_WriteHeader, real_HeaderUpdate, st, hd.
    cbn [rw_status rw_written rw_head sent_status sent_head sent_body
           rw_sent rw_hijacked conn_raw].
    destruct (0 <? bw_Status b); cbn [andb]; [|reflexivity].
    destruct (Z.eqb_spec s (bw_Status b)) as [->|]; reflexivity. }
  rewrite Hrec.
  unfold real_Write, real_commit_panic, real_WriteHeaderNow, http_Write.
  cbn [rw_status rw_written rw_head sent_status sent_head sent_body
         rw_sent rw_hijacked conn_raw].
  destruct (validStatusCode st); cbn [fst rw_status rw_written rw_head
    sent_status sent_head sent_body rw_sent rw_hijacked conn_raw];
    [|reflexivity].
  destruct (bodyAllowedForStatus st); reflexivity.
Qed.

(** On a writer that has sent its status: the header map and the status
    that gin keeps are of no more use to the client, and the bytes
    follow what was sent when that status allows a body. *)
Lemma bw_flushTo_sent (b : bufferedWriter) (w : realWriter) :
  rw_written w = true -> rw_sent w = true -> rw_hijacked w = false ->
  client_view (bw_flushTo b w)
  = Some {| resp_status := sent_status w; resp_header := sent_head w;
            resp_body := (if bodyAllowedForStatus (sent_status w)
                          then String.append (sent_body w) (buf b)
                          else sent_body w) |}.
Proof.
  intros Hw Hs Hh. unfold bw_flushTo. rewrite add_headers_real.
  cbn [rw_WriteHeader rw_Write realWriter_ResponseWriter fst].
  destruct w as [h s wr ss sh sb sn hj raw].
  cbn [rw_written rw_sent rw_hijacked] in Hw, Hs, Hh. subst wr sn hj.
  assert (Hrec : forall code hd',
    real_WriteHeader code (mkRealWriter hd' s true ss sh sb true false raw)
    = mkRealWriter hd' s true ss sh sb true false raw).
  { intros code hd'. unfold real_WriteHeader.
    cbn [rw_status rw_written].
    destruct ((0 <? code) && negb (s =? code)); reflexivity. }
  unfold real_HeaderUpdate.
  cbn [rw_status rw_written rw_head sent_status sent_head sent_body
         rw_sent rw_hijacked conn_raw].
  rewrite Hrec.
  unfold real_Write, real_commit_panic, real_WriteHeaderNow, http_Write,
    client_view.
  cbn [rw_status rw_written rw_head sent_status sent_head sent_body
         rw_sent rw_hijacked conn_raw].
  destruct (bodyAllowedForStatus ss); reflexivity.
Qed.

(** ** The calls of a handler on the shim *)

Lemma run_shim_calls_cons (call : ShimCall) (calls : list ShimCall)
  (s : bufferedWriter * realWriter) :
  run_shim_calls (call :: calls) s
  = run_shim_calls calls (run_shim_call s call).
Proof. reflexivity. Qed.






(** ** The race after the deadline *)

(** The original writer after the statements of the timeout branch from
    [pc] on. *)
Definition guard_rest {W} `{ResponseWriter W} (pc : nat) (orig : W) : W :=
  g_orig (finish_guard (mkGuardState newBufferedWriter orig pc)).

Lemma finish_guard_orig {W} `{ResponseWriter W} (s : GuardState W) :
  g_orig (finish_guard s) = guard_rest (g_pc s) (g_orig s).
Proof.
  destruct s as [b o pc]. unfold guard_rest, finish_guard.
  do 5 (destruct pc as [|pc]; [reflexivity|]). reflexivity.
Qed.

Lemma timeout_step_rest {W} `{ResponseWriter W} (s : GuardState W) :
  guard_rest (g_pc (timeout_step s)) (g_orig (timeout_step s))
  = guard_rest (g_pc s) (g_orig s).
Proof.
  destruct s as [b o pc]. unfold guard_rest, finish_guard.
  do 5 (destruct pc as [|pc]; [reflexivity|]). reflexivity.
Qed.

(** Whatever the interleaving, the original writer ends as the timeout
    branch alone leaves it. *)
Lemma run_ticks_orig {W} `{ResponseWriter W} (ts : list Tick)
  (s : GuardState W) :
  g_orig (finish_guard (run_ticks ts s)) = guard_rest (g_pc s) (g_orig s).
Proof.
  revert s. induction ts as [|t ts IH]; intros s.
  - apply finish_guard_orig.
  - change (run_ticks (t :: ts) s) with (run_ticks ts (tick t s)).
    rewrite IH. destruct t as [op|]; [reflexivity|].
    apply timeout_step_rest.
Qed.

Lemma timeout_step_bw {W} `{ResponseWriter W} (s : GuardState W) :
  closed (g_bw s) = true -> g_bw (timeout_step s) = g_bw s.
Proof.
  intros Hc. destruct s as [b o pc]. simpl in Hc.
  destruct pc as [|pc].
  - destruct b; simpl in *. unfold bw_close. simpl. now rewrite Hc.
  - do 3 (destruct pc as [|pc]; [reflexivity|]). reflexivity.
Qed.

Lemma tick_closed {W} `{ResponseWriter W} (t : Tick) (s : GuardState W) :
  closed (g_bw s) = true ->
  closed (g_bw (tick t s)) = true /\ buf (g_bw (tick t s)) = buf (g_bw s).
Proof.
  intros Hc. destruct t as [op|].
  - simpl. rewrite run_op_closed. split; [exact Hc|].
    now apply run_op_closed_buf.
  - simpl. rewrite timeout_step_bw by exact Hc. auto.
Qed.

Lemma run_ticks_closed {W} `{ResponseWriter W} (ts : list Tick)
  (s : GuardState W) :
  closed (g_bw s) = true ->
  closed (g_bw (run_ticks ts s)) = true
  /\ buf (g_bw (run_ticks ts s)) = buf (g_bw s).
Proof.
  revert s. induction ts as [|t ts IH]; intros s Hc; [auto|].
  change (run_ticks (t :: ts) s) with (run_ticks ts (tick t s)).
  destruct (tick_closed t s Hc) as [Hc' Hb'].
  destruct (IH _ Hc') as [Hc'' Hb'']. split; [exact Hc''|].
  now rewrite Hb'', Hb'.
Qed.


(** ** The race with every call of the shim *)



















(** ** The two guards agree on buffered calls *)

Definition buffered_call (op : HandlerOp) : ShimCall :=
  CallShim (ShimBuffered op).

Definition buffered_tick (t : Tick) : ShimTick :=
  match t with
  | HandlerTick op => HandlerCall (buffered_call op)
  | GuardTick => GuardStep
  end.

Definition buffered_run (r : Run) : ShimRun :=
  match r with
  | RunFinished ops => ShimFinished (map buffered_call ops)
  | RunPanicked ops p => ShimPanicked (map buffered_call ops) p
  | RunTimedOut before sched =>
      ShimTimedOut (map buffered_call before) (map buffered_tick sched)
  end.

Lemma run_shim_calls_buffered (ops : list HandlerOp) (b : bufferedWriter)
  (w : realWriter) :
  run_shim_calls (map buffered_call ops) (b, w) = (run_ops ops b, w).
Proof.
  revert b. induction ops as [|op ops IH]; intros b; [reflexivity|].
  cbn [map]. rewrite run_shim_calls_cons. apply IH.
Qed.

Lemma run_shim_ticks_buffered (sched : list Tick)
  (s : GuardState realWriter) :
  run_shim_ticks (map buffered_tick sched) s = run_ticks sched s.
Proof.
  revert s. induction sched as [|t sched IH]; intros s; [reflexivity|].
  cbn [map]. change (run_shim_ticks (?t :: ?l) s)
    with (run_shim_ticks l (shim_tick t s)).
  change (run_ticks (t :: sched) s) with (run_ticks sched (tick t s)).
  rewrite IH. destruct t as [op|]; reflexivity.
Qed.

(** For a handler that makes buffered calls only, the guard with every
    call of the shim leaves the writers as [RequestTimeoutMiddleware]
    does. *)
Lemma RequestTimeoutMiddleware_shim_buffered (r : Run) (w : realWriter) :
  res_orig (RequestTimeoutMiddleware_shim (buffered_run r) w)
  = res_orig (RequestTimeoutMiddleware r w)
  /\ res_bw (RequestTimeoutMiddleware_shim (buffered_run r) w)
     = res_bw (RequestTimeoutMiddleware r w).
Proof.
  destruct r as [ops|ops p|before sched];
    cbn [buffered_run RequestTimeoutMiddleware_shim RequestTimeoutMiddleware
           res_orig res_bw];
    rewrite run_shim_calls_buffered; cbn [fst snd];
    rewrite ?run_shim_ticks_buffered; auto.
Qed.

(** ** gin's response helpers on the two writers *)

Lemma Itoa_nonempty (n : Z) : String.eqb (Itoa n) "" = false.
Proof.
  unfold Itoa. destruct (Z.to_int n) as [d|d]; [|reflexivity].
  destruct d; reflexivity.
Qed.

Lemma Header_values_Set (k v : string) (h : Header) (k' : string) :
  Header_values (Header_Set k v h) k'
  = if decide (k = k') then [v] else Header_values h k'.
Proof.
  unfold Header_Set, Header_values.
  destruct (decide (k = k')) as [->|Hne].
  - now rewrite lookup_insert_eq.
  - now rewrite lookup_insert_ne.
Qed.

Lemma Header_values_Del (k : string) (h : Header) (k' : string) :
  Header_values (Header_Del k h) k'
  = if decide (k = k') then [] else Header_values h k'.
Proof.
  unfold Header_Del, Header_values.
  destruct (decide (k = k')) as [->|Hne].
  - now rewrite lookup_delete_eq.
  - now rewrite lookup_delete_ne.
Qed.

Section GatewayProperties.
Context `{Library}.

(** [c.Header] touches the header map only, and only at its key. *)
Lemma c_Header_real (k v : string) (c : Context realWriter) :
  rw_status (Writer (c_Header k v c)) = rw_status (Writer c)
  /\ rw_written (Writer (c_Header k v c)) = rw_written (Writer c)
  /\ sent_body (Writer (c_Header k v c)) = sent_body (Writer c)
  /\ aborted (c_Header k v c) = aborted c
  /\ forall k',
       Header_values (rw_head (Writer (c_Header k v c))) k'
       = if decide (k = k') then (if String.eqb v "" then [] else [v])
         else Header_values (rw_head (Writer c)) k'.
Proof.
  unfold c_Header. destruct (String.eqb v ""); simpl;
    repeat (split; [reflexivity|]); intros k'.
  - apply Header_values_Del.
  - apply Header_values_Set.
Qed.

(** [c.JSON] with a status that allows a body, on the real writer before
    anything was sent: the status is the code, no header but the content
    type changes, and when the document encodes the client has received
    the code, the headers and the encoded bytes. *)
Lemma c_JSON_real (code : Z) (obj : JValue) (c : Context realWriter) :
  rw_written (Writer c) = false -> sent_body (Writer c) = "" ->
  validStatusCode code = true -> bodyAllowedForStatus code = true ->
  let c' := c_JSON code obj c in
  rw_status (Writer c') = code
  /\ (forall k, k <> "Content-Type" ->
        Header_values (rw_head (Writer c')) k
        = Header_values (rw_head (Writer c)) k)
  /\ (forall bytes, json_Marshal obj = inr bytes ->
        client_view (Writer c')
        = Some {| resp_status := code;
                  resp_header := rw_head (Writer c');
                  resp_body := bytes |}).
Proof.
  intros Hw Hb Hvalid Hallowed c'. subst c'. unfold c_JSON.
  rewrite Hallowed. destruct c as [rq w keys ab]. simpl in *.
  destruct w as [hd st wr ss sh sb sn hj raw]. simpl in *. subst wr sb.
  assert (Hpos : 0 < code).
  { unfold validStatusCode in Hvalid. apply andb_true_iff in Hvalid.
    destruct Hvalid as [Hlo _]. apply Z.leb_le in Hlo. lia. }
  assert (Hwh : real_WriteHeader code
                  (mkRealWriter hd st false ss sh "" sn hj raw)
                = mkRealWriter hd code false ss sh "" sn hj raw).
  { unfold real_WriteHeader. simpl.
    assert (Hlt : (0 <? code) = true) by now apply Z.ltb_lt.
    rewrite Hlt. destruct (Z.eqb_spec st code); simpl; congruence. }
  rewrite Hwh. unfold writeContentType.
  cbn [rw_Header rw_HeaderUpdate rw_Write realWriter_ResponseWriter rw_head].
  unfold real_Write, real_commit_panic, real_WriteHeaderNow, http_Write,
    real_HeaderUpdate, client_view.
  destruct (Header_values hd "Content-Type") eqn:Ect;
    cbn [rw_head rw_status rw_written sent_status sent_head sent_body
           rw_sent rw_hijacked conn_raw];
    rewrite Hvalid;
    cbn [rw_head rw_status rw_written sent_status sent_head sent_body
           rw_sent rw_hijacked conn_raw];
    rewrite Hallowed;
    destruct (json_Marshal obj) eqn:Em;
    cbn [fst set_Writer c_Abort Writer rw_head rw_status rw_written
           sent_status sent_head sent_body rw_sent rw_hijacked conn_raw
           andb];
    (split; [reflexivity|]); split;
    try (intros k Hk; unfold Header_values;
         rewrite ?lookup_insert_ne by congruence; reflexivity);
    intros bytes Hbytes; inversion Hbytes; subst; reflexivity.
Qed.

(** C10. A request the limiter denies is answered 429 with a
    [Retry-After] header and a [retry_after] member that carry the same
    number of seconds, the result of [calculateRetryAfter], which is at
    least 1 whatever reset time the limiter reports and whatever the
    clock reads. *)
Theorem retry_after_at_least_one {L} `{RateLimiter L}
  (env : Env) (limiters : gmap string L)
  (next : Context realWriter -> Globals
          -> option (Globals * Context realWriter))
  (c : Context realWriter) (g : Globals) (h0 : Header)
  (limiter limiter1 : L) :
  Writer c = newRealWriter h0 ->
  limiters !! selectRateLimitTier c = Some limiter ->
  Allow (getRateLimitKey c) limiter = (false, limiter1) ->
  exists (retryAfter : Z) (limiters' : gmap string L)
         (c' : Context realWriter),
    RateLimitMiddleware env limiters next c g = Some (limiters', (g, c'))
    /\ retryAfter = fst (calculateRetryAfter env limiter1 (getRateLimitKey c))
    /\ 1 <= retryAfter
    /\ aborted c' = true
    /\ rw_status (Writer c') = 429
    /\ Header_values (rw_head (Writer c')) "Retry-After" = [Itoa retryAfter]
    /\ forall bytes,
         json_Marshal
           (JObject [("error", JString "Too Many Requests");
                     ("message",
                      JString "Rate limit exceeded. Please retry later.");
                     ("retry_after", JInt retryAfter)]) = inr bytes ->
         exists resp,
           client_view (Writer c') = Some resp
           /\ resp_status resp = 429
           /\ resp_body resp = bytes
           /\ Header_values (resp_header resp) "Retry-After"
              = [Itoa retryAfter].
Proof.
  intros Hw Hlim Hdeny.
  unfold RateLimitMiddleware. rewrite Hlim, Hdeny. cbn [negb].
  destruct (calculateRetryAfter env limiter1 (getRateLimitKey c))
    as [retryAfter limiter2] eqn:Ecalc.
  destruct (GetResetTime (getRateLimitKey c) limiter2)
    as [reset limiter3] eqn:Ereset.
  assert (Hge : 1 <= retryAfter).
  { unfold calculateRetryAfter in Ecalc.
    destruct (GetResetTime (getRateLimitKey c) limiter1) as [rt l'].
    destruct (Z.ltb_spec (wrap64 (rt - Unix (time_Now env))) 1);
      inversion Ecalc; subst; lia. }
  set (c1 := c_Header "Retry-After" (Itoa retryAfter) c).
  set (c2 := c_Header "X-RateLimit-Limit"
               (Itoa (getLimitForTier env (selectRateLimitTier c))) c1).
  set (c3 := c_Header "X-RateLimit-Remaining" "0" c2).
  set (c4 := c_Header "X-RateLimit-Reset" (Itoa reset) c3).
  destruct (c_Header_real "Retry-After" (Itoa retryAfter) c)
    as (Hs1 & Hw1 & Hb1 & _ & Hh1).
  destruct (c_Header_real "X-RateLimit-Limit"
              (Itoa (getLimitForTier env (selectRateLimitTier c))) c1)
    as (Hs2 & Hw2 & Hb2 & _ & Hh2).
  destruct (c_Header_real "X-RateLimit-Remaining" "0" c2)
    as (Hs3 & Hw3 & Hb3 & _ & Hh3).
  destruct (c_Header_real "X-RateLimit-Reset" (Itoa reset) c3)
    as (Hs4 & Hw4 & Hb4 & _ & Hh4).
  fold c1 in Hs1, Hw1, Hb1, Hh1, Hs2, Hw2, Hb2, Hh2.
  fold c2 in Hs2, Hw2, Hb2, Hh2, Hs3, Hw3, Hb3, Hh3.
  fold c3 in Hs3, Hw3, Hb3, Hh3, Hs4, Hw4, Hb4, Hh4.
  fold c4 in Hs4, Hw4, Hb4, Hh4.
  assert (Hretry : Header_values (rw_head (Writer c4)) "Retry-After"
                   = [Itoa retryAfter]).
  { rewrite Hh4, Hh3, Hh2, Hh1.
    rewrite !decide_False by discriminate.
    rewrite decide_True by reflexivity. now rewrite Itoa_nonempty. }
  assert (Hunwritten : rw_written (Writer c4) = false).
  { rewrite Hw4, Hw3, Hw2, Hw1, Hw. reflexivity. }
  assert (Hnobody : sent_body (Writer c4) = "").
  { rewrite Hb4, Hb3, Hb2, Hb1, Hw. reflexivity. }
  set (obj := JObject [("error", JString "Too Many Requests");
                       ("message",
                        JString "Rate limit exceeded. Please retry later.");
                       ("retry_after", JInt retryAfter)]).
  destruct (c_JSON_real 429 obj c4 Hunwritten Hnobody eq_refl eq_refl)
    as (Hst & Hhd & Hview).
  exists retryAfter, (<[selectRateLimitTier c := limiter3]> limiters),
    (c_Abort (c_JSON 429 obj c4)).
  split; [reflexivity|]. split; [reflexivity|]. split; [exact Hge|].
  split; [reflexivity|]. split; [exact Hst|]. split.
  - cbn [c_Abort Writer]. rewrite Hhd by discriminate. exact Hretry.
  - intros bytes Hbytes. eexists. split; [apply (Hview _ Hbytes)|].
    cbn [resp_status resp_body resp_header]. split; [reflexivity|].
    split; [reflexivity|]. rewrite Hhd by discriminate. exact Hretry.
Qed.

(** ** Replies

    Every path of the handlers ends in one [c.JSON], preceded on the
    success path by one [c.Header]. A reply is that answer as data. *)

Record Reply : Type := mkReply {
  reply_headers : list (string * string);
  reply_code : Z;
  reply_obj : JValue
}.

Definition send {W} `{ResponseWriter W} (r : Reply) (c : Context W)
  : Context W :=
  c_JSON (reply_code r) (reply_obj r)
    (fold_left (fun c kv => c_Header (fst kv) (snd kv) c)
       (reply_headers r) c).

(** The bytes [c.JSON] hands to [Write]. *)
Definition json_written (code : Z) (obj : JValue) : string :=
  if bodyAllowedForStatus code then
    match json_Marshal obj with
    | inr bytes => bytes
    | inl _ => ""
    end
  else "".

Definition result_obj (s : string) : JValue :=
  JObject [("result", JString s)].

Definition invalid_signature_obj (details : string) : JValue :=
  JObject [("error", JString "Invalid Signature");
           ("details", JString details)].

(** *** On the buffer *)

Lemma c_Header_bw (k v : string) (c : Context bufferedWriter) :
  let c' := c_Header k v c in
  status (Writer c') = status (Writer c)
  /\ closed (Writer c') = closed (Writer c)
  /\ buf (Writer c') = buf (Writer c)
  /\ aborted c' = aborted c
  /\ forall k',
       Header_values (head (Writer c')) k'
       = if decide (k = k') then (if String.eqb v "" then [] else [v])
         else Header_values (head (Writer c)) k'.
Proof.
  unfold c_Header. destruct (String.eqb v ""); simpl;
    repeat (split; [reflexivity|]); intros k'.
  - apply Header_values_Del.
  - apply Header_values_Set.
Qed.

Lemma c_JSON_bw (code : Z) (obj : JValue) (c : Context bufferedWriter) :
  closed (Writer c) = false -> code <> 0 ->
  let c' := c_JSON code obj c in
  bw_Status (Writer c') = code
  /\ closed (Writer c') = false
  /\ buf (Writer c') = String.append (buf (Writer c)) (json_written code obj)
  /\ forall k, k <> "Content-Type" ->
       Header_values (head (Writer c')) k
       = Header_values (head (Writer c)) k.
Proof.
  intros Hopen Hcode c'. subst c'. unfold c_JSON, json_written.
  destruct c as [rq w keys ab]. destruct w as [bf hd st wr cl].
  simpl in Hopen. subst cl.
  assert (Hst : forall s, (if s =? 0 then StatusOK else s) = s \/ s = 0).
  { intros s. destruct (Z.eqb_spec s 0); auto. }
  assert (Hcode' : (code =? 0) = false) by now apply Z.eqb_neq.
  destruct (bodyAllowedForStatus code);
    unfold writeContentType; simpl;
    destruct (Header_values hd "Content-Type") eqn:Ect; simpl;
    try (destruct (json_Marshal obj) eqn:Em; simpl);
    unfold bw_Status; simpl; rewrite ?Hcode'; simpl;
    rewrite ?append_nil_r;
    repeat (split; [reflexivity|]);
    intros k Hk; unfold Header_values;
    rewrite ?lookup_insert_ne by congruence; reflexivity.
Qed.

(** *** Through [cachedWriter] *)

(** The context with the embedded writer in place of the wrapper. *)
Definition uncache {W} (c : Context (cachedWriter W)) : Context W :=
  set_Writer (cw_ResponseWriter (Writer c)) c.

Lemma uncache_c_Header {W} `{ResponseWriter W} (k v : string)
  (c : Context (cachedWriter W)) :
  uncache (c_Header k v c) = c_Header k v (uncache c)
  /\ cw_body (Writer (c_Header k v c)) = cw_body (Writer c).
Proof.
  unfold c_Header. destruct (String.eqb v ""); split; reflexivity.
Qed.

Lemma uncache_c_JSON {W} `{ResponseWriter W} (code : Z) (obj : JValue)
  (c : Context (cachedWriter W)) :
  uncache (c_JSON code obj c) = c_JSON code obj (uncache c)
  /\ cw_body (Writer (c_JSON code obj c))
     = String.append (cw_body (Writer c)) (json_written code obj).
Proof.
  unfold c_JSON, json_written, uncache.
  destruct c as [rq w keys ab]. destruct w as [u body key].
  cbn [Writer set_Writer cw_ResponseWriter Request_ Keys aborted].
  destruct (bodyAllowedForStatus code).
  - unfold writeContentType.
    cbn [rw_Header rw_WriteHeader cachedWriter_ResponseWriter cw_lift
           cw_ResponseWriter].
    destruct (Header_values (rw_Header (rw_WriteHeader code u))
                "Content-Type");
      destruct (json_Marshal obj); simpl; rewrite ?append_nil_r;
      split; reflexivity.
  - unfold writeContentType.
    cbn [rw_Header rw_WriteHeader cachedWriter_ResponseWriter cw_lift
           cw_ResponseWriter].
    destruct (Header_values (rw_Header (rw_WriteHeader code u))
                "Content-Type");
      simpl; rewrite ?append_nil_r; split; reflexivity.
Qed.

Lemma uncache_send {W} `{ResponseWriter W} (r : Reply)
  (c : Context (cachedWriter W)) :
  uncache (send r c) = send r (uncache c)
  /\ cw_body (Writer (send r c))
     = String.append (cw_body (Writer c))
         (json_written (reply_code r) (reply_obj r)).
Proof.
  unfold send. destruct r as [hdrs code obj].
  cbn [reply_headers reply_code reply_obj].
  assert (Hfold :
    uncache (fold_left (fun c kv => c_Header (fst kv) (snd kv) c) hdrs c)
    = fold_left (fun c kv => c_Header (fst kv) (snd kv) c) hdrs (uncache c)
    /\ cw_body (Writer (fold_left
                          (fun c kv => c_Header (fst kv) (snd kv) c) hdrs c))
       = cw_body (Writer c)).
  { revert c. induction hdrs as [|[k v] hdrs IH]; intros c; [auto|].
    simpl. destruct (IH (c_Header k v c)) as [IH1 IH2].
    destruct (uncache_c_Header k v c) as [Hu Hb].
    rewrite IH1, IH2, Hu, Hb. auto. }
  destruct Hfold as [Hf1 Hf2].
  destruct (uncache_c_JSON code obj
              (fold_left (fun c kv => c_Header (fst kv) (snd kv) c) hdrs c))
    as [Hu Hb].
  rewrite Hu, Hb, Hf1, Hf2. auto.
Qed.

(** ** The handlers as replies *)

(** A request was served: the body encoded, the receipt issued over it,
    stored and encoded, and the reply is the result with the receipt in
    its header. *)
Definition served (env : Env) (rq : Request) (g : Globals)
  (paymentCtx : PaymentContext) (payer requestBody aiResult : string)
  (g' : Globals) (r : Reply) : Prop :=
  exists (body : string) (rcpt : SignedReceipt) (receiptJSON : string),
    json_Marshal (result_obj aiResult) = inr body
    /\ GenerateReceipt env paymentCtx payer (req_Path rq) requestBody body
       = inr rcpt
    /\ storeReceipt env (Some rcpt) (getReceiptTTL env) g = (g', None)
    /\ json_Marshal_receipt rcpt = inr receiptJSON
    /\ r = mkReply [("X-402-Receipt", base64_EncodeToString receiptJSON)]
             200 (result_obj aiResult).

Lemma generateAndSendReceipt_reply (env : Env) (path : string)
  (paymentCtx : PaymentContext) (payer requestBody aiResult : string) :
  exists (r : Reply) (err : option GoError),
    forall (rq : Request) (keys : gmap string KeyValue) (ab : bool)
           (g : Globals),
      req_Path rq = path ->
      exists g' : Globals,
        (forall W (inst : ResponseWriter W) (w : W),
           generateAndSendReceipt env (mkContext rq w keys ab) g paymentCtx
             payer requestBody aiResult
           = (g', send r (mkContext rq w keys ab), err))
        /\ goroutines g' = goroutines g
        /\ redisClient g' = redisClient g
        /\ match err with
           | None =>
               served env rq g paymentCtx payer requestBody aiResult g' r
           | Some _ => reply_code r = 500
           end.
Proof.
  destruct (json_Marshal (result_obj aiResult)) as [e|body] eqn:Em.
  { exists (mkReply [] 500
              (JObject [("error", JString "Failed to encode response")])),
      (Some e).
    intros rq keys ab g <-. exists g.
    split; [|auto].
    intros. unfold generateAndSendReceipt.
    change (JObject [("result", JString aiResult)])
      with (result_obj aiResult).
    now rewrite Em. }
  destruct (GenerateReceipt env paymentCtx payer path requestBody body)
    as [e|rcpt] eqn:Eg.
  { exists (mkReply [] 500
              (JObject [("error", JString "Failed to generate receipt");
                        ("details", JString (GoError_Error e))])),
      (Some e).
    intros rq keys ab g <-. exists g.
    split; [|auto].
    intros. unfold generateAndSendReceipt. cbn [Request_].
    change (JObject [("result", JString aiResult)])
      with (result_obj aiResult).
    now rewrite Em, Eg. }
  destruct (validateReceipt (Some rcpt)) as [e|] eqn:Eval.
  { exists (mkReply [] 500
              (JObject [("error", JString "Failed to store receipt")])),
      (Some (Wrap "invalid receipt format" e)).
    intros rq keys ab g <-. exists g.
    split; [|auto].
    intros. unfold generateAndSendReceipt, storeReceipt. cbn [Request_].
    change (JObject [("result", JString aiResult)])
      with (result_obj aiResult).
    now rewrite Em, Eg, Eval. }
  destruct (json_Marshal_receipt rcpt) as [e|receiptJSON] eqn:Er.
  { exists (mkReply [] 500
              (JObject [("error", JString "Failed to encode receipt")])),
      (Some e).
    intros rq keys ab g <-.
    exists (set_receiptStore
              (<[ID (Receipt_ rcpt) :=
                   mkReceiptEntry rcpt (time_Now env + getReceiptTTL env)]>
                 (receiptStore g)) g).
    split; [|auto].
    intros. unfold generateAndSendReceipt, storeReceipt. cbn [Request_].
    change (JObject [("result", JString aiResult)])
      with (result_obj aiResult).
    now rewrite Em, Eg, Eval, Er. }
  exists (mkReply [("X-402-Receipt", base64_EncodeToString receiptJSON)] 200
            (result_obj aiResult)),
    None.
  intros rq keys ab g <-.
  exists (set_receiptStore
            (<[ID (Receipt_ rcpt) :=
                 mkReceiptEntry rcpt (time_Now env + getReceiptTTL env)]>
               (receiptStore g)) g).
  split.
  { intros. unfold generateAndSendReceipt, storeReceipt. cbn [Request_].
    change (JObject [("result", JString aiResult)])
      with (result_obj aiResult).
    now rewrite Em, Eg, Eval, Er. }
  split; [reflexivity|]. split; [reflexivity|].
  exists body, rcpt, receiptJSON.
  split; [exact Em|]. split; [exact Eg|]. split.
  - unfold storeReceipt. now rewrite Eval.
  - auto.
Qed.

(** What [handleSummarize] and the cache HIT branch answer, by the
    outcome of [verifyPayment]. *)
Definition verification_reply (err : GoError) : Reply :=
  if errors_Is_DeadlineExceeded err then
    mkReply [] 504
      (JObject [("error", JString "Gateway Timeout");
                ("message", JString "Verifier request timed out")])
  else
    mkReply [] 500
      (JObject [("error", JString "Verification Service Failed");
                ("message", JString "An internal error occurred")]).

Lemma verification_error_response_send {W} `{ResponseWriter W}
  (err : GoError) (c : Context W) :
  verification_error_response err c = send (verification_reply err) c.
Proof.
  unfold verification_error_response, verification_reply.
  destruct (errors_Is_DeadlineExceeded err); reflexivity.
Qed.

Lemma handleSummarize_verify_reply (env : Env) (ctx : GoContext)
  (path signature nonce requestBody : string) :
  exists r : Reply,
    In (reply_code r) [200; 400; 403; 500; 504]
    /\ match verifyPayment env ctx signature nonce with
       | inl err => r = verification_reply err
       | inr (verifyResp, _) =>
           if IsValid verifyResp then reply_code r <> 403
           else r = mkReply [] 403
                      (invalid_signature_obj (Error verifyResp))
       end
    /\ forall (rq : Request) (keys : gmap string KeyValue) (ab : bool)
              (g : Globals),
         req_Context rq = ctx -> req_Path rq = path ->
         exists g' : Globals,
           (forall W (inst : ResponseWriter W) (w : W),
              handleSummarize_verify env signature nonce requestBody
                (mkContext rq w keys ab) g
              = (g', send r (mkContext rq w keys ab)))
           /\ goroutines g' = goroutines g
           /\ redisClient g' = redisClient g
           /\ (reply_code r = 200 ->
               exists verifyResp paymentCtx req summary,
                 verifyPayment env ctx signature nonce
                 = inr (verifyResp, paymentCtx)
                 /\ IsValid verifyResp = true
                 /\ json_Unmarshal_SummarizeRequest requestBody = inr req
                 /\ callOpenRouter env ctx (Text req) = inr summary
                 /\ served env rq g paymentCtx
                      (RecoveredAddress verifyResp) requestBody summary
                      g' r)
           /\ (reply_code r = 403 -> g' = g).
Proof.
  destruct (verifyPayment env ctx signature nonce)
    as [err|[verifyResp paymentCtx]] eqn:Ev.
  { exists (verification_reply err).
    assert (Hcode : reply_code (verification_reply err) = 504
                    \/ reply_code (verification_reply err) = 500).
    { unfold verification_reply.
      destruct (errors_Is_DeadlineExceeded err); auto. }
    split; [simpl; intuition|]. split; [reflexivity|].
    intros rq keys ab g <- <-.
    exists (log_Printf (String.append "Verification error: "
                          (GoError_Error err)) g).
    split.
    { intros. unfold handleSummarize_verify. cbn [Request_].
      rewrite Ev, verification_error_response_send. reflexivity. }
    split; [reflexivity|]. split; [reflexivity|].
    split; intros H0; destruct Hcode as [Hc|Hc]; rewrite Hc in H0;
      discriminate. }
  destruct (IsValid verifyResp) eqn:Evalid.
  2:{ exists (mkReply [] 403 (invalid_signature_obj (Error verifyResp))).
      split; [simpl; auto|]. split; [reflexivity|].
      intros rq keys ab g <- <-. exists g.
      split.
      { intros. unfold handleSummarize_verify. cbn [Request_].
        now rewrite Ev, Evalid. }
      split; [reflexivity|]. split; [reflexivity|].
      split; [discriminate|reflexivity]. }
  destruct (json_Unmarshal_SummarizeRequest requestBody) as [e|req] eqn:Eq.
  { exists (mkReply [] 400
              (JObject [("error", JString "Invalid request body")])).
    split; [simpl; auto|]. split; [discriminate|].
    intros rq keys ab g <- <-. exists g.
    split.
    { intros. unfold handleSummarize_verify. cbn [Request_].
      now rewrite Ev, Evalid, Eq. }
    split; [reflexivity|]. split; [reflexivity|].
    split; discriminate. }
  destruct (String.eqb (Text req) "") eqn:Et.
  { exists (mkReply [] 400
              (JObject [("error", JString "Invalid request");
                        ("message", JString "text field cannot be empty")])).
    split; [simpl; auto|]. split; [discriminate|].
    intros rq keys ab g <- <-. exists g.
    split.
    { intros. unfold handleSummarize_verify. cbn [Request_].
      now rewrite Ev, Evalid, Eq, Et. }
    split; [reflexivity|]. split; [reflexivity|].
    split; discriminate. }
  destruct (callOpenRouter env ctx (Text req)) as [e|summary] eqn:Ec.
  { destruct (errors_Is_DeadlineExceeded e
              || match ctx_Err env ctx with
                 | Some DeadlineExceeded => true
                 | _ => false
                 end) eqn:Ed.
    - exists (mkReply [] 504
                (JObject [("error", JString "Gateway Timeout");
                          ("message", JString "AI request timed out")])).
      split; [simpl; auto 6|]. split; [discriminate|].
      intros rq keys ab g <- <-. exists g.
      split.
      { intros. unfold handleSummarize_verify. cbn [Request_].
        now rewrite Ev, Evalid, Eq, Et, Ec, Ed. }
      split; [reflexivity|]. split; [reflexivity|].
      split; discriminate.
    - exists (mkReply [] 500
                (JObject [("error", JString "AI Service Failed");
                          ("details", JString (GoError_Error e))])).
      split; [simpl; auto 6|]. split; [discriminate|].
      intros rq keys ab g <- <-. exists g.
      split.
      { intros. unfold handleSummarize_verify. cbn [Request_].
        now rewrite Ev, Evalid, Eq, Et, Ec, Ed. }
      split; [reflexivity|]. split; [reflexivity|].
      split; discriminate. }
  destruct (generateAndSendReceipt_reply env path paymentCtx
              (RecoveredAddress verifyResp) requestBody summary)
    as (r & err & Hgen).
  exists r.
  assert (Hcode : match err with
                  | None => reply_code r = 200
                  | Some _ => reply_code r = 500
                  end).
  { destruct (Hgen (mkRequest ∅ 0 None ctx path "") ∅ false
                (mkGlobals None ∅ [] []) eq_refl)
      as (g' & _ & _ & _ & Hres).
    destruct err; [exact Hres|].
    destruct Hres as (b & rc & rj & _ & _ & _ & _ & ->). reflexivity. }
  split; [destruct err; rewrite Hcode; simpl; auto 6|].
  split; [destruct err; rewrite Hcode; discriminate|].
  intros rq keys ab g <- Hpath.
  destruct (Hgen rq keys ab g Hpath) as (g1 & Hrun & Hgo & Hrd & Hres).
  destruct err as [e|].
  - exists (log_Printf (String.append "Failed to generate receipt: "
                          (GoError_Error e)) g1).
    split.
    { intros. unfold handleSummarize_verify. cbn [Request_].
      now rewrite Ev, Evalid, Eq, Et, Ec, Hrun. }
    split; [exact Hgo|]. split; [exact Hrd|].
    rewrite Hcode. split; discriminate.
  - exists g1.
    split.
    { intros. unfold handleSummarize_verify. cbn [Request_].
      now rewrite Ev, Evalid, Eq, Et, Ec, Hrun. }
    split; [exact Hgo|]. split; [exact Hrd|]. split.
    + intros _. exists verifyResp, paymentCtx, req, summary. auto.
    + rewrite Hcode. discriminate.
Qed.

Lemma send_bw (r : Reply) (c : Context bufferedWriter) :
  closed (Writer c) = false -> reply_code r <> 0 ->
  bw_Status (Writer (send r c)) = reply_code r
  /\ closed (Writer (send r c)) = false
  /\ buf (Writer (send r c))
     = String.append (buf (Writer c))
         (json_written (reply_code r) (reply_obj r)).
Proof.
  intros Hopen Hcode. unfold send. destruct r as [hdrs code obj].
  cbn [reply_headers reply_code reply_obj] in *.
  assert (Hfold :
    closed (Writer (fold_left (fun c kv => c_Header (fst kv) (snd kv) c)
                      hdrs c)) = false
    /\ buf (Writer (fold_left (fun c kv => c_Header (fst kv) (snd kv) c)
                      hdrs c)) = buf (Writer c)).
  { revert c Hopen. induction hdrs as [|[k v] hdrs IH]; intros c Hopen;
      [auto|].
    simpl. destruct (c_Header_bw k v c) as (_ & Hc & Hb & _).
    destruct (IH (c_Header k v c)) as [IH1 IH2]; [now rewrite Hc|].
    rewrite IH1, IH2, Hb. auto. }
  destruct Hfold as [Hc Hb].
  destruct (c_JSON_bw code obj _ Hc Hcode) as (Hs & Hc' & Hb' & _).
  rewrite Hs, Hc', Hb', Hb. auto.
Qed.

(** ** [handleSummarize] once the headers and the body are there *)

(** The request body the handler works on: the one the cache middleware
    left under [request_body], or the one it reads itself within the
    size limit. *)
Definition body_available {W} (c : Context W) (requestBody : string)
  : Prop :=
  c_Get c "request_body" = Some (KBytes requestBody)
  \/ (c_Get c "request_body" = None
      /\ exists b, req_Body (Request_ c) = Some b
                   /\ ReadAll_MaxBytes maxBodySize b = inr requestBody).

Lemma handleSummarize_with_body {W} `{ResponseWriter W} (env : Env)
  (c : Context W) (g : Globals) (requestBody : string) :
  c_GetHeader c "X-402-Signature" <> "" ->
  c_GetHeader c "X-402-Nonce" <> "" ->
  body_available c requestBody ->
  handleSummarize env c g
  = Some (handleSummarize_verify env (c_GetHeader c "X-402-Signature")
            (c_GetHeader c "X-402-Nonce") requestBody c g).
Proof.
  intros Hs Hn Hb. unfold handleSummarize.
  apply String.eqb_neq in Hs. apply String.eqb_neq in Hn.
  rewrite Hs, Hn. cbn [orb].
  destruct Hb as [Hk | (Hk & b & Hbody & Hread)]; rewrite Hk.
  - reflexivity.
  - now rewrite Hbody, Hread.
Qed.

(** [handleSummarize] ends with the given status. *)
Definition surfaces (env : Env) (c : Context bufferedWriter) (g : Globals)
  (code : Z) : Prop :=
  exists g' c',
    handleSummarize env c g = Some (g', c')
    /\ bw_Status (Writer c') = code.

(** C4. With the payment headers present and the body read, by what the
    verifier exchange comes to: when the request cannot be made or sent,
    or the 200 response does not decode, [verifyPayment] returns an error
    and the handler answers 504 if the cause is
    [context.DeadlineExceeded] and 500 otherwise; a status other than 200
    gives an error that is not a timeout, answered 500; a decoded
    response is returned as it is, without error, and when it says
    [is_valid = false] the handler answers 403 with the verifier's
    [error] string as [details]. *)
Theorem verification_outcome_surfaced (env : Env)
  (c : Context bufferedWriter) (g : Globals)
  (requestBody verifyBody : string) (reply : VerifierReply) :
  let signature := c_GetHeader c "X-402-Signature" in
  let nonce := c_GetHeader c "X-402-Nonce" in
  let ctx := req_Context (Request_ c) in
  closed (Writer c) = false ->
  signature <> "" -> nonce <> "" ->
  body_available c requestBody ->
  json_Marshal
    (VerifyRequest_json
       {| vreq_Context :=
            {| Recipient := getRecipientAddress env; Token := "USDC";
               Amount := getPaymentAmount env; Nonce := nonce;
               ChainID := getChainID env |};
          vreq_Signature := signature |}) = inr verifyBody ->
  (forall url cid vctx, verifier_Do env url verifyBody cid vctx = reply) ->
  (forall err,
     reply = NewRequestFailed err \/ reply = DoFailed err
     \/ reply = Responded 200 (inl err) ->
     exists e,
       verifyPayment env ctx signature nonce = inl e
       /\ errors_Is_DeadlineExceeded e = errors_Is_DeadlineExceeded err
       /\ surfaces env c g
            (if errors_Is_DeadlineExceeded err then 504 else 500))
  /\ (forall statusCode decoded,
        reply = Responded statusCode decoded -> statusCode <> 200 ->
        exists e,
          verifyPayment env ctx signature nonce = inl e
          /\ errors_Is_DeadlineExceeded e = false
          /\ surfaces env c g 500)
  /\ (forall verifyResp,
        reply = Responded 200 (inr verifyResp) ->
        exists paymentCtx,
          verifyPayment env ctx signature nonce
          = inr (verifyResp, paymentCtx)
          /\ (IsValid verifyResp = false ->
              handleSummarize env c g
              = Some (g, c_JSON 403
                           (invalid_signature_obj (Error verifyResp)) c)
              /\ surfaces env c g 403)).
Proof.
  intros signature nonce ctx Hopen Hs Hn Hbody Hm Hdo.
  pose proof (handleSummarize_with_body env c g requestBody Hs Hn Hbody)
    as Hrun.
  fold signature nonce in Hrun.
  destruct c as [rq w keys ab]. cbn [Request_ Writer] in *.
  destruct (handleSummarize_verify_reply env (req_Context rq) (req_Path rq)
              signature nonce requestBody) as (r & Hcodes & Hcase & Hall).
  destruct (Hall rq keys ab g eq_refl eq_refl)
    as (g' & Hreply & _ & _ & _ & H403).
  rewrite (Hreply _ _ w) in Hrun.
  assert (Hcode0 : reply_code r <> 0).
  { simpl in Hcodes. intuition lia. }
  destruct (send_bw r (mkContext rq w keys ab) Hopen Hcode0)
    as (Hstatus & _ & _).
  assert (Hsurf : forall e code,
            verifyPayment env ctx signature nonce = inl e ->
            code = (if errors_Is_DeadlineExceeded e then 504 else 500) ->
            surfaces env (mkContext rq w keys ab) g code).
  { intros e code He ->. fold ctx in Hcase. rewrite He in Hcase.
    exists g', (send r (mkContext rq w keys ab)).
    split; [exact Hrun|]. rewrite Hstatus, Hcase.
    unfold verification_reply.
    now destruct (errors_Is_DeadlineExceeded e). }
  assert (Hv : verifyPayment env ctx signature nonce
               = match reply with
                 | NewRequestFailed err =>
                     inl (Wrap "create verifier request" err)
                 | DoFailed err => inl (Wrap "verifier request failed" err)
                 | Responded statusCode decoded =>
                     if negb (statusCode =? 200) then
                       inl (ErrorString
                              (String.append "verifier returned status "
                                 (Itoa statusCode)))
                     else
                       match decoded with
                       | inl err =>
                           inl (Wrap "decode verification response" err)
                       | inr verifyResp =>
                           inr (verifyResp,
                                {| Recipient := getRecipientAddress env;
                                   Token := "USDC";
                                   Amount := getPaymentAmount env;
                                   Nonce := nonce;
                                   ChainID := getChainID env |})
                       end
                 end).
  { unfold verifyPayment. rewrite Hm, Hdo. reflexivity. }
  split; [|split].
  - intros err [-> | [-> | ->]]; cbn [negb Z.eqb Pos.eqb] in Hv;
      eexists; (split; [exact Hv|]); (split; [reflexivity|]);
      (eapply Hsurf; [exact Hv | reflexivity]).
  - intros statusCode decoded -> Hne.
    assert (Hneq : (statusCode =? 200) = false) by now apply Z.eqb_neq.
    rewrite Hneq in Hv. cbn [negb] in Hv.
    eexists. split; [exact Hv|]. split; [reflexivity|].
    eapply Hsurf; [exact Hv | reflexivity].
  - intros verifyResp ->. cbn [negb Z.eqb Pos.eqb] in Hv.
    eexists. split; [exact Hv|]. intros Hinvalid.
    fold ctx in Hcase. rewrite Hv, Hinvalid in Hcase. subst r.
    rewrite (H403 eq_refl) in Hrun. split; [exact Hrun|].
    eexists _, _. split; [exact Hrun|]. exact Hstatus.
Qed.

(** ** The cache middleware up to the lookup *)

Definition cache_model (env : Env) : string :=
  if String.eqb (Getenv env "OPENROUTER_MODEL") ""
  then "z-ai/glm-4.5-air:free" else Getenv env "OPENROUTER_MODEL".

(** The request gets as far as the cache lookup: Redis is configured,
    both payment headers are there, the body is within the limit and
    decodes to a request with a text. *)
Definition reaches_lookup {W} (c : Context W) (g : Globals)
  (requestBody : string) (req : SummarizeRequest) : Prop :=
  redisClient g <> None
  /\ c_GetHeader c "X-402-Signature" <> ""
  /\ c_GetHeader c "X-402-Nonce" <> ""
  /\ req_ContentLength (Request_ c) <= maxBodySize
  /\ match req_Body (Request_ c) with
     | Some b => ReadAll_MaxBytes maxBodySize b = inr requestBody
     | None => requestBody = ""
     end
  /\ json_Unmarshal_SummarizeRequest requestBody = inr req
  /\ Text req <> "".

(** The context after lines 57-81. *)
Definition after_body_read {W} (c : Context W) (requestBody : string)
  : Context W :=
  match req_Body (Request_ c) with
  | None => c
  | Some _ =>
      let r := Request_ c in
      mkContext
        (mkRequest (req_Header r) (req_ContentLength r)
           (Some (BodyData requestBody)) (req_Context r) (req_Path r)
           (req_ClientIP r))
        (Writer c) (<["request_body" := KBytes requestBody]> (Keys c))
        (aborted c)
  end.

Lemma CacheMiddleware_lookup {W} `{ResponseWriter W} (env : Env)
  (next : forall W', ResponseWriter W' -> Context W' -> Globals
                     -> option (Globals * Context W'))
  (c : Context W) (g : Globals) (requestBody : string)
  (req : SummarizeRequest) :
  reaches_lookup c g requestBody req ->
  let cacheKey := getCacheKey (Text req) (cache_model env) in
  CacheMiddleware env next c g
  = match getFromCache g cacheKey with
    | inr cached =>
        Some (CacheMiddleware_hit env (c_GetHeader c "X-402-Signature")
                (c_GetHeader c "X-402-Nonce") requestBody cached
                (after_body_read c requestBody)
                (log_Printf (String.append "Cache HIT: " cacheKey) g))
    | inl _ =>
        CacheMiddleware_miss next cacheKey (after_body_read c requestBody)
          (log_Printf (String.append "Cache MISS: " cacheKey) g)
    end.
Proof.
  intros (Hredis & Hs & Hn & Hlen & Hbody & Hreq & Htext) cacheKey.
  unfold CacheMiddleware.
  destruct (redisClient g) as [rc|] eqn:Erc; [|congruence].
  apply String.eqb_neq in Hs. apply String.eqb_neq in Hn.
  apply String.eqb_neq in Htext.
  rewrite Hs, Hn. cbn [orb].
  assert (Hlen' : (maxBodySize <? req_ContentLength (Request_ c)) = false)
    by (apply Z.ltb_ge; exact Hlen).
  rewrite Hlen'. unfold after_body_read.
  destruct (req_Body (Request_ c)) as [b|] eqn:Eb.
  - rewrite Hbody. cbn [c_Set Request_ set_Request Writer Keys aborted].
    rewrite Hreq, Htext. fold (cache_model env). fold cacheKey.
    destruct (getFromCache g cacheKey); reflexivity.
  - subst requestBody. rewrite Hreq, Htext.
    fold (cache_model env). fold cacheKey.
    destruct (getFromCache g cacheKey); reflexivity.
Qed.

Lemma CacheMiddleware_hit_reply (env : Env) (ctx : GoContext)
  (path signature nonce requestBody : string) (cached : CachedResponse) :
  exists r : Reply,
    In (reply_code r) [200; 403; 500; 504]
    /\ match verifyPayment env ctx signature nonce with
       | inl err => r = verification_reply err
       | inr (verifyResp, _) =>
           if IsValid verifyResp then reply_code r <> 403
           else r = mkReply [] 403
                      (invalid_signature_obj (Error verifyResp))
       end
    /\ forall (rq : Request) (keys : gmap string KeyValue) (ab : bool)
              (g : Globals),
         req_Context rq = ctx -> req_Path rq = path ->
         exists (g' : Globals) (keys' : gmap string KeyValue),
           (forall W (inst : ResponseWriter W) (w : W),
              CacheMiddleware_hit env signature nonce requestBody cached
                (mkContext rq w keys ab) g
              = (g', c_Abort (send r (mkContext rq w keys' ab))))
           /\ (reply_code r = 200 ->
               exists verifyResp paymentCtx,
                 verifyPayment env ctx signature nonce
                 = inr (verifyResp, paymentCtx)
                 /\ IsValid verifyResp = true
                 /\ served env rq g paymentCtx
                      (RecoveredAddress verifyResp) requestBody
                      (Result cached) g' r)
           /\ (reply_code r = 403 -> g' = g).
Proof.
  destruct (verifyPayment env ctx signature nonce)
    as [err|[verifyResp paymentCtx]] eqn:Ev.
  { exists (verification_reply err).
    assert (Hcode : reply_code (verification_reply err) = 504
                    \/ reply_code (verification_reply err) = 500).
    { unfold verification_reply.
      destruct (errors_Is_DeadlineExceeded err); auto. }
    split; [simpl; intuition|]. split; [reflexivity|].
    intros rq keys ab g <- <-.
    exists (log_Printf (String.append "Verification error on cache hit: "
                          (GoError_Error err)) g), keys.
    split.
    { intros. unfold CacheMiddleware_hit. cbn [Request_].
      rewrite Ev, verification_error_response_send. reflexivity. }
    split; intros H0; destruct Hcode as [Hc|Hc]; rewrite Hc in H0;
      discriminate. }
  destruct (IsValid verifyResp) eqn:Evalid.
  2:{ exists (mkReply [] 403 (invalid_signature_obj (Error verifyResp))).
      split; [simpl; auto|]. split; [reflexivity|].
      intros rq keys ab g <- <-. exists g, keys.
      split.
      { intros. unfold CacheMiddleware_hit. cbn [Request_].
        now rewrite Ev, Evalid. }
      split; [discriminate|reflexivity]. }
  destruct (generateAndSendReceipt_reply env path paymentCtx
              (RecoveredAddress verifyResp) requestBody (Result cached))
    as (r & err & Hgen).
  exists r.
  assert (Hcode : match err with
                  | None => reply_code r = 200
                  | Some _ => reply_code r = 500
                  end).
  { destruct (Hgen (mkRequest ∅ 0 None ctx path "") ∅ false
                (mkGlobals None ∅ [] []) eq_refl)
      as (g' & _ & _ & _ & Hres).
    destruct err; [exact Hres|].
    destruct Hres as (b & rc & rj & _ & _ & _ & _ & ->). reflexivity. }
  split; [destruct err; rewrite Hcode; simpl; auto 6|].
  split; [destruct err; rewrite Hcode; discriminate|].
  intros rq keys ab g <- Hpath.
  destruct (Hgen rq
              (<["payment_context" := KPaymentContext paymentCtx]>
                 (<["payment_verification" := KVerifyResponse verifyResp]>
                    keys))
              ab g Hpath) as (g1 & Hrun & _ & _ & Hres).
  destruct err as [e|].
  - exists (log_Printf (String.append
                          "Failed to send cached response receipt: "
                          (GoError_Error e)) g1),
      (<["payment_context" := KPaymentContext paymentCtx]>
         (<["payment_verification" := KVerifyResponse verifyResp]> keys)).
    split.
    { intros. unfold CacheMiddleware_hit, c_Set.
      cbn [Request_ Writer Keys aborted].
      now rewrite Ev, Evalid, Hrun. }
    rewrite Hcode. split; discriminate.
  - exists g1,
      (<["payment_context" := KPaymentContext paymentCtx]>
         (<["payment_verification" := KVerifyResponse verifyResp]> keys)).
    split.
    { intros. unfold CacheMiddleware_hit, c_Set.
      cbn [Request_ Writer Keys aborted].
      now rewrite Ev, Evalid, Hrun. }
    split.
    + intros _. exists verifyResp, paymentCtx. auto.
    + rewrite Hcode. discriminate.
Qed.

(** What a reply writes depends on the writer alone. *)
Lemma c_Header_Writer {W} `{ResponseWriter W} (k v : string)
  (c c0 : Context W) :
  Writer c = Writer c0 -> Writer (c_Header k v c) = Writer (c_Header k v c0).
Proof.
  intros Heq. unfold c_Header. destruct (String.eqb v ""); simpl;
    now rewrite Heq.
Qed.

Lemma c_JSON_Writer {W} `{ResponseWriter W} (code : Z) (obj : JValue)
  (c c0 : Context W) :
  Writer c = Writer c0 ->
  Writer (c_JSON code obj c) = Writer (c_JSON code obj c0).
Proof.
  intros Heq. unfold c_JSON. rewrite Heq.
  destruct (bodyAllowedForStatus code); [|reflexivity].
  destruct (json_Marshal obj); reflexivity.
Qed.

Lemma send_Writer {W} `{ResponseWriter W} (r : Reply) (c c0 : Context W) :
  Writer c = Writer c0 -> Writer (send r c) = Writer (send r c0).
Proof.
  intros Heq. unfold send. apply c_JSON_Writer.
  revert c c0 Heq.
  induction (reply_headers r) as [|[k v] hdrs IH]; intros c c0 Heq;
    [exact Heq|].
  simpl. apply IH. now apply c_Header_Writer.
Qed.


(** ** Receipts *)

(** The response the client is sent and the receipt issued for it agree:
    the bytes appended to the buffer are the encoding of the document
    that holds the result alone; the stored receipt carries the content
    hash of exactly these bytes; and the receipt itself travels in the
    [X-402-Receipt] header. *)
Definition delivered (env : Env) (c : Context bufferedWriter)
  (g' : Globals) (c' : Context bufferedWriter) : Prop :=
  exists (aiResult body : string) (rcpt : SignedReceipt)
         (receiptJSON : string),
    json_Marshal (result_obj aiResult) = inr body
    /\ bw_Status (Writer c') = 200
    /\ buf (Writer c') = String.append (buf (Writer c)) body
    /\ ResponseHash (Service (Receipt_ rcpt)) = content_hash body
    /\ receiptStore g' !! ID (Receipt_ rcpt)
       = Some (mkReceiptEntry rcpt (time_Now env + getReceiptTTL env))
    /\ json_Marshal_receipt rcpt = inr receiptJSON
    /\ Header_values (head (Writer c')) "X-402-Receipt"
       = (if String.eqb (base64_EncodeToString receiptJSON) "" then []
          else [base64_EncodeToString receiptJSON]).

Lemma served_delivered (env : Env) (rq : Request) (g g' : Globals)
  (paymentCtx : PaymentContext) (payer requestBody aiResult : string)
  (r : Reply) (c c1 c' : Context bufferedWriter) :
  served env rq g paymentCtx payer requestBody aiResult g' r ->
  closed (Writer c) = false ->
  Writer c1 = Writer c ->
  Writer c' = Writer (send r c1) ->
  delivered env c g' c'.
Proof.
  intros (body & rcpt & rj & Hm & Hg & Hs & Hj & ->) Hopen Hw1 Hw'.
  exists aiResult, body, rcpt, rj.
  assert (Hopen1 : closed (Writer c1) = false) by now rewrite Hw1.
  destruct (send_bw
              (mkReply [("X-402-Receipt", base64_EncodeToString rj)] 200
                 (result_obj aiResult)) c1 Hopen1 ltac:(discriminate))
    as (Hstatus & _ & Hbuf).
  cbn [reply_code reply_obj] in Hstatus, Hbuf.
  rewrite Hw'. split; [exact Hm|]. split; [exact Hstatus|]. split.
  { rewrite Hbuf, Hw1. unfold json_written. cbn [bodyAllowedForStatus].
    replace (bodyAllowedForStatus 200) with true by reflexivity.
    now rewrite Hm. }
  split.
  { unfold GenerateReceipt in Hg.
    destruct (sign_receipt env _) as [e|[sg pub]]; [discriminate|].
    inversion Hg. reflexivity. }
  split.
  { unfold storeReceipt in Hs.
    destruct (validateReceipt (Some rcpt)); [discriminate|].
    inversion Hs. cbn [set_receiptStore receiptStore].
    apply lookup_insert_eq. }
  split; [exact Hj|].
  unfold send. cbn [reply_headers reply_code reply_obj fold_left fst snd].
  assert (Hopen2 : closed (Writer (c_Header "X-402-Receipt"
                                     (base64_EncodeToString rj) c1)) = false).
  { destruct (c_Header_bw "X-402-Receipt" (base64_EncodeToString rj) c1)
      as (_ & Hc & _). now rewrite Hc. }
  destruct (c_JSON_bw 200 (result_obj aiResult) _ Hopen2
              ltac:(discriminate)) as (_ & _ & _ & Hhd).
  rewrite Hhd by discriminate.
  destruct (c_Header_bw "X-402-Receipt" (base64_EncodeToString rj) c1)
    as (_ & _ & _ & _ & Hh).
  rewrite Hh. now rewrite decide_True by reflexivity.
Qed.

Lemma handleSummarize_verify_delivered (env : Env)
  (c : Context bufferedWriter) (g : Globals)
  (signature nonce requestBody : string) (g' : Globals)
  (c' : Context bufferedWriter) :
  closed (Writer c) = false ->
  handleSummarize_verify env signature nonce requestBody c g = (g', c') ->
  bw_Status (Writer c') = 200 ->
  delivered env c g' c'.
Proof.
  intros Hopen Hrun H200. destruct c as [rq w keys ab].
  destruct (handleSummarize_verify_reply env (req_Context rq) (req_Path rq)
              signature nonce requestBody) as (r & Hcodes & _ & Hall).
  destruct (Hall rq keys ab g eq_refl eq_refl)
    as (g1 & Hreply & _ & _ & Hserved & _).
  rewrite (Hreply _ _ w) in Hrun. inversion Hrun; subst g' c'. clear Hrun.
  assert (Hcode0 : reply_code r <> 0) by (simpl in Hcodes; intuition lia).
  destruct (send_bw r (mkContext rq w keys ab) Hopen Hcode0)
    as (Hstatus & _ & _).
  rewrite Hstatus in H200.
  destruct (Hserved H200) as (vr & pc & rq0 & summary & _ & _ & _ & _ & Hs).
  eapply served_delivered; [exact Hs | exact Hopen | | ]; reflexivity.
Qed.

(** C5. Whenever a request is served, by the handler or from the cache,
    the receipt stored and sent in the [X-402-Receipt] header carries as
    its response hash the content hash of exactly the bytes written as
    the body, and these bytes are the encoding of the document that holds
    the result alone, without the receipt. *)
Theorem receipt_hash_matches_body (env : Env)
  (c : Context bufferedWriter) (g : Globals) :
  closed (Writer c) = false ->
  (forall paymentCtx payer requestBody aiResult g' c',
     generateAndSendReceipt env c g paymentCtx payer requestBody aiResult
     = (g', c', None) ->
     delivered env c g' c')
  /\ (forall g' c',
        handleSummarize env c g = Some (g', c') ->
        bw_Status (Writer c') = 200 ->
        delivered env c g' c')
  /\ (forall next requestBody req cached g' c',
        reaches_lookup c g requestBody req ->
        getFromCache g (getCacheKey (Text req) (cache_model env))
        = inr cached ->
        CacheMiddleware env next c g = Some (g', c') ->
        bw_Status (Writer c') = 200 ->
        delivered env c g' c').
Proof.
  intros Hopen. split; [|split].
  - intros paymentCtx payer requestBody aiResult g' c' Hrun.
    destruct c as [rq w keys ab].
    destruct (generateAndSendReceipt_reply env (req_Path rq) paymentCtx
                payer requestBody aiResult) as (r & err & Hgen).
    destruct (Hgen rq keys ab g eq_refl) as (g1 & Hreply & _ & _ & Hres).
    rewrite (Hreply _ _ w) in Hrun. inversion Hrun; subst g1 c' err.
    eapply served_delivered; [exact Hres | exact Hopen | | ]; reflexivity.
  - intros g' c' Hrun H200. unfold handleSummarize in Hrun.
    destruct (String.eqb (c_GetHeader c "X-402-Signature") ""
              || String.eqb (c_GetHeader c "X-402-Nonce") "").
    { inversion Hrun; subst g' c'.
      destruct (c_JSON_bw 402
                  (JObject [("error", JString "Payment Required");
                            ("message",
                             JString "Please sign the payment context");
                            ("paymentContext",
                             PaymentContext_json
                               (createPaymentContext env))]) c Hopen
                  ltac:(discriminate)) as (Hs & _).
      rewrite Hs in H200. discriminate. }
    destruct (c_Get c "request_body") as [[body| | |]|].
    + inversion Hrun as [Hrun'].
      eapply handleSummarize_verify_delivered; eauto.
    + discriminate.
    + discriminate.
    + discriminate.
    + destruct (req_Body (Request_ c)) as [b|]; [|discriminate].
      destruct (ReadAll_MaxBytes maxBodySize b) as [err|body].
      * destruct (errors_As_MaxBytesError err);
          inversion Hrun; subst g' c';
          match type of H200 with
          | context [c_JSON ?code ?obj c] =>
              destruct (c_JSON_bw code obj c Hopen ltac:(discriminate))
                as (Hs & _)
          end;
          rewrite Hs in H200; discriminate.
      * inversion Hrun as [Hrun'].
        eapply handleSummarize_verify_delivered; eauto.
  - intros next requestBody req cached g' c' Hreach Hhit Hrun H200.
    rewrite (CacheMiddleware_lookup env next c g requestBody req Hreach)
      in Hrun.
    cbv zeta in Hrun. rewrite Hhit in Hrun. inversion Hrun as [Hrun'].
    clear Hrun.
    assert (Hshape : exists rq1 keys1,
              after_body_read c requestBody
              = mkContext rq1 (Writer c) keys1 (aborted c)).
    { unfold after_body_read. destruct c as [rq w keys ab].
      cbn [Request_ Writer Keys aborted].
      destruct (req_Body rq); eexists _, _; reflexivity. }
    destruct Hshape as (rq1 & keys1 & Hshape). rewrite Hshape in Hrun'.
    destruct (CacheMiddleware_hit_reply env (req_Context rq1) (req_Path rq1)
                (c_GetHeader c "X-402-Signature")
                (c_GetHeader c "X-402-Nonce") requestBody cached)
      as (r & Hcodes & _ & Hall).
    destruct (Hall rq1 keys1 (aborted c)
                (log_Printf
                   (String.append "Cache HIT: "
                      (getCacheKey (Text req) (cache_model env))) g)
                eq_refl eq_refl)
      as (g1 & keys' & Hreply & Hserved & _).
    rewrite Hreply in Hrun'. inversion Hrun'; subst g' c'. clear Hrun'.
    cbn [c_Abort Writer] in H200.
    assert (Hcode0 : reply_code r <> 0) by (simpl in Hcodes; intuition lia).
    destruct (send_bw r (mkContext rq1 (Writer c) keys' (aborted c)) Hopen
                Hcode0) as (Hstatus & _ & _).
    rewrite Hstatus in H200.
    destruct (Hserved H200) as (vr & pc & _ & _ & Hs).
    eapply served_delivered
      with (c1 := mkContext rq1 (Writer c) keys' (aborted c));
      [exact Hs | exact Hopen | | ]; reflexivity.
Qed.

(** ** Verification and the state of the process *)

Lemma config_agrees (env1 env2 : Env) :
  (forall k, Getenv env2 k = Getenv env1 k) ->
  getRecipientAddress env2 = getRecipientAddress env1
  /\ getPaymentAmount env2 = getPaymentAmount env1
  /\ getChainID env2 = getChainID env1.
Proof.
  intros Hcfg.
  unfold getRecipientAddress, getPaymentAmount, getChainID.
  now rewrite !Hcfg.
Qed.

(** The response of [handleSummarize] does not depend on the state of
    the process. *)
Lemma handleSummarize_state_independent {W} `{ResponseWriter W}
  (env : Env) (c : Context W) (g g' : Globals) :
  option_map snd (handleSummarize env c g)
  = option_map snd (handleSummarize env c g').
Proof.
  destruct c as [rq w keys ab].
  assert (Hverify : forall body,
            snd (handleSummarize_verify env
                   (c_GetHeader (mkContext rq w keys ab) "X-402-Signature")
                   (c_GetHeader (mkContext rq w keys ab) "X-402-Nonce")
                   body (mkContext rq w keys ab) g)
            = snd (handleSummarize_verify env
                     (c_GetHeader (mkContext rq w keys ab) "X-402-Signature")
                     (c_GetHeader (mkContext rq w keys ab) "X-402-Nonce")
                     body (mkContext rq w keys ab) g')).
  { intros body.
    destruct (handleSummarize_verify_reply env (req_Context rq) (req_Path rq)
                (c_GetHeader (mkContext rq w keys ab) "X-402-Signature")
                (c_GetHeader (mkContext rq w keys ab) "X-402-Nonce") body)
      as (r & _ & _ & Hall).
    destruct (Hall rq keys ab g eq_refl eq_refl) as (g1 & Hr1 & _).
    destruct (Hall rq keys ab g' eq_refl eq_refl) as (g2 & Hr2 & _).
    now rewrite Hr1, Hr2. }
  unfold handleSummarize.
  destruct (String.eqb _ "" || String.eqb _ ""); [reflexivity|].
  destruct (c_Get _ "request_body") as [[body| | |]|]; try reflexivity.
  - cbn [option_map]. now rewrite Hverify.
  - destruct (req_Body _) as [b|]; [|reflexivity].
    destruct (ReadAll_MaxBytes maxBodySize b) as [err|body].
    + destruct (errors_As_MaxBytesError err); reflexivity.
    + cbn [option_map]. now rewrite Hverify.
Qed.

(** C8. [verifyPayment] builds the payment context from the configured
    recipient, amount and chain and the caller's nonce, and asks the
    verifier; no state of the process enters. So two calls with the same
    signature and nonce, under the same configuration and with a verifier
    whose reply depends on what it is sent only, return the same result,
    whatever the time, the request context and the requests served in
    between; and [handleSummarize] gives a request the same response in
    every state of the process, in particular in the state an earlier
    run on the same request has left. *)
Theorem replay_is_accepted_again (env1 env2 : Env) (ctx1 ctx2 : GoContext)
  (signature nonce : string) :
  (forall k, Getenv env2 k = Getenv env1 k) ->
  (forall url body cid1 cid2 v1 v2,
     verifier_Do env2 url body cid2 v2 = verifier_Do env1 url body cid1 v1) ->
  verifyPayment env2 ctx2 signature nonce
  = verifyPayment env1 ctx1 signature nonce
  /\ (forall verifyResp paymentCtx,
        verifyPayment env1 ctx1 signature nonce
        = inr (verifyResp, paymentCtx) ->
        paymentCtx
        = {| Recipient := getRecipientAddress env1; Token := "USDC";
             Amount := getPaymentAmount env1; Nonce := nonce;
             ChainID := getChainID env1 |})
  /\ (forall (c : Context bufferedWriter) (g g' : Globals),
        option_map snd (handleSummarize env1 c g)
        = option_map snd (handleSummarize env1 c g'))
  /\ (forall (c : Context bufferedWriter) (g g1 : Globals)
             (c1 : Context bufferedWriter),
        handleSummarize env1 c g = Some (g1, c1) ->
        exists g2, handleSummarize env1 c g1 = Some (g2, c1)).
Proof.
  intros Hcfg Hver. split; [|split; [|split]].
  - destruct (config_agrees env1 env2 Hcfg) as (Hr & Ha & Hc).
    unfold verifyPayment. rewrite Hr, Ha, Hc, !Hcfg.
    destruct (json_Marshal _) as [e|verifyBody]; [reflexivity|].
    rewrite (Hver _ verifyBody (ctx_correlation_id ctx1)
               (ctx_correlation_id ctx2)
               (fst (context_WithTimeout (time_Now env1) ctx1
                       (getVerifierTimeout env1)))
               (fst (context_WithTimeout (time_Now env2) ctx2
                       (getVerifierTimeout env2)))).
    reflexivity.
  - intros verifyResp paymentCtx Hv. unfold verifyPayment in Hv.
    destruct (json_Marshal _); [discriminate|].
    destruct (verifier_Do env1 _ _ _ _) as [e|e|statusCode decoded];
      try discriminate.
    destruct (negb (statusCode =? 200)); [discriminate|].
    destruct decoded; [discriminate|]. now inversion Hv.
  - intros c g g'. apply handleSummarize_state_independent.
  - intros c g g1 c1 Hrun.
    pose proof (handleSummarize_state_independent env1 c g g1) as Hind.
    rewrite Hrun in Hind. cbn [option_map snd] in Hind.
    destruct (handleSummarize env1 c g1) as [[g2 c2]|]; [|discriminate].
    cbn [option_map snd] in Hind. inversion Hind. eauto.
Qed.

(** ** Storing on a miss *)

Lemma app_singleton_neq {A} (l : list A) (x : A) : (l ++ [x])%list <> l.
Proof.
  intros Heq. apply (f_equal (@length A)) in Heq.
  rewrite length_app in Heq. simpl in Heq. lia.
Qed.

(** The cache store touches nothing but the Redis client and the log:
    with no client it does nothing at all, and with a client whose
    commands fail it leaves the client as it is and logs one line. *)
Lemma run_goroutine_absorbs (env : Env) (t : Goroutine) (g : Globals) :
  receiptStore (run_goroutine env t g) = receiptStore g
  /\ goroutines (run_goroutine env t g) = goroutines g
  /\ (redisClient g = None -> run_goroutine env t g = g)
  /\ (forall rc err,
        redisClient g = Some rc -> rd_error rc = Some err ->
        exists line, run_goroutine env t g = log_Printf line g).
Proof.
  destruct t as [k v d]. unfold run_goroutine, storeInCache.
  destruct g as [rc rs gs lg]. cbn [redisClient].
  destruct rc as [rc|].
  - destruct (json_Marshal _) as [e|jsonData].
    + repeat split; try reflexivity; [discriminate|].
      intros rc' err _ _. eexists. reflexivity.
    + unfold redis_Set. destruct (rd_error rc) as [e|] eqn:Ee.
      * repeat split; try reflexivity; [discriminate|].
        intros rc' err Hrc _. inversion Hrc; subst rc'.
        eexists. reflexivity.
      * repeat split; try reflexivity; [discriminate|].
        intros rc' err Hrc Herr. inversion Hrc; subst rc'. congruence.
  - repeat split; try reflexivity. intros rc err Hrc. discriminate.
Qed.

(** The MISS branch in front of [handleSummarize], given the reply the
    handler sends. *)
Lemma CacheMiddleware_miss_reply (env : Env) (cacheKey : string)
  (rq : Request) (w : bufferedWriter) (keys : gmap string KeyValue)
  (ab : bool) (g1 g2 : Globals) (r : Reply) :
  (forall W (inst : ResponseWriter W) (w' : W),
     handleSummarize env (mkContext rq w' keys ab) g1
     = Some (g2, send r (mkContext rq w' keys ab))) ->
  closed w = false -> reply_code r <> 0 ->
  CacheMiddleware_miss
    (fun W' (inst : ResponseWriter W') => handleSummarize (W := W') env)
    cacheKey (mkContext rq w keys ab) g1
  = Some (if reply_code r =? 200 then
            match json_Unmarshal_map
                    (json_written (reply_code r) (reply_obj r)) with
            | inr resp =>
                match resp !! "result" with
                | Some (JString result) =>
                    go (StoreTask cacheKey result (5 * Second)) g2
                | _ => g2
                end
            | inl _ => g2
            end
          else g2,
          send r (mkContext rq w keys ab)).
Proof.
  intros Hhandler Hopen Hcode0.
  set (cc := mkContext rq (mkCachedWriter w "" cacheKey) keys ab).
  destruct (uncache_send r cc) as [Hu Hb].
  assert (Hstatus : bw_Status (Writer (send r (uncache cc))) = reply_code r)
    by (apply send_bw; [exact Hopen | exact Hcode0]).
  unfold CacheMiddleware_miss. cbn [set_Writer Request_ Writer Keys aborted].
  fold cc. rewrite (Hhandler _ _ (mkCachedWriter w "" cacheKey)). fold cc.
  change (rw_Status (cw_ResponseWriter (Writer (send r cc))))
    with (bw_Status (Writer (uncache (send r cc)))).
  change (set_Writer (cw_ResponseWriter (Writer (send r cc))) (send r cc))
    with (uncache (send r cc)).
  rewrite Hu, Hstatus, Hb. reflexivity.
Qed.

(** On a closed buffer [c.JSON] changes neither the status the buffer
    reports nor its bytes. *)
Lemma c_JSON_bw_closed (code : Z) (obj : JValue)
  (c : Context bufferedWriter) :
  closed (Writer c) = true ->
  let c' := c_JSON code obj c in
  bw_Status (Writer c') = bw_Status (Writer c)
  /\ closed (Writer c') = true
  /\ buf (Writer c') = buf (Writer c).
Proof.
  intros Hc c'. subst c'. unfold c_JSON.
  destruct c as [rq w keys ab]. destruct w as [bf hd st wr cl].
  simpl in Hc. subst cl.
  destruct (bodyAllowedForStatus code);
    unfold writeContentType; simpl;
    destruct (Header_values hd "Content-Type") eqn:Ect; simpl;
    try (destruct (json_Marshal obj) eqn:Em; simpl);
    unfold bw_Status; simpl;
    repeat split; try reflexivity;
    destruct (st =? 0) eqn:E0; simpl; rewrite ?E0; reflexivity.
Qed.

Lemma send_bw_closed (r : Reply) (c : Context bufferedWriter) :
  closed (Writer c) = true ->
  bw_Status (Writer (send r c)) = bw_Status (Writer c)
  /\ closed (Writer (send r c)) = true
  /\ buf (Writer (send r c)) = buf (Writer c).
Proof.
  intros Hclosed. unfold send. destruct r as [hdrs code obj].
  cbn [reply_headers reply_code reply_obj] in *.
  assert (Hfold :
    closed (Writer (fold_left (fun c kv => c_Header (fst kv) (snd kv) c)
                      hdrs c)) = true
    /\ buf (Writer (fold_left (fun c kv => c_Header (fst kv) (snd kv) c)
                      hdrs c)) = buf (Writer c)
    /\ status (Writer (fold_left (fun c kv => c_Header (fst kv) (snd kv) c)
                         hdrs c)) = status (Writer c)).
  { revert c Hclosed. induction hdrs as [|[k v] hdrs IH]; intros c Hclosed;
      [auto|].
    simpl. destruct (c_Header_bw k v c) as (Hs & Hc & Hb & _).
    destruct (IH (c_Header k v c)) as (IH1 & IH2 & IH3); [now rewrite Hc|].
    rewrite IH1, IH2, IH3, Hb, Hs. auto. }
  destruct Hfold as (Hc & Hb & Hs).
  destruct (c_JSON_bw_closed code obj _ Hc) as (Hs' & Hc' & Hb').
  rewrite Hs', Hc', Hb', Hb. unfold bw_Status. rewrite Hs. auto.
Qed.

(** The MISS branch in front of [handleSummarize] on any buffer, given
    the reply the handler sends: the store is started by the status the
    buffer reports afterwards and by the bytes the wrapper captured. *)
Lemma CacheMiddleware_miss_captured (env : Env) (cacheKey : string)
  (rq : Request) (w : bufferedWriter) (keys : gmap string KeyValue)
  (ab : bool) (g1 g2 : Globals) (r : Reply) :
  (forall W (inst : ResponseWriter W) (w' : W),
     handleSummarize env (mkContext rq w' keys ab) g1
     = Some (g2, send r (mkContext rq w' keys ab))) ->
  CacheMiddleware_miss
    (fun W' (inst : ResponseWriter W') => handleSummarize (W := W') env)
    cacheKey (mkContext rq w keys ab) g1
  = Some (if bw_Status (Writer (send r (mkContext rq w keys ab))) =? 200 then
            match json_Unmarshal_map
                    (json_written (reply_code r) (reply_obj r)) with
            | inr resp =>
                match resp !! "result" with
                | Some (JString result) =>
                    go (StoreTask cacheKey result (5 * Second)) g2
                | _ => g2
                end
            | inl _ => g2
            end
          else g2,
          send r (mkContext rq w keys ab)).
Proof.
  intros Hhandler.
  set (cc := mkContext rq (mkCachedWriter w "" cacheKey) keys ab).
  destruct (uncache_send r cc) as [Hu Hb].
  unfold CacheMiddleware_miss. cbn [set_Writer Request_ Writer Keys aborted].
  fold cc. rewrite (Hhandler _ _ (mkCachedWriter w "" cacheKey)). fold cc.
  change (rw_Status (cw_ResponseWriter (Writer (send r cc))))
    with (bw_Status (Writer (uncache (send r cc)))).
  change (set_Writer (cw_ResponseWriter (Writer (send r cc))) (send r cc))
    with (uncache (send r cc)).
  rewrite Hu, Hb. reflexivity.
Qed.

(** With a Redis that answers and a value that encodes, the store that
    was started puts the encoded value under its key. *)
Lemma run_goroutine_stores (env : Env) (k v : string) (t : Duration)
  (g : Globals) (rc : RedisClient) (jsonData : string) :
  redisClient g = Some rc -> rd_error rc = None ->
  json_Marshal
    (CachedResponse_json {| Result := v; CachedAt := Unix (time_Now env) |})
  = inr jsonData ->
  getFromCache (run_goroutine env (StoreTask k v t) g) k
  = json_Unmarshal_CachedResponse jsonData.
Proof.
  intros Hrc Herr Hm. unfold run_goroutine, storeInCache.
  rewrite Hrc, Hm. unfold redis_Set. rewrite Herr.
  unfold getFromCache, redis_Get.
  cbn [set_redisClient redisClient rd_error rd_data].
  now rewrite lookup_insert_eq.
Qed.

(** C9. On a cache miss the middleware runs the handler and hands back
    what the handler made of the writer. The handler answers with a
    status [code] and bytes [written], the same on every writer. The
    store is started, with the string under [result] in the captured
    bytes as its value and a timeout of five seconds, if and only if
    the writer reports the status 200 afterwards and the captured bytes
    decode to a document with such a string. On an open buffer the
    reported status is the handler's, so that, with a codec that
    decodes an encoded result document, the store is started if and
    only if the response has the status 200. On a buffer that the
    timeout guard has closed the handler's status is dropped and the
    buffer goes on reporting the status it had: a result the handler
    produces after the deadline is stored, although the client has
    received the 504 of the guard. The store is a goroutine that has
    not run when the middleware returns, so the cache is then as it
    was, and the response is the one the same request gets when no
    cache is available. Running the store puts the value under the key
    when Redis answers; without a client it does nothing, and with a
    failing client it logs one line and leaves everything else as it
    is. *)
Theorem cache_store_only_on_success (env : Env)
  (c : Context bufferedWriter) (g : Globals) (requestBody : string)
  (req : SummarizeRequest) (e : GoError) :
  let next :=
    fun W' (inst : ResponseWriter W') => handleSummarize (W := W') env in
  let cacheKey := getCacheKey (Text req) (cache_model env) in
  let codec :=
    forall s b,
      json_Marshal (result_obj s) = inr b ->
      exists m s',
        json_Unmarshal_map b = inr m /\ m !! "result" = Some (JString s') in
  reaches_lookup c g requestBody req ->
  req_Body (Request_ c) <> None ->
  c_Get c "request_body" = None ->
  getFromCache g cacheKey = inl e ->
  exists g' c' (code : Z) (written : string),
    let stored result :=
      goroutines g'
      = (goroutines g ++ [StoreTask cacheKey result (5 * Second)])%list in
    let holds_result result :=
      exists m,
        json_Unmarshal_map written = inr m
        /\ m !! "result" = Some (JString result) in
    CacheMiddleware env next c g = Some (g', c')
    /\ In code [200; 400; 403; 500; 504]
    /\ (forall w0 : bufferedWriter,
          closed w0 = false ->
          exists g0 c0,
            handleSummarize env
              (set_Writer w0 (after_body_read c requestBody))
              (log_Printf (String.append "Cache MISS: " cacheKey) g)
            = Some (g0, c0)
            /\ bw_Status (Writer c0) = code
            /\ buf (Writer c0) = String.append (buf w0) written)
    /\ (code = 200 ->
        exists summary, json_Marshal (result_obj summary) = inr written)
    /\ (closed (Writer c) = false ->
        bw_Status (Writer c') = code
        /\ buf (Writer c') = String.append (buf (Writer c)) written)
    /\ (closed (Writer c) = true ->
        bw_Status (Writer c') = bw_Status (Writer c)
        /\ buf (Writer c') = buf (Writer c)
        /\ closed (Writer c') = true)
    /\ ((exists result, stored result)
        <-> bw_Status (Writer c') = 200 /\ exists result, holds_result result)
    /\ (forall result, stored result -> holds_result result)
    /\ ((forall result, ~ stored result) -> goroutines g' = goroutines g)
    /\ (codec ->
        (closed (Writer c) = false ->
         ((exists result, stored result) <-> bw_Status (Writer c') = 200))
        /\ (closed (Writer c) = true ->
            bw_Status (Writer c) = 200 -> code = 200 ->
            exists result, stored result))
    /\ redisClient g' = redisClient g
    /\ (forall gd,
          redisClient gd = None ->
          exists g0 c0,
            CacheMiddleware env next c gd = Some (g0, c0)
            /\ Writer c0 = Writer c'
            /\ goroutines g0 = goroutines gd)
    /\ (forall env' k v t gx rc jsonData,
          redisClient gx = Some rc -> rd_error rc = None ->
          json_Marshal
            (CachedResponse_json
               {| Result := v; CachedAt := Unix (time_Now env') |})
          = inr jsonData ->
          getFromCache (run_goroutine env' (StoreTask k v t) gx) k
          = json_Unmarshal_CachedResponse jsonData)
    /\ (forall env' t gx,
          receiptStore (run_goroutine env' t gx) = receiptStore gx
          /\ goroutines (run_goroutine env' t gx) = goroutines gx
          /\ (redisClient gx = None -> run_goroutine env' t gx = gx)
          /\ (forall rc err,
                redisClient gx = Some rc -> rd_error rc = Some err ->
                exists line, run_goroutine env' t gx = log_Printf line gx)).
Proof.
  intros next cacheKey codec Hreach Hbody Hnokey Hmiss.
  pose proof Hreach as (Hredis & Hs & Hn & Hlen & Hread & Hreq & Htext).
  pose proof (CacheMiddleware_lookup env next c g requestBody req Hreach)
    as Hlookup.
  cbv zeta in Hlookup. fold cacheKey in Hlookup. rewrite Hmiss in Hlookup.
  set (g1 := log_Printf (String.append "Cache MISS: " cacheKey) g) in *.
  destruct c as [rq w keys ab].
  cbn [Request_ Writer Keys aborted] in *.
  destruct (req_Body rq) as [b|] eqn:Eb; [clear Hbody | congruence].
  unfold after_body_read in *.
  cbn [Request_ Writer Keys aborted] in *. rewrite Eb in *.
  set (rq1 := mkRequest (req_Header rq) (req_ContentLength rq)
                (Some (BodyData requestBody)) (req_Context rq) (req_Path rq)
                (req_ClientIP rq)) in *.
  set (keys1 := <["request_body" := KBytes requestBody]> keys) in *.
  set (signature := c_GetHeader (mkContext rq w keys ab) "X-402-Signature")
    in *.
  set (nonce := c_GetHeader (mkContext rq w keys ab) "X-402-Nonce") in *.
  destruct (handleSummarize_verify_reply env (req_Context rq) (req_Path rq)
              signature nonce requestBody) as (r & Hcodes & _ & Hall).
  assert (Hcode0 : reply_code r <> 0) by (simpl in Hcodes; intuition lia).
  destruct (Hall rq1 keys1 ab g1 eq_refl eq_refl)
    as (g2 & Hreply & Hgo & Hrd & Hserved & _).
  assert (Hhandler :
    forall W (inst : ResponseWriter W) (w' : W),
      handleSummarize env (mkContext rq1 w' keys1 ab) g1
      = Some (g2, send r (mkContext rq1 w' keys1 ab))).
  { intros W inst w'.
    rewrite (handleSummarize_with_body env (mkContext rq1 w' keys1 ab) g1
               requestBody).
    - change (c_GetHeader (mkContext rq1 w' keys1 ab) "X-402-Signature")
        with signature.
      change (c_GetHeader (mkContext rq1 w' keys1 ab) "X-402-Nonce")
        with nonce.
      now rewrite Hreply.
    - exact Hs.
    - exact Hn.
    - left. apply lookup_insert_eq. }
  unfold next in Hlookup.
  rewrite (CacheMiddleware_miss_captured env cacheKey rq1 w keys1 ab g1 g2 r
             Hhandler) in Hlookup.
  fold next in Hlookup.
  set (written := json_written (reply_code r) (reply_obj r)) in *.
  set (c' := send r (mkContext rq1 w keys1 ab)) in *.
  (* the same request without a cache *)
  assert (Hdown : forall gd,
            redisClient gd = None ->
            exists g0 c0,
              CacheMiddleware env next (mkContext rq w keys ab) gd
              = Some (g0, c0)
              /\ Writer c0 = Writer c'
              /\ goroutines g0 = goroutines gd).
  { intros gd Hgd. unfold CacheMiddleware. rewrite Hgd. unfold next.
    rewrite (handleSummarize_with_body env (mkContext rq w keys ab) gd
               requestBody Hs Hn).
    - destruct (Hall rq keys ab gd eq_refl eq_refl)
        as (g0 & Hreply0 & Hgo0 & _).
      fold signature nonce. rewrite Hreply0.
      eexists _, _. split; [reflexivity|]. split; [|exact Hgo0].
      apply send_Writer. reflexivity.
    - right. split; [exact Hnokey|]. exists b. auto. }
  (* the encoded result *)
  assert (Hresult : reply_code r = 200 ->
            exists summary, json_Marshal (result_obj summary) = inr written).
  { intros H200.
    destruct (Hserved H200)
      as (vr & pc & rq0 & summary & _ & _ & _ & _ & Hsv).
    destruct Hsv as (body & rcpt & rj & Hm & _ & _ & _ & Hr).
    exists summary. unfold written. rewrite Hr. unfold json_written.
    cbn [reply_code reply_obj].
    replace (bodyAllowedForStatus 200) with true by reflexivity.
    now rewrite Hm. }
  set (g' :=
    if bw_Status (Writer c') =? 200 then
      match json_Unmarshal_map written with
      | inr resp =>
          match resp !! "result" with
          | Some (JString result) =>
              go (StoreTask cacheKey result (5 * Second)) g2
          | _ => g2
          end
      | inl _ => g2
      end
    else g2) in *.
  assert (Hg1 : goroutines g1 = goroutines g) by reflexivity.
  assert (Hstored :
    ((exists result,
        goroutines g'
        = (goroutines g ++ [StoreTask cacheKey result (5 * Second)])%list)
     <-> bw_Status (Writer c') = 200
         /\ exists result m,
              json_Unmarshal_map written = inr m
              /\ m !! "result" = Some (JString result))
    /\ (forall result,
          goroutines g'
          = (goroutines g ++ [StoreTask cacheKey result (5 * Second)])%list ->
          exists m,
            json_Unmarshal_map written = inr m
            /\ m !! "result" = Some (JString result))
    /\ ((forall result,
           goroutines g'
           <> (goroutines g ++ [StoreTask cacheKey result (5 * Second)])%list)
        -> goroutines g' = goroutines g)
    /\ redisClient g' = redisClient g).
  { assert (Hno : forall result,
              goroutines g2
              <> (goroutines g ++ [StoreTask cacheKey result (5 * Second)])%list).
    { intros result Heq. rewrite Hgo, Hg1 in Heq.
      exact (app_singleton_neq _ _ (eq_sym Heq)). }
    assert (Hsame : goroutines g2 = goroutines g) by now rewrite Hgo.
    assert (Hrd2 : redisClient g2 = redisClient g) by now rewrite Hrd.
    subst g'.
    destruct (Z.eqb_spec (bw_Status (Writer c')) 200) as [H200|Hne].
    - destruct (json_Unmarshal_map written) as [err|m] eqn:Eu.
      + split; [split|].
        * intros [result Hst]. now apply Hno in Hst.
        * intros (_ & result & m & Hm & _). discriminate.
        * split; [intros result Hst; now apply Hno in Hst|]. auto.
      + destruct (m !! "result") as [v|] eqn:Er.
        2:{ split; [split|].
            - intros [result Hst]. now apply Hno in Hst.
            - intros (_ & result & m' & Hm & Hres).
              injection Hm as <-. congruence.
            - split; [intros result Hst; now apply Hno in Hst|]. auto. }
        destruct v as [| | |s| |];
          try (split; [split|];
               [intros [result Hst]; now apply Hno in Hst
               |intros (_ & result & m' & Hm & Hres);
                injection Hm as <-; congruence
               |split; [intros result Hst; now apply Hno in Hst|]; auto]).
        cbn [go goroutines redisClient]. rewrite Hgo, Hg1.
        split; [split|].
        * intros _. split; [exact H200|]. exists s, m. auto.
        * intros _. exists s. reflexivity.
        * split.
          -- intros result Hst. apply app_inj_tail in Hst.
             destruct Hst as [_ Hst]. injection Hst as <-.
             exists m. auto.
          -- split; [|exact Hrd2].
             intros Hnone. exfalso. exact (Hnone s eq_refl).
    - split; [split|].
      + intros [result Hst]. now apply Hno in Hst.
      + intros [Hc _]. contradiction.
      + split; [intros result Hst; now apply Hno in Hst|]. auto. }
  destruct Hstored as (Hiff & Honly & Helse & Hredis').
  exists g', c', (reply_code r), written.
  cbv zeta.
  split; [exact Hlookup|]. split; [exact Hcodes|].
  split.
  { intros w0 Hopen0. cbn [set_Writer Request_ Writer Keys aborted].
    exists g2, (send r (mkContext rq1 w0 keys1 ab)).
    split; [apply Hhandler|].
    destruct (send_bw r (mkContext rq1 w0 keys1 ab) Hopen0 Hcode0)
      as (Hst & _ & Hbuf).
    auto. }
  split; [exact Hresult|].
  split.
  { intros Hopen.
    destruct (send_bw r (mkContext rq1 w keys1 ab) Hopen Hcode0)
      as (Hst & _ & Hbuf).
    auto. }
  split.
  { intros Hclosed.
    destruct (send_bw_closed r (mkContext rq1 w keys1 ab) Hclosed)
      as (Hst & Hcl & Hbuf).
    auto. }
  split.
  { rewrite Hiff. split.
    - intros (H200 & result & m & Hm). split; [exact H200|].
      exists result, m. exact Hm.
    - intros (H200 & result & m & Hm). split; [exact H200|].
      exists result, m. exact Hm. }
  split; [exact Honly|].
  split; [exact Helse|].
  split.
  { intros Hcodec. split.
    - intros Hopen.
      destruct (send_bw r (mkContext rq1 w keys1 ab) Hopen Hcode0)
        as (Hst & _ & _).
      fold c' in Hst. rewrite Hiff. split; [tauto|].
      intros H200. split; [exact H200|].
      rewrite Hst in H200.
      destruct (Hresult H200) as (summary & Hm).
      destruct (Hcodec summary written Hm) as (m & s' & Hum & Hres).
      exists s', m. auto.
    - intros Hclosed Hwas H200.
      destruct (send_bw_closed r (mkContext rq1 w keys1 ab) Hclosed)
        as (Hst & _ & _).
      fold c' in Hst. apply Hiff. split; [now rewrite Hst|].
      destruct (Hresult H200) as (summary & Hm).
      destruct (Hcodec summary written Hm) as (m & s' & Hum & Hres).
      exists s', m. auto. }
  split; [exact Hredis'|].
  split; [exact Hdown|].
  split.
  { intros env' k v t gx rc jsonData. apply run_goroutine_stores. }
  intros env' t gx. apply run_goroutine_absorbs.
Qed.

End GatewayProperties.

(** ** The pipeline on a concrete request *)

Section Examples.
Import Example.

(** The example codec reads back the documents it writes. *)
Lemma length_append (s1 s2 : string) :
  String.length (String.append s1 s2)
  = (String.length s1 + String.length s2)%nat.
Proof.
  induction s1 as [|a s1 IH]; [reflexivity|].
  change (S (String.length (String.append s1 s2))
          = S (String.length s1 + String.length s2)). now f_equal.
Qed.

Lemma strip_prefix_app (p r : string) :
  Example.strip_prefix p (String.append p r) = Some r.
Proof.
  induction p as [|a p IH]; [reflexivity|].
  change (String.append (String a p) r) with (String a (String.append p r)).
  cbn [Example.strip_prefix]. now rewrite Ascii.eqb_refl.
Qed.

Lemma strip_suffix_app (suf s : string) :
  Example.strip_suffix suf (String.append s suf) = Some s.
Proof.
  induction s as [|a s IH].
  - change (String.append "" suf) with suf.
    destruct suf; cbn [Example.strip_suffix]; now rewrite String.eqb_refl.
  - change (String.append (String a s) suf)
      with (String a (String.append s suf)).
    cbn [Example.strip_suffix].
    assert (Hne : String.eqb (String a (String.append s suf)) suf = false).
    { apply String.eqb_neq. intros Heq.
      apply (f_equal String.length) in Heq.
      cbn [String.length] in Heq. rewrite length_append in Heq. lia. }
    rewrite Hne, IH. reflexivity.
Qed.

Lemma encode_result (s : string) :
  Example.encode (result_obj s)
  = String.append (Example.framed "result")
      (String.append s Example.frame_end).
Proof.
  unfold result_obj. cbn [Example.encode]. rewrite !concat_cons.
  change (String.concat "" []) with "". rewrite !append_nil_r.
  unfold quoted, Example.framed, Example.frame_end.
  rewrite !concat_cons. change (String.concat "" []) with "".
  rewrite !append_nil_r, !append_assoc. reflexivity.
Qed.

Lemma library_codec (s b : string) :
  json_Marshal (Library := Example.library) (result_obj s) = inr b ->
  exists m s',
    json_Unmarshal_map (Library := Example.library) b = inr m
    /\ m !! "result" = Some (JString s').
Proof.
  intros Hb.
  assert (Hb' : b = Example.encode (result_obj s)).
  { change (@inr GoError string (Example.encode (result_obj s)) = inr b)
      in Hb.
    congruence. }
  subst b. rewrite encode_result.
  exists {["result" := JString s]}, s. split.
  - cbn [json_Unmarshal_map Example.library]. unfold Example.unframe.
    now rewrite strip_prefix_app, strip_suffix_app.
  - apply lookup_singleton_eq.
Qed.


(** The example request gets as far as the cache lookup. *)
Lemma example_reaches_lookup (g : Globals) :
  redisClient g <> None ->
  reaches_lookup (H := library) context g requestBody {| Text := "hello" |}.
Proof.
  intros Hredis. unfold reaches_lookup.
  split; [exact Hredis|].
  split; [vm_compute; discriminate|].
  split; [vm_compute; discriminate|].
  split; [vm_compute; discriminate|].
  split; [vm_compute; reflexivity|].
  split; [vm_compute; reflexivity|].
  vm_compute; discriminate.
Qed.


Lemma example_body_available :
  body_available context requestBody.
Proof.
  right. split; [reflexivity|].
  exists (BodyData requestBody). split; reflexivity.
Qed.

(** A rejected signature reaches the client as 403. *)
Lemma verification_outcome_surfaced_witness :
  surfaces (H := library) (env rejects) context cold 403.
Proof.
  destruct (verification_outcome_surfaced (H := library) (env rejects)
              context cold requestBody verifyBody rejects eq_refl
              ltac:(vm_compute; discriminate)
              ltac:(vm_compute; discriminate)
              example_body_available
              ltac:(vm_compute; reflexivity)
              ltac:(intros; reflexivity))
    as (_ & _ & Hvalid).
  destruct (Hvalid {| IsValid := false; RecoveredAddress := "";
                      Error := "signer mismatch" |} eq_refl)
    as (paymentCtx & _ & Hreject).
  destruct (Hreject eq_refl) as [_ Hsurf]. exact Hsurf.
Defined.

(** A served request carries a receipt over the body it sends. *)
Lemma receipt_hash_matches_body_witness :
  match handleSummarize (H := library) (env accepts) context cold with
  | Some (g', c') => delivered (H := library) (env accepts) context g' c'
  | None => False
  end.
Proof.
  destruct (receipt_hash_matches_body (H := library) (env accepts) context
              cold eq_refl) as (_ & Hhandler & _).
  destruct (handleSummarize (H := library) (env accepts) context cold)
    as [[g' c']|] eqn:E.
  - apply Hhandler; [reflexivity|].
    vm_compute in E. injection E as <- <-. vm_compute. reflexivity.
  - vm_compute in E. discriminate.
Defined.

(** The same signature and nonce a minute later: the same outcome. *)
Lemma replay_is_accepted_again_witness :
  verifyPayment (H := library) (later (env accepts)) context_Background
    "0xfeed" "n-1"
  = verifyPayment (H := library) (env accepts) context_Background
      "0xfeed" "n-1".
Proof.
  destruct (replay_is_accepted_again (H := library) (env accepts)
              (later (env accepts)) context_Background context_Background
              "0xfeed" "n-1"
              ltac:(intros; reflexivity) ltac:(intros; reflexivity))
    as (Hsame & _).
  exact Hsame.
Defined.

(** A miss served with 200 leaves one store task behind. *)
Lemma cache_store_only_on_success_witness :
  exists g' c',
    CacheMiddleware (H := library) (env accepts) (handler (env accepts))
      context cold = Some (g', c')
    /\ bw_Status (Writer c') = 200
    /\ goroutines g' = [StoreTask cacheKey "A summary." (5 * Second)].
Proof.
  destruct (cache_store_only_on_success (H := library) (env accepts)
              context cold requestBody {| Text := "hello" |}
              (ErrorString "redis: nil")
              (example_reaches_lookup cold ltac:(discriminate))
              ltac:(discriminate) eq_refl
              ltac:(vm_compute; reflexivity))
    as (g' & c' & code & written & Hrun & _ & _ & _ & Hopen & _).
  exists g', c'. split; [exact Hrun|].
  unfold handler in Hrun. vm_compute in Hrun. injection Hrun as <- <-.
  vm_compute. split; reflexivity.
Defined.

(** C9 fails as stated. A request whose deadline has passed: the guard
    has answered 504 and closed the buffer, the handler goes on and
    succeeds, the buffer drops its response and still reports 200, and
    the result is stored. *)
Lemma cache_store_after_timeout :
  let r :=
    RequestTimeoutMiddleware_shim (ShimTimedOut [] []) (newRealWriter ∅) in
  let late := mkContext request (res_bw r) ∅ false in
  option_map resp_status (client_view (res_orig r)) = Some 504
  /\ closed (res_bw r) = true
  /\ exists g' c' cached,
       CacheMiddleware (H := library) (env accepts) (handler (env accepts))
         late cold = Some (g', c')
       /\ buf (Writer c') = ""
       /\ goroutines g' = [StoreTask cacheKey "A summary." (5 * Second)]
       /\ getFromCache (H := library)
            (run_goroutine (H := library) (env accepts)
               (StoreTask cacheKey "A summary." (5 * Second)) g') cacheKey
          = inr cached
       /\ Result cached = "A summary.".
Proof.
  cbv zeta. split; [vm_compute; reflexivity|].
  split; [reflexivity|].
  eexists _, _, _. split; [unfold handler; vm_compute; reflexivity|].
  vm_compute. repeat split; reflexivity.
Qed.

(** A reset time in the past still asks the client to wait a second. *)
Lemma retry_after_at_least_one_witness :
  exists limiters' c',
    RateLimitMiddleware (H := library) (env accepts) limiters
      (handleSummarize (H := library) (env accepts)) throttled cold
    = Some (limiters', (cold, c'))
    /\ Header_values (rw_head (Writer c')) "Retry-After" = ["1"].
Proof.
  destruct (retry_after_at_least_one (H := library) (env accepts) limiters
              (handleSummarize (H := library) (env accepts)) throttled cold
              ∅ exhausted exhausted eq_refl
              ltac:(vm_compute; reflexivity) eq_refl)
    as (retryAfter & limiters' & c' & Hrun & Hcalc & _ & _ & _ & Hhdr & _).
  exists limiters', c'. split; [exact Hrun|].
  rewrite Hhdr, Hcalc. vm_compute. reflexivity.
Defined.

End Examples.

(** ** The token bucket *)

Module TokenBucketProperties.
Import TokenBucketModel.
Local Open Scope Qc_scope.

Lemma Qc_leb_le (x y : Qc) : Qc_leb x y = true <-> x <= y.
Proof. unfold Qc_leb, Qcle. apply Qle_bool_iff. Qed.

Lemma Qc_leb_gt (x y : Qc) : Qc_leb x y = false <-> y < x.
Proof.
  split.
  - intros Hf. apply Qcnot_le_lt. intros Hle. apply Qc_leb_le in Hle. congruence.
  - intros Hlt. destruct (Qc_leb x y) eqn:E; [|reflexivity].
    apply Qc_leb_le in E. exfalso. eapply Qclt_not_le; eauto.
Qed.

Lemma Qc_of_Z_le (a b : Z) : Qc_of_Z a <= Qc_of_Z b <-> (a <= b)%Z.
Proof.
  unfold Qc_of_Z, Qcle. simpl. rewrite !Qred_correct.
  now rewrite (Zle_Qle a b).
Qed.

Lemma Qc_of_Z_add (a b : Z) : Qc_of_Z a + Qc_of_Z b = Qc_of_Z (a + b).
Proof.
  unfold Qc_of_Z. apply Qc_is_canon. simpl.
  rewrite !Qred_correct. now rewrite inject_Z_plus.
Qed.

Lemma Qc_of_Z_sub (a b : Z) : Qc_of_Z a - Qc_of_Z b = Qc_of_Z (a - b).
Proof.
  unfold Qc_of_Z. apply Qc_is_canon. simpl.
  rewrite !Qred_correct. unfold Z.sub. rewrite inject_Z_plus, inject_Z_opp.
  reflexivity.
Qed.

Lemma Qc_min_r (x y : Qc) : y <= x -> Qc_min x y = y.
Proof.
  intros Hle. unfold Qc_min. destruct (Qc_leb x y) eqn:E; [|reflexivity].
  apply Qc_leb_le in E. now apply Qcle_antisym.
Qed.

Lemma Qc_min_ge (x y z : Qc) : z <= x -> z <= y -> z <= Qc_min x y.
Proof. intros Hx Hy. unfold Qc_min. now destruct (Qc_leb x y). Qed.

Section ColdStart.
Variables (rpm : Z) (B : nat) (ttl : Qc) (key : string) (t0 : Qc).

(** The limiter after [k] of the first admissions at [t0]. *)
Definition drained (k : nat) (tb : TokenBucket) : Prop :=
  rate tb = Qc_of_Z rpm / Qc_of_Z 60
  /\ getBucket tb key t0
     = {| tokens := Qc_of_Z (Z.of_nat B - Z.of_nat k);
          capacity := Qc_of_Z (Z.of_nat B);
          refillRate := Qc_of_Z rpm / Qc_of_Z 60;
          lastRefill := t0;
          lastAccess := t0 |}.

Lemma drained_fresh : drained 0 (NewTokenBucket rpm (Z.of_nat B) ttl).
Proof.
  split; [reflexivity|]. unfold getBucket, NewTokenBucket. simpl.
  rewrite lookup_empty. simpl. now rewrite Z.sub_0_r.
Qed.

Lemma drained_available (k : nat) (tb : TokenBucket) :
  drained k tb -> (k <= B)%nat ->
  available tb key t0 = Qc_of_Z (Z.of_nat B - Z.of_nat k).
Proof.
  intros [_ Hb] Hk. unfold available, refill. rewrite Hb. simpl.
  replace (Qc_of_Z (Z.of_nat B - Z.of_nat k)
           + (t0 - t0) * (Qc_of_Z rpm / Qc_of_Z 60))
    with (Qc_of_Z (Z.of_nat B - Z.of_nat k)) by ring.
  apply Qc_min_r. apply Qc_of_Z_le. lia.
Qed.

Lemma getBucket_set_bucket (tb : TokenBucket) (b : Bucket) (now : Qc) :
  getBucket (set_bucket key b tb) key now = b.
Proof. unfold getBucket, set_bucket. simpl. now rewrite lookup_insert_eq. Qed.

Lemma drained_Allow (k : nat) (tb : TokenBucket) :
  drained k tb -> (k <= B)%nat ->
  fst (Allow tb key t0) = (k <? B)%nat
  /\ drained (if (k <? B)%nat then S k else k) (snd (Allow tb key t0)).
Proof.
  intros Hd Hk. pose proof (drained_available k tb Hd Hk) as Hav.
  destruct Hd as [Hrate Hb].
  unfold Allow, AllowN. unfold available in Hav. rewrite Hav.
  assert (Hleb : Qc_leb (Qc_of_Z 1) (Qc_of_Z (Z.of_nat B - Z.of_nat k))
                 = (k <? B)%nat).
  { destruct (Nat.ltb_spec k B).
    - apply Qc_leb_le, Qc_of_Z_le. lia.
    - apply Qc_leb_gt. apply Qcnot_le_lt. intros Hle.
      apply (proj1 (Qc_of_Z_le _ _)) in Hle. lia. }
  rewrite Hleb. unfold refill. rewrite Hb. simpl.
  destruct (k <? B)%nat eqn:Elt; simpl; (split; [reflexivity|]);
    (split; [exact Hrate|]); rewrite getBucket_set_bucket.
  - rewrite Qc_of_Z_sub. f_equal. f_equal. lia.
  - reflexivity.
Qed.

Lemma drained_admissions (n k : nat) (tb : TokenBucket) :
  drained k tb -> (k <= B)%nat ->
  fst (admissions n tb key t0)
  = (repeat true (Nat.min n (B - k)) ++ repeat false (n - (B - k)))%list
  /\ drained (Nat.min (k + n) B) (snd (admissions n tb key t0)).
Proof.
  revert k tb. induction n as [|n IH]; intros k tb Hd Hk.
  - simpl. rewrite Nat.add_0_r, Nat.min_l by exact Hk. auto.
  - cbn [admissions].
    destruct (drained_Allow k tb Hd Hk) as [Hok Hd'].
    destruct (Allow tb key t0) as [ok tb1]. cbn [fst snd] in Hok, Hd'.
    destruct (Nat.ltb_spec k B) as [Hlt|Hge].
    + destruct (IH (S k) tb1 Hd' ltac:(lia)) as [Hoks Hd''].
      destruct (admissions n tb1 key t0) as [oks tb2].
      cbn [fst snd] in *. subst ok oks.
      replace (Nat.min (S n) (B - k)) with (S (Nat.min n (B - S k))) by lia.
      replace (S n - (B - k))%nat with (n - (B - S k))%nat by lia.
      replace (Nat.min (k + S n) B) with (Nat.min (S k + n) B) by lia.
      auto.
    + destruct (IH k tb1 Hd' Hk) as [Hoks Hd''].
      destruct (admissions n tb1 key t0) as [oks tb2].
      cbn [fst snd] in *. subst ok oks.
      replace (B - k)%nat with 0%nat by lia.
      rewrite !Nat.min_0_r, !Nat.sub_0_r. cbn [repeat app].
      replace (Nat.min (k + S n) B) with (Nat.min (k + n) B) by lia.
      auto.
Qed.

Lemma rate_positive : (0 < rpm)%Z -> 0 < Qc_of_Z rpm / Qc_of_Z 60.
Proof.
  intros Hpos.
  assert (H60 : 0 < Qc_of_Z 60) by reflexivity.
  assert (Hr : 0 < Qc_of_Z rpm).
  { apply Qcnot_le_lt. intros Hle.
    change 0 with (Qc_of_Z 0) in Hle.
    apply (proj1 (Qc_of_Z_le _ _)) in Hle. lia. }
  assert (Hinv : 0 < / Qc_of_Z 60) by reflexivity.
  unfold Qcdiv.
  pose proof (Qcmult_lt_compat_r 0 (Qc_of_Z rpm) (/ Qc_of_Z 60) Hinv Hr)
    as Hlt.
  now rewrite Qcmult_0_l in Hlt.
Qed.

(** C3. A limiter made for [rpm] requests per minute and a burst of [B]:
    a key not seen before has [B] tokens; [AllowN] answers yes exactly
    when the key has [n] tokens, and it leaves the key's bucket with [n]
    fewer if it answers yes and with as many as there were if it answers
    no; [Allow] is [AllowN] with one token. Hence of [B + 1] calls of
    [Allow] at one instant the first [B] succeed and the last is denied;
    and, for a positive rate and a burst of at least one, a call made
    [1 / rate] seconds later or more succeeds. *)
Theorem token_bucket_burst_and_refill :
  let tb := NewTokenBucket rpm (Z.of_nat B) ttl in
  available tb key t0 = Qc_of_Z (Z.of_nat B)
  /\ (forall (tb' : TokenBucket) (k : string) (n : Z) (now : Qc),
        (fst (AllowN tb' k n now) = true
         <-> Qc_of_Z n <= available tb' k now)
        /\ exists b,
             buckets (snd (AllowN tb' k n now)) !! k = Some b
             /\ tokens b
                = (if fst (AllowN tb' k n now)
                   then available tb' k now - Qc_of_Z n
                   else available tb' k now))
  /\ (forall (tb' : TokenBucket) (k : string) (now : Qc),
        Allow tb' k now = AllowN tb' k 1 now)
  /\ fst (admissions (S B) tb key t0) = (repeat true B ++ [false])%list
  /\ ((0 < rpm)%Z -> (1 <= B)%nat ->
      forall t : Qc,
        t0 + 1 / rate tb <= t ->
        fst (Allow (snd (admissions (S B) tb key t0)) key t) = true).
Proof.
  intros tb.
  pose proof drained_fresh as Hfresh. fold tb in Hfresh.
  split; [|split; [|split; [|split]]].
  - rewrite (drained_available 0 tb Hfresh) by lia.
    now rewrite Z.sub_0_r.
  - intros tb' k n now. unfold AllowN, available.
    set (b := refill (getBucket tb' k now) now).
    destruct (Qc_leb (Qc_of_Z n) (tokens b)) eqn:E; cbn [fst snd].
    + split; [split; [intros _; now apply Qc_leb_le | reflexivity]|].
      eexists. split; [apply lookup_insert_eq | reflexivity].
    + split; [split; [discriminate|]|].
      * intros Hle. apply Qc_leb_le in Hle. congruence.
      * eexists. split; [apply lookup_insert_eq | reflexivity].
  - reflexivity.
  - destruct (drained_admissions (S B) 0 tb Hfresh ltac:(lia)) as [Hoks _].
    rewrite Hoks.
    replace (Nat.min (S B) (B - 0)) with B by lia.
    replace (S B - (B - 0))%nat with 1%nat by lia. reflexivity.
  - intros Hrpm HB t Ht.
    destruct (drained_admissions (S B) 0 tb Hfresh ltac:(lia)) as [_ Hd].
    replace (Nat.min (0 + S B) B) with B in Hd by lia.
    destruct Hd as [Hrate Hb].
    set (tb1 := snd (admissions (S B) tb key t0)) in *.
    pose proof (rate_positive Hrpm) as Hpos.
    unfold Allow, AllowN.
    assert (Hone : Qc_of_Z 1 <= tokens (refill (getBucket tb1 key t) t)).
    { unfold refill, getBucket.
      unfold getBucket in Hb.
      destruct (buckets tb1 !! key) as [b|] eqn:Eb.
      - subst b. cbn [tokens capacity refillRate lastRefill].
        rewrite Z.sub_diag.
        apply Qc_min_ge.
        + apply Qc_of_Z_le. lia.
        + change (Qc_of_Z 0) with 0. rewrite Qcplus_0_l.
          set (R := Qc_of_Z rpm / Qc_of_Z 60) in *.
          assert (HR : R <> 0).
          { intros H0. apply Qclt_not_eq in Hpos. congruence. }
          assert (Hrt : rate tb = R) by reflexivity.
          rewrite Hrt in Ht.
          assert (Hel : 1 / R <= t - t0).
          { apply Qcle_minus_iff. apply Qcle_minus_iff in Ht.
            replace (t - t0 + - (1 / R)) with (t + - (t0 + 1 / R)) by ring.
            exact Ht. }
          apply (Qcmult_le_compat_r _ _ R) in Hel; [|now apply Qclt_le_weak].
          replace (1 / R * R) with 1 in Hel by (field; exact HR).
          exact Hel.
      - exfalso. inversion Hb as [[Htok Hcap Hrr Hlr Hla]].
        (* a fresh bucket would be full *)
        rewrite Z.sub_diag in Htok.
        assert (Heq : Qc_of_Z (Z.of_nat B) = Qc_of_Z 0) by congruence.
        assert (Hle : Qc_of_Z (Z.of_nat B) <= Qc_of_Z 0)
          by (rewrite Heq; apply Qcle_refl).
        apply (proj1 (Qc_of_Z_le _ _)) in Hle. lia. }
    apply (proj2 (Qc_leb_le _ _)) in Hone. now rewrite Hone.
Qed.
End ColdStart.

(** Sixty requests a minute and a burst of two: after three calls at
    time 0 a call one second later is admitted. *)
Lemma token_bucket_burst_and_refill_witness :
  fst (Allow (snd (admissions 3 (NewTokenBucket 60 2 (Qc_of_Z 600))
                     "k" (Qc_of_Z 0)))
         "k" (Qc_of_Z 1)) = true.
Proof.
  pose proof (token_bucket_burst_and_refill 60 2 (Qc_of_Z 600) "k"
                (Qc_of_Z 0)) as Hall.
  cbv zeta in Hall.
  destruct Hall as (_ & _ & _ & _ & Hrefill).
  apply Hrefill; [lia | lia | vm_compute; discriminate].
Defined.

End TokenBucketProperties.

(** * More properties of the gateway *)

Section ReceiptProperties.
Context `{Library}.

(** What [validateReceipt] lets through. *)
Lemma validateReceipt_accepts (r : SignedReceipt) :
  validateReceipt (Some r) = None ->
  String.prefix "rcpt_" (ID (Receipt_ r)) = true
  /\ Version (Receipt_ r) <> ""
  /\ Timestamp (Receipt_ r) <> zeroTime
  /\ String.prefix "0x" (Signature r) = true
  /\ String.prefix "0x" (ServerPublicKey r) = true.
Proof.
  unfold validateReceipt.
  repeat match goal with
         | |- context [if negb ?b then _ else _] =>
             destruct b eqn:?; cbn [negb]; [|discriminate]
         | |- context [if String.eqb ?a ?b then _ else _] =>
             destruct (String.eqb_spec a b); [discriminate|]
         | |- context [if ?a =? ?b then _ else _] =>
             destruct (Z.eqb_spec a b); [discriminate|]
         end.
  intros _. auto.
Qed.


(** *** [storeReceipt] and [getReceipt] *)

(** X1. [storeReceipt] either rejects the receipt, with the error
    of [validateReceipt] wrapped and the process as it was, or stores
    it: then [getReceipt] finds the receipt under its id at every time up
    to and including the storing time plus the TTL and at no later time,
    lookups of other ids are as before, and nothing but the receipt
    store has changed. *)
Theorem stored_receipt_found_until_expiry (env : Env)
  (receipt : option SignedReceipt) (ttl : Duration) (g : Globals) :
  match storeReceipt env receipt ttl g with
  | (g', None) =>
      exists r,
        receipt = Some r
        /\ validateReceipt (Some r) = None
        /\ (forall env',
              getReceipt env' (ID (Receipt_ r)) g'
              = if time_Now env + ttl <? time_Now env' then None
                else Some r)
        /\ (forall env' id,
              id <> ID (Receipt_ r) ->
              getReceipt env' id g' = getReceipt env' id g)
        /\ redisClient g' = redisClient g
        /\ goroutines g' = goroutines g
        /\ logs g' = logs g
  | (g', Some err) =>
      g' = g
      /\ exists e,
           validateReceipt receipt = Some e
           /\ err = Wrap "invalid receipt format" e
  end.
Proof.
  unfold storeReceipt.
  destruct (validateReceipt receipt) as [e|] eqn:Ev.
  - split; [reflexivity|]. exists e. auto.
  - destruct receipt as [r|]; [|discriminate Ev].
    exists r. split; [reflexivity|]. split; [exact Ev|].
    split; [|split; [|auto]].
    + intros env'. unfold getReceipt.
      cbn [set_receiptStore receiptStore].
      rewrite lookup_insert_eq. reflexivity.
    + intros env' id Hid. unfold getReceipt.
      cbn [set_receiptStore receiptStore].
      rewrite lookup_insert_ne by congruence. reflexivity.
Qed.

(** *** [cleanupExpiredReceipts] *)

Lemma cleanup_fold_lookup (now : Time) (l : list (string * receiptEntry))
  (s : gmap string receiptEntry) (n : Z) (id : string) :
  fst (fold_left (cleanup_visit now) l (s, n)) !! id
  = if existsb (fun kv => String.eqb (fst kv) id
                          && (expiresAt (snd kv) <? now)) l
    then None else s !! id.
Proof.
  revert s n. induction l as [|[k e] l IH]; intros s n; [reflexivity|].
  cbn [fold_left existsb fst snd].
  change (cleanup_visit now (s, n) (k, e))
    with (if expiresAt e <? now then (delete k s, n + 1) else (s, n)).
  destruct (expiresAt e <? now) eqn:Ee.
  - rewrite IH. destruct (String.eqb_spec k id) as [->|Hne]; cbn [andb orb].
    + rewrite lookup_delete_eq. now destruct (existsb _ l).
    + now rewrite lookup_delete_ne.
  - rewrite IH, andb_false_r. reflexivity.
Qed.

Lemma cleanup_fold_count (now : Time) (l : list (string * receiptEntry))
  (s : gmap string receiptEntry) (n : Z) :
  NoDup (l.*1) ->
  (forall k e, (k, e) ∈ l -> is_Some (s !! k)) ->
  let r := fold_left (cleanup_visit now) l (s, n) in
  n <= snd r
  /\ Z.of_nat (size (fst r)) + snd r = Z.of_nat (size s) + n.
Proof.
  revert s n. induction l as [|[k e] l IH]; intros s n Hnd Hin;
    [cbn; lia|].
  cbn [fold_left].
  change (cleanup_visit now (s, n) (k, e))
    with (if expiresAt e <? now then (delete k s, n + 1) else (s, n)).
  apply NoDup_cons in Hnd. destruct Hnd as [Hk Hnd].
  destruct (expiresAt e <? now).
  - destruct (IH (delete k s) (n + 1) Hnd) as [Hle Hsz].
    { intros k' e' Hin'.
      assert (k' <> k).
      { intros ->. apply Hk. apply list_elem_of_fmap.
        exists (k, e'). auto. }
      rewrite lookup_delete_ne by congruence.
      apply (Hin k' e'). now right. }
    cbv zeta in *. split; [lia|].
    assert (Hs : is_Some (s !! k)) by (apply (Hin k e); now left).
    pose proof (map_size_delete_Some k s Hs) as Hd.
    assert (size s <> 0%nat).
    { apply map_size_ne_0_lookup. eauto. }
    lia.
  - apply IH; [exact Hnd|]. intros k' e' Hin'. apply (Hin k' e'). now right.
Qed.

Lemma cleanup_store (env : Env) (g : Globals) (id : string) :
  receiptStore (cleanupExpiredReceipts env g) !! id
  = match receiptStore g !! id with
    | Some e => if expiresAt e <? time_Now env then None else Some e
    | None => None
    end.
Proof.
  unfold cleanupExpiredReceipts.
  set (swept := fold_left _ _ _).
  assert (Hst : receiptStore
                  (if 0 <? snd swept
                   then log_Printf
                          (String.concat ""
                             ["Cleaned up "; Itoa (snd swept);
                              " expired receipts"])
                          (set_receiptStore (fst swept) g)
                   else set_receiptStore (fst swept) g) = fst swept)
    by (destruct (0 <? snd swept); reflexivity).
  cbv zeta. rewrite Hst. unfold swept. rewrite cleanup_fold_lookup.
  destruct (existsb _ _) eqn:Ex.
  - apply existsb_exists in Ex. destruct Ex as ([k e] & Hin & Hke).
    cbn [fst snd] in Hke. apply andb_true_iff in Hke.
    destruct Hke as [Hk He]. apply String.eqb_eq in Hk. subst k.
    apply list_elem_of_In, elem_of_map_to_list in Hin.
    now rewrite Hin, He.
  - destruct (receiptStore g !! id) as [e|] eqn:El; [|reflexivity].
    destruct (expiresAt e <? time_Now env) eqn:Ee; [|reflexivity].
    exfalso. apply not_true_iff_false in Ex. apply Ex.
    apply existsb_exists. exists (id, e). split.
    + apply list_elem_of_In, elem_of_map_to_list. exact El.
    + cbn [fst snd]. now rewrite String.eqb_refl, Ee.
Qed.

(** X2. [cleanupExpiredReceipts] deletes exactly the entries whose
    expiry lies before the time of the sweep and keeps the others as
    they are. No lookup made at that time or later sees a difference,
    and a later sweep leaves the store as it would without the earlier
    one. It logs one line with the number of entries deleted when there
    are any, and none otherwise. *)
Theorem cleanup_removes_only_expired (env : Env) (g : Globals) :
  let g' := cleanupExpiredReceipts env g in
  let removed :=
    Z.of_nat (size (receiptStore g)) - Z.of_nat (size (receiptStore g')) in
  (forall id,
     receiptStore g' !! id
     = match receiptStore g !! id with
       | Some e => if expiresAt e <? time_Now env then None else Some e
       | None => None
       end)
  /\ (forall env' id,
        time_Now env <= time_Now env' ->
        getReceipt env' id g' = getReceipt env' id g)
  /\ (forall env',
        time_Now env <= time_Now env' ->
        receiptStore (cleanupExpiredReceipts env' g')
        = receiptStore (cleanupExpiredReceipts env' g))
  /\ 0 <= removed
  /\ logs g'
     = (if 0 <? removed
        then (logs g
              ++ [String.concat ""
                    ["Cleaned up "; Itoa removed; " expired receipts"]])%list
        else logs g)
  /\ redisClient g' = redisClient g
  /\ goroutines g' = goroutines g.
Proof.
  intros g' removed.
  assert (Hlookup := cleanup_store env g).
  split; [exact Hlookup|]. split.
  { intros env' id Hlater. unfold getReceipt. fold g'.
    unfold g'. rewrite Hlookup.
    destruct (receiptStore g !! id) as [e|]; [|reflexivity].
    destruct (Z.ltb_spec (expiresAt e) (time_Now env)); [|reflexivity].
    assert (Hlt : (expiresAt e <? time_Now env') = true)
      by (apply Z.ltb_lt; lia).
    now rewrite Hlt. }
  split.
  { intros env' Hlater. apply map_eq. intros id.
    rewrite !cleanup_store. unfold g'. rewrite Hlookup.
    destruct (receiptStore g !! id) as [e|]; [|reflexivity].
    destruct (Z.ltb_spec (expiresAt e) (time_Now env)); [|reflexivity].
    assert (Hlt : (expiresAt e <? time_Now env') = true)
      by (apply Z.ltb_lt; lia).
    now rewrite Hlt. }
  unfold removed, g', cleanupExpiredReceipts.
  set (swept := fold_left _ _ _).
  destruct (cleanup_fold_count (time_Now env)
              (map_to_list (receiptStore g)) (receiptStore g) 0
              (NoDup_fst_map_to_list _)) as [Hle Hsz].
  { intros k e Hin. apply elem_of_map_to_list in Hin. eauto. }
  fold swept in Hle, Hsz. cbv zeta.
  assert (Hcount :
    Z.of_nat (size (receiptStore g)) - Z.of_nat (size (fst swept))
    = snd swept) by lia.
  destruct (0 <? snd swept) eqn:Epos;
    cbn [log_Printf set_receiptStore receiptStore logs redisClient
           goroutines];
    rewrite Hcount, Epos; repeat split; try reflexivity; lia.
Qed.

(** *** The store as the handlers leave it *)

(** X3. Starting from an empty store, whatever calls of
    [storeReceipt] and [cleanupExpiredReceipts] are made, a receipt that
    [getReceipt] returns for an id carries that id, passes
    [validateReceipt], and so has an id that starts with [rcpt_] and a
    signature and server key that start with [0x]. *)
Theorem receipt_store_holds_validated_receipts (ops : list ReceiptOp)
  (g0 : Globals) :
  receiptStore g0 = ∅ ->
  forall env id r,
    getReceipt env id (fold_left run_receipt_op ops g0) = Some r ->
    ID (Receipt_ r) = id
    /\ validateReceipt (Some r) = None
    /\ String.prefix "rcpt_" id = true
    /\ String.prefix "0x" (Signature r) = true
    /\ String.prefix "0x" (ServerPublicKey r) = true.
Proof.
  intros Hempty.
  assert (Hinv : forall g,
            (forall id e, receiptStore g !! id = Some e ->
               ID (Receipt_ (receipt e)) = id
               /\ validateReceipt (Some (receipt e)) = None) ->
            forall id e,
              receiptStore (fold_left run_receipt_op ops g) !! id = Some e ->
              ID (Receipt_ (receipt e)) = id
              /\ validateReceipt (Some (receipt e)) = None).
  { induction ops as [|op ops IH]; intros g Hg; [exact Hg|].
    cbn [fold_left]. apply IH. intros id e.
    destruct op as [env rc ttl|env]; cbn [run_receipt_op].
    - unfold storeReceipt.
      destruct (validateReceipt rc) as [err|] eqn:Ev; [apply Hg|].
      destruct rc as [r|]; [|apply Hg].
      cbn [fst set_receiptStore receiptStore].
      destruct (decide (id = ID (Receipt_ r))) as [->|Hne].
      + rewrite lookup_insert_eq. intros [= <-]. auto.
      + rewrite lookup_insert_ne by congruence. apply Hg.
    - rewrite cleanup_store.
      destruct (receiptStore g !! id) as [e'|] eqn:El; [|discriminate].
      destruct (expiresAt e' <? time_Now env); [discriminate|].
      intros [= <-]. now apply Hg. }
  intros env id r Hget. unfold getReceipt in Hget.
  destruct (receiptStore (fold_left run_receipt_op ops g0) !! id)
    as [e|] eqn:El; [|discriminate].
  destruct (expiresAt e <? time_Now env); [discriminate|].
  injection Hget as <-.
  destruct (Hinv g0) with (id := id) (e := e) as [Hid Hval]; [|exact El|].
  { intros id' e'. rewrite Hempty, lookup_empty. discriminate. }
  destruct (validateReceipt_accepts _ Hval) as (Hp & _ & _ & Hs & Hk).
  rewrite Hid in Hp. auto.
Qed.


(** *** [handleGetReceipt] *)

Section Lookup.
Variable Receipt_json : Receipt -> JValue.

(** X4. After [storeReceipt] has stored a receipt, the lookup
    endpoint answers a request for its id with 200 and the receipt, its
    signature, the server key and the status [valid] as long as the time
    is not after the storing time plus the TTL, and with 404 afterwards;
    an id that is not in the store gets 404. *)
Theorem receipt_endpoint_serves_until_expiry (env env' : Env)
  (r : SignedReceipt) (ttl : Duration) (g g' : Globals)
  (c : Context realWriter) :
  storeReceipt env (Some r) ttl g = (g', None) ->
  rw_written (Writer c) = false -> sent_body (Writer c) = "" ->
  let c' := handleGetReceipt Receipt_json env' (ID (Receipt_ r)) c g' in
  let found :=
    JObject [("receipt", Receipt_json (Receipt_ r));
             ("signature", JString (Signature r));
             ("server_public_key", JString (ServerPublicKey r));
             ("status", JString "valid")] in
  let missing :=
    JObject [("error", JString "Receipt not found");
             ("message",
              JString "Receipt may have expired or never existed")] in
  (time_Now env' <= time_Now env + ttl ->
   rw_status (Writer c') = 200
   /\ forall bytes,
        json_Marshal found = inr bytes ->
        exists hd,
          client_view (Writer c')
          = Some {| resp_status := 200; resp_header := hd;
                    resp_body := bytes |})
  /\ (time_Now env + ttl < time_Now env' ->
      rw_status (Writer c') = 404
      /\ forall bytes,
           json_Marshal missing = inr bytes ->
           exists hd,
             client_view (Writer c')
             = Some {| resp_status := 404; resp_header := hd;
                       resp_body := bytes |})
  /\ (forall id,
        receiptStore g' !! id = None ->
        rw_status (Writer (handleGetReceipt Receipt_json env' id c g'))
        = 404).
Proof.
  intros Hstore Hw Hb c' found missing.
  assert (Hget : getReceipt env' (ID (Receipt_ r)) g'
                 = if time_Now env + ttl <? time_Now env' then None
                   else Some r).
  { unfold storeReceipt in Hstore.
    destruct (validateReceipt (Some r)); [discriminate|].
    injection Hstore as <-. unfold getReceipt.
    cbn [set_receiptStore receiptStore]. now rewrite lookup_insert_eq. }
  split; [|split].
  - intros Hlive. subst c'. unfold handleGetReceipt. rewrite Hget.
    assert (Hl : (time_Now env + ttl <? time_Now env') = false)
      by (apply Z.ltb_ge; lia).
    rewrite Hl.
    destruct (c_JSON_real 200 found c Hw Hb eq_refl eq_refl)
      as (Hst & _ & Hview).
    split; [exact Hst|]. intros bytes Hbytes. eexists.
    apply Hview. exact Hbytes.
  - intros Hdead. subst c'. unfold handleGetReceipt. rewrite Hget.
    assert (Hl : (time_Now env + ttl <? time_Now env') = true)
      by (apply Z.ltb_lt; lia).
    rewrite Hl.
    destruct (c_JSON_real 404 missing c Hw Hb eq_refl eq_refl)
      as (Hst & _ & Hview).
    split; [exact Hst|]. intros bytes Hbytes. eexists.
    apply Hview. exact Hbytes.
  - intros id Hnone. unfold handleGetReceipt, getReceipt. rewrite Hnone.
    destruct (c_JSON_real 404 missing c Hw Hb eq_refl eq_refl)
      as (Hst & _).
    exact Hst.
Qed.

End Lookup.

End ReceiptProperties.


Section ReceiptExamples.
Import Example Deployment.

Lemma receipt_store_holds_validated_receipts_witness :
  ID (Receipt_ receipt0) = "rcpt_k3v9x1q7w2z8"
  /\ validateReceipt (Some receipt0) = None
  /\ String.prefix "rcpt_" "rcpt_k3v9x1q7w2z8" = true
  /\ String.prefix "0x" (Signature receipt0) = true
  /\ String.prefix "0x" (ServerPublicKey receipt0) = true.
Proof.
  apply (receipt_store_holds_validated_receipts (H := library)
           [OpStore (env accepts) (Some receipt0) (60 * Second);
            OpCleanup (later (env accepts))]
           cold eq_refl (later (env accepts)) "rcpt_k3v9x1q7w2z8" receipt0).
  vm_compute. reflexivity.
Defined.

Lemma receipt_endpoint_serves_until_expiry_witness :
  rw_status
    (Writer
       (handleGetReceipt (H := library) brief_receipt (later (env accepts))
          "rcpt_k3v9x1q7w2z8" throttled
          (fst (storeReceipt (env accepts) (Some receipt0) (60 * Second)
                  cold)))) = 200.
Proof.
  destruct (receipt_endpoint_serves_until_expiry (H := library) brief_receipt
              (env accepts) (later (env accepts)) receipt0 (60 * Second)
              cold
              (fst (storeReceipt (env accepts) (Some receipt0) (60 * Second)
                      cold))
              throttled eq_refl eq_refl eq_refl) as (Hlive & _).
  destruct (Hlive ltac:(vm_compute; discriminate)) as [H200 _].
  exact H200.
Defined.

End ReceiptExamples.

(** ** Configuration *)

Lemma skip_digits_chars (s : string) :
  exists ds,
    s = String.append ds (skip_digits s)
    /\ Forall (fun a => isDigit a = true) (list_ascii_of_string ds).
Proof.
  induction s as [|a s IH].
  - exists "". split; [reflexivity|constructor].
  - cbn [skip_digits]. destruct (isDigit a) eqn:Ea.
    + destruct IH as (ds & Hs & Hd). exists (String a ds). split.
      * change (String a s = String a (String.append ds (skip_digits s))).
        f_equal. exact Hs.
      * cbn. constructor; assumption.
    + exists "". split; [reflexivity|constructor].
Qed.

Lemma match_digits_chars (s r : string) :
  match_digits s = Some r ->
  exists ds,
    s = String.append ds r
    /\ ds <> ""
    /\ Forall (fun a => isDigit a = true) (list_ascii_of_string ds).
Proof.
  destruct s as [|a s]; [discriminate|]. cbn [match_digits].
  destruct (isDigit a) eqn:Ea; [|discriminate]. intros [= <-].
  destruct (skip_digits_chars s) as (ds & Hs & Hd).
  exists (String a ds). split.
  { change (String a s = String a (String.append ds (skip_digits s))).
    f_equal. exact Hs. }
  split; [discriminate|]. cbn. constructor; assumption.
Qed.

Lemma match_dot_chars (s r : string) :
  match_dot s = Some r -> s = String.append "." r.
Proof.
  destruct s as [|a s]; [discriminate|]. cbn [match_dot].
  destruct (Ascii.eqb_spec a "."%char); [|discriminate].
  intros [= <-]. now subst a.
Qed.

(** X5. Whatever [SWAGGER_UI_VERSION] holds, the version
    [getSwaggerUIVersion] returns consists of three non-empty runs of
    ASCII digits separated by dots: the configured value when it has
    that form, and [5.11.0] otherwise. *)
Theorem swagger_version_is_always_well_formed (env : Env) :
  let v := getSwaggerUIVersion env in
  (exists major minor patch,
     v = String.concat "." [major; minor; patch]
     /\ Forall (fun part =>
                  part <> ""
                  /\ Forall (fun a => isDigit a = true)
                       (list_ascii_of_string part))
          [major; minor; patch])
  /\ (swaggerVersionRe_MatchString (Getenv env "SWAGGER_UI_VERSION") = true
      -> v = Getenv env "SWAGGER_UI_VERSION")
  /\ (swaggerVersionRe_MatchString (Getenv env "SWAGGER_UI_VERSION") = false
      -> v = "5.11.0").
Proof.
  intros v. subst v. unfold getSwaggerUIVersion.
  destruct (swaggerVersionRe_MatchString (Getenv env "SWAGGER_UI_VERSION"))
    eqn:Em.
  - split; [|split; [reflexivity|discriminate]].
    unfold swaggerVersionRe_MatchString in Em.
    destruct (match_digits (Getenv env "SWAGGER_UI_VERSION"))
      as [r1|] eqn:E1; [|discriminate].
    destruct (match_dot r1) as [r2|] eqn:E2; [|discriminate].
    destruct (match_digits r2) as [r3|] eqn:E3; [|discriminate].
    destruct (match_dot r3) as [r4|] eqn:E4; [|discriminate].
    destruct (match_digits r4) as [r5|] eqn:E5; [|discriminate].
    destruct r5; [|discriminate].
    destruct (match_digits_chars _ _ E1) as (d1 & H1 & N1 & F1).
    destruct (match_digits_chars _ _ E3) as (d2 & H2 & N2 & F2).
    destruct (match_digits_chars _ _ E5) as (d3 & H3 & N3 & F3).
    apply match_dot_chars in E2, E4.
    exists d1, d2, d3. split.
    + rewrite H1, E2, H2, E4, H3. cbn [String.concat].
      rewrite append_nil_r. reflexivity.
    + repeat constructor; assumption.
  - split; [|split; [discriminate|reflexivity]].
    exists "5", "11", "0". split; [reflexivity|].
    repeat constructor; discriminate.
Qed.

Lemma wrap64_fits (z : Z) : - 2 ^ 63 <= z < 2 ^ 63 -> wrap64 z = z.
Proof.
  intros Hz. unfold wrap64. rewrite Z.mod_small by lia. lia.
Qed.

Section ConfigurationProperties.
Context `{Library}.

(** X6. A timeout read with [getPositiveTimeout] is a positive
    duration: the configured number of seconds when that is positive,
    and the default when the variable is unset, is no number, or is zero
    or negative. The number of seconds is taken to fit a
    [time.Duration] in nanoseconds. *)
Theorem configured_timeouts_are_positive (env : Env) (envKey : string)
  (defaultSeconds : Z) :
  let configured := getEnvAsInt env envKey defaultSeconds in
  let timeout := getPositiveTimeout env envKey defaultSeconds in
  0 < defaultSeconds <= 9223372036 ->
  configured <= 9223372036 ->
  0 < timeout < 2 ^ 63
  /\ (exists seconds, 0 < seconds /\ timeout = seconds * Second)
  /\ (configured <= 0 -> timeout = defaultSeconds * Second)
  /\ (0 < configured -> timeout = configured * Second)
  /\ (Getenv env envKey = "" -> timeout = defaultSeconds * Second)
  /\ (forall err, strconv_Atoi (Getenv env envKey) = inl err ->
        timeout = defaultSeconds * Second).
Proof.
  intros configured timeout Hd Hfit. subst configured timeout.
  unfold getPositiveTimeout.
  assert (HS : Second = 1000000000) by reflexivity.
  destruct (Z.leb_spec (getEnvAsInt env envKey defaultSeconds) 0) as [Hle|Hgt];
    rewrite wrap64_fits by lia.
  - split; [lia|]. split; [exists defaultSeconds; split; [lia|auto]|].
    repeat split; try reflexivity. intros Hc. lia.
  - split; [lia|]. split; [eexists; eauto|].
    split; [lia|]. split; [reflexivity|].
    unfold getEnvAsInt in *. split.
    + intros He. rewrite He in *. cbn in *. lia.
    + intros err He. rewrite He in *.
      destruct (String.eqb (Getenv env envKey) ""); lia.
Qed.

End ConfigurationProperties.

(** ** The server key *)

Lemma substring_all (s : string) :
  String.substring 0 (String.length s) s = s.
Proof. induction s as [|a s IH]; [reflexivity|]. cbn. now rewrite IH. Qed.

Lemma zero_bytes_length (n : nat) : String.length (zero_bytes n) = n.
Proof.
  unfold zero_bytes. induction n as [|n IH]; [reflexivity|].
  cbn. now rewrite IH.
Qed.

Section ServerKeyProperties.
Variable hex_InvalidByteError : ascii -> GoError.
Variable PrivateKey : Type.
Variable crypto_ToECDSA : string -> GoError + PrivateKey.

Local Abbreviation load :=
  (loadServerPrivateKey hex_InvalidByteError PrivateKey crypto_ToECDSA).
Local Abbreviation get :=
  (getServerPrivateKey hex_InvalidByteError PrivateKey crypto_ToECDSA).
Local Abbreviation decode := (hex_DecodeString hex_InvalidByteError).

Lemma loadServerPrivateKey_key (env : Env) (k : PrivateKey) :
  fst (fst (load env)) = Some k ->
  (exists hexDigits keyBytes,
     hexDigits = strings_TrimPrefix
                   (Getenv env "SERVER_WALLET_PRIVATE_KEY") "0x"
     /\ decode hexDigits = inr keyBytes
     /\ (String.length keyBytes = 31 \/ String.length keyBytes = 32)%nat
     /\ String.length
          (String.append (zero_bytes (32 - String.length keyBytes))
             keyBytes) = 32%nat
     /\ crypto_ToECDSA
          (String.append (zero_bytes (32 - String.length keyBytes))
             keyBytes) = inr k)
  /\ Getenv env "SERVER_WALLET_PRIVATE_KEY" <> ""
  /\ load env = (Some k, None, true).
Proof.
  unfold loadServerPrivateKey.
  destruct (String.eqb_spec (Getenv env "SERVER_WALLET_PRIVATE_KEY") "")
    as [He|He]; [discriminate|].
  destruct (decode _) as [err|keyBytes] eqn:Ed; [discriminate|].
  unfold len.
  destruct (Z.ltb_spec (Z.of_nat (String.length keyBytes)) 31) as [H31|H31];
    [discriminate|].
  destruct (Z.ltb_spec (Z.of_nat (String.length keyBytes)) 32) as [H32|H32].
  - assert (Hlen : String.length keyBytes = 31%nat) by lia.
    destruct (crypto_ToECDSA _) as [err|pk] eqn:Ek; [discriminate|].
    cbn [fst]. intros [= <-]. split; [|auto].
    exists (strings_TrimPrefix (Getenv env "SERVER_WALLET_PRIVATE_KEY") "0x"),
      keyBytes.
    split; [reflexivity|]. split; [exact Ed|]. split; [auto|].
    split; [|exact Ek].
    rewrite length_append, zero_bytes_length. lia.
  - destruct (Z.ltb_spec 32 (Z.of_nat (String.length keyBytes))) as [H33|H33];
      [discriminate|].
    assert (Hlen : String.length keyBytes = 32%nat) by lia.
    destruct (crypto_ToECDSA keyBytes) as [err|pk] eqn:Ek; [discriminate|].
    cbn [fst]. intros [= <-]. split; [|auto].
    exists (strings_TrimPrefix (Getenv env "SERVER_WALLET_PRIVATE_KEY") "0x"),
      keyBytes.
    split; [reflexivity|]. split; [exact Ed|]. split; [auto|].
    rewrite Hlen. cbn [Nat.sub zero_bytes repeat string_of_list_ascii].
    cbn [String.append]. split; [exact Hlen|exact Ek].
Qed.

(** [sync.Once]: the first call decides what every call returns. *)
Lemma getServerPrivateKey_once (env env' : Env)
  (st : ServerKeyState PrivateKey) (g : Globals) :
  let first := get env st g in
  once_done _ (fst (fst first)) = true
  /\ get env' (fst (fst first)) (snd (fst first)) = first
  /\ (once_done _ st = false ->
      serverPrivateKey _ st = None -> serverPrivateKeyErr _ st = None ->
      snd first = (fst (fst (load env)), snd (fst (load env)))).
Proof.
  unfold getServerPrivateKey.
  destruct (once_done _ st) eqn:Eo.
  - cbn [fst snd]. rewrite Eo. split; [reflexivity|].
    split; [reflexivity|discriminate].
  - destruct (load env) as [[key err] logged].
    cbn [fst snd once_done]. split; [reflexivity|]. split; [reflexivity|].
    intros _ Hk He. rewrite Hk, He.
    destruct key, err; reflexivity.
Qed.


(** X7. When the first call of [getServerPrivateKey] returns a
    key, the configured value, less one leading [0x], is a hexadecimal
    string of 31 or 32 bytes, and the key is what [crypto.ToECDSA] makes
    of these bytes left-padded with zero bytes to exactly 32; no error
    is returned with it, and every later call returns the same key
    whatever the environment holds by then. *)
Theorem server_key_has_32_bytes (env env' : Env) (g : Globals)
  (k : PrivateKey) :
  let fresh := mkServerKeyState PrivateKey false None None in
  let first := get env fresh g in
  fst (snd first) = Some k ->
  (exists hexDigits keyBytes,
     hexDigits = strings_TrimPrefix
                   (Getenv env "SERVER_WALLET_PRIVATE_KEY") "0x"
     /\ decode hexDigits = inr keyBytes
     /\ (String.length keyBytes = 31 \/ String.length keyBytes = 32)%nat
     /\ String.length
          (String.append (zero_bytes (32 - String.length keyBytes))
             keyBytes) = 32%nat
     /\ crypto_ToECDSA
          (String.append (zero_bytes (32 - String.length keyBytes))
             keyBytes) = inr k)
  /\ snd first = (Some k, None)
  /\ get env' (fst (fst first)) (snd (fst first)) = first.
Proof.
  intros fresh first Hk.
  destruct (getServerPrivateKey_once env env' fresh g)
    as (_ & Honce & Hload).
  fold first in Honce, Hload.
  specialize (Hload eq_refl eq_refl eq_refl).
  rewrite Hload in Hk. cbn [fst] in Hk.
  destruct (loadServerPrivateKey_key env k Hk) as (Hbytes & _ & Hl).
  split; [exact Hbytes|]. split; [|exact Honce].
  rewrite Hload, Hl. reflexivity.
Qed.

Lemma decode_leading_zero (h : string) :
  decode (String.append "00" h)
  = match decode h with
    | inl err => inl err
    | inr bytes => inr (String Ascii.zero bytes)
    end.
Proof. reflexivity. Qed.

Lemma decode_not_0x (h bytes : string) :
  decode h = inr bytes -> String.prefix "0x" h = false.
Proof.
  destruct h as [|a [|b h]]; [reflexivity| |].
  { cbn [hex_DecodeString]. destruct (fromHexChar a); discriminate. }
  cbn [hex_DecodeString].
  destruct (fromHexChar a) eqn:Ea; [|discriminate].
  destruct (fromHexChar b) eqn:Eb; [|discriminate].
  intros _. cbn [String.prefix].
  destruct (Ascii.eqb_spec "0"%char a) as [<-|]; [|now destruct (ascii_dec _ _)].
  destruct (ascii_dec "0" "0"); [|congruence].
  destruct (ascii_dec "x" b) as [<-|]; [|reflexivity].
  vm_compute in Eb. discriminate.
Qed.

(** X8. A key written with the prefix [0x] loads as the same key
    written without it, and a key of 31 bytes loads as the same key with
    a zero byte written in front. *)
Theorem server_key_spellings_agree (env env' : Env) (h : string) :
  Getenv env "SERVER_WALLET_PRIVATE_KEY" = h ->
  h <> "" ->
  String.prefix "0x" h = false ->
  (Getenv env' "SERVER_WALLET_PRIVATE_KEY" = String.append "0x" h ->
   load env' = load env)
  /\ (forall keyBytes,
        decode h = inr keyBytes ->
        String.length keyBytes = 31%nat ->
        Getenv env' "SERVER_WALLET_PRIVATE_KEY" = String.append "00" h ->
        load env' = load env).
Proof.
  intros Hh Hne Hpre. split.
  - intros Hh'. unfold loadServerPrivateKey. rewrite Hh, Hh'.
    apply String.eqb_neq in Hne. rewrite Hne.
    change (String.eqb (String.append "0x" h) "") with false.
    cbv iota.
    assert (Htrim : strings_TrimPrefix (String.append "0x" h) "0x" = h).
    { unfold strings_TrimPrefix.
      assert (Hp : String.prefix "0x" (String.append "0x" h) = true)
        by (destruct h; reflexivity).
      rewrite Hp.
      change (String.append "0x" h) with (String "0" (String "x" h)).
      change (String.length "0x") with 2%nat.
      cbn [String.length Nat.sub String.substring].
      rewrite Nat.sub_0_r. apply substring_all. }
    assert (Htrim' : strings_TrimPrefix h "0x" = h).
    { unfold strings_TrimPrefix. now rewrite Hpre. }
    now rewrite Htrim, Htrim'.
  - intros keyBytes Hd Hlen Hh'. unfold loadServerPrivateKey.
    rewrite Hh, Hh'. apply String.eqb_neq in Hne. rewrite Hne.
    change (String.eqb (String.append "00" h) "") with false.
    cbv iota.
    assert (Htrim : strings_TrimPrefix (String.append "00" h) "0x"
                    = String.append "00" h) by (destruct h; reflexivity).
    assert (Htrim' : strings_TrimPrefix h "0x" = h).
    { unfold strings_TrimPrefix. now rewrite Hpre. }
    rewrite Htrim, Htrim', decode_leading_zero, Hd.
    unfold len. cbn [String.length]. rewrite Hlen.
    reflexivity.
Qed.

End ServerKeyProperties.


Section ServerKeyExamples.
Import Example Deployment.

Lemma server_key_has_32_bytes_witness :
  String.length loadedKey = 32%nat
  /\ snd (getServerPrivateKey invalidByte string ToECDSA (keyed shortKey)
            (mkServerKeyState string false None None) cold)
     = (Some loadedKey, None).
Proof.
  destruct (server_key_has_32_bytes invalidByte string
              ToECDSA (keyed shortKey) (keyed "") cold loadedKey
              ltac:(vm_compute; reflexivity))
    as (_ & Hres & _).
  split; [vm_compute; reflexivity | exact Hres].
Defined.

Lemma server_key_spellings_agree_witness :
  loadServerPrivateKey invalidByte string ToECDSA
    (keyed (String.append "0x" shortKey))
  = loadServerPrivateKey invalidByte string ToECDSA (keyed shortKey)
  /\ loadServerPrivateKey invalidByte string ToECDSA
       (keyed (String.append "00" shortKey))
     = loadServerPrivateKey invalidByte string ToECDSA (keyed shortKey).
Proof.
  destruct (server_key_spellings_agree invalidByte
              string ToECDSA (keyed shortKey)
              (keyed (String.append "0x" shortKey)) shortKey
              eq_refl ltac:(discriminate) eq_refl) as [H0x _].
  destruct (server_key_spellings_agree invalidByte
              string ToECDSA (keyed shortKey)
              (keyed (String.append "00" shortKey)) shortKey
              eq_refl ltac:(discriminate) eq_refl) as [_ H00].
  split; [apply H0x; reflexivity|].
  apply (H00 (String.substring 1 31 loadedKey));
    vm_compute; reflexivity.
Defined.

End ServerKeyExamples.

(** ** Readiness *)

Section HealthProperties.
Context `{Library}.

Lemma probe_status_ok (r : ProbeReply) :
  match r with
  | ProbeNewRequestFailed _ => "unreachable"
  | ProbeDoFailed _ => "unreachable"
  | ProbeResponded statusCode =>
      if negb (statusCode =? 200) then "degraded" else "ok"
  end = "ok" <-> r = ProbeResponded 200.
Proof.
  destruct r as [e|e|code]; try (split; discriminate).
  destruct (Z.eqb_spec code 200) as [->|Hne]; cbn [negb].
  - split; reflexivity.
  - split; [discriminate|]. intros [= ->]. contradiction.
Qed.

(** X9. [handleReadyz] answers 200 exactly when the verifier's
    [/health] answers 200, [OPENROUTER_API_KEY] is set and OpenRouter's
    [/api/v1/models] answers 200, each asked with a deadline two seconds
    from now, and 503 in every other case, while [handleHealthz] answers
    200 whatever the dependencies do. [checkOpenRouterHealth] says
    [unconfigured] exactly when [validateConfig] fails, and then it does
    not depend on what the HTTP client would return for OpenRouter. *)
Theorem readiness_needs_both_dependencies (env : Env) (rt : Runtime)
  (c : Context bufferedWriter) :
  closed (Writer c) = false ->
  let deadline :=
    {| ctx_deadline := Some (time_Now env + 2 * Second);
       ctx_correlation_id := None |} in
  let verifierURL :=
    if String.eqb (Getenv env "VERIFIER_URL") ""
    then "http://127.0.0.1:3002" else Getenv env "VERIFIER_URL" in
  let baseURL :=
    if String.eqb (Getenv env "OPENROUTER_URL") ""
    then "https://openrouter.ai" else Getenv env "OPENROUTER_URL" in
  let ready :=
    probe_Do rt "GET" (String.append verifierURL "/health") None deadline
    = ProbeResponded 200
    /\ Getenv env "OPENROUTER_API_KEY" <> ""
    /\ probe_Do rt "GET"
         (String.append (strings_TrimSuffix baseURL "/") "/api/v1/models")
         (Some (String.append "Bearer " (Getenv env "OPENROUTER_API_KEY")))
         deadline
       = ProbeResponded 200 in
  let c' := handleReadyz env rt c in
  (ready -> bw_Status (Writer c') = 200)
  /\ (~ ready -> bw_Status (Writer c') = 503)
  /\ bw_Status (Writer (handleHealthz env c)) = 200
  /\ (validateConfig env = None
      <-> checkOpenRouterHealth env rt <> "unconfigured")
  /\ (Getenv env "OPENROUTER_API_KEY" = "" ->
      forall rt',
        probe_Do rt' "GET" (String.append verifierURL "/health") None deadline
        = probe_Do rt "GET" (String.append verifierURL "/health") None
            deadline ->
        checkVerifierHealth env rt' = checkVerifierHealth env rt
        /\ checkOpenRouterHealth env rt' = "unconfigured").
Proof.
  intros Hopen deadline verifierURL baseURL ready c'.
  assert (Hv : checkVerifierHealth env rt = "ok"
               <-> probe_Do rt "GET" (String.append verifierURL "/health")
                     None deadline = ProbeResponded 200).
  { unfold checkVerifierHealth. apply probe_status_ok. }
  assert (Ho : checkOpenRouterHealth env rt = "ok"
               <-> Getenv env "OPENROUTER_API_KEY" <> ""
                   /\ probe_Do rt "GET"
                        (String.append (strings_TrimSuffix baseURL "/")
                           "/api/v1/models")
                        (Some (String.append "Bearer "
                                 (Getenv env "OPENROUTER_API_KEY")))
                        deadline = ProbeResponded 200).
  { unfold checkOpenRouterHealth.
    destruct (String.eqb_spec (Getenv env "OPENROUTER_API_KEY") "")
      as [He|He].
    - split; [discriminate|]. intros [Hc _]. contradiction.
    - fold baseURL. rewrite probe_status_ok. tauto. }
  assert (Hready : ready
                   <-> String.eqb (checkVerifierHealth env rt) "ok"
                       && String.eqb (checkOpenRouterHealth env rt) "ok"
                       = true).
  { rewrite andb_true_iff, !String.eqb_eq, Hv, Ho. unfold ready. tauto. }
  split; [|split; [|split; [|split]]].
  - intros Hr. apply Hready in Hr. subst c'. unfold handleReadyz.
    rewrite Hr. cbn [negb].
    match goal with
    | |- context [c_JSON 200 ?obj c] =>
        destruct (c_JSON_bw 200 obj c Hopen ltac:(discriminate)) as (Hs & _)
    end.
    exact Hs.
  - intros Hr. subst c'. unfold handleReadyz.
    destruct (String.eqb (checkVerifierHealth env rt) "ok"
              && String.eqb (checkOpenRouterHealth env rt) "ok") eqn:Er.
    { exfalso. apply Hr, Hready. reflexivity. }
    cbn [negb].
    match goal with
    | |- context [c_JSON 503 ?obj c] =>
        destruct (c_JSON_bw 503 obj c Hopen ltac:(discriminate)) as (Hs & _)
    end.
    exact Hs.
  - unfold handleHealthz.
    match goal with
    | |- context [c_JSON 200 ?obj c] =>
        destruct (c_JSON_bw 200 obj c Hopen ltac:(discriminate)) as (Hs & _)
    end.
    exact Hs.
  - unfold validateConfig, checkOpenRouterHealth. cbn [List.filter].
    destruct (String.eqb (Getenv env "OPENROUTER_API_KEY") "").
    + split; [discriminate|]. intros Hc. contradiction.
    + split; [intros _|reflexivity].
      match goal with
      | |- match ?p with _ => _ end <> _ =>
          destruct p as [e|e|code]; [discriminate|discriminate|]
      end.
      destruct (negb (code =? 200)); discriminate.
  - intros Hkey rt' Hsame. split.
    + unfold checkVerifierHealth. fold verifierURL.
      change (fst (context_WithTimeout (time_Now env) context_Background
                     (2 * Second))) with deadline.
      now rewrite Hsame.
    + unfold checkOpenRouterHealth. now rewrite Hkey.
Qed.

End HealthProperties.

Section HealthExamples.
Import Example Deployment.

Lemma readiness_needs_both_dependencies_witness :
  bw_Status (Writer (handleReadyz (H := library) configured healthy context))
  = 200
  /\ bw_Status
       (Writer (handleReadyz (H := library) (env accepts) healthy context))
     = 503.
Proof.
  destruct (readiness_needs_both_dependencies (H := library) configured
              healthy context eq_refl) as (Hup & _).
  destruct (readiness_needs_both_dependencies (H := library) (env accepts)
              healthy context eq_refl) as (_ & Hdown & _).
  split.
  - apply Hup. repeat split; try reflexivity. discriminate.
  - apply Hdown. intros (_ & Hkey & _). apply Hkey. reflexivity.
Defined.

End HealthExamples.

(** ** The correlation id *)

(** The response [flushTo] sends on a writer nothing was sent on: its
    headers are those of the writer followed by those of the buffer, and
    with a final status it is sent, with the bytes of the buffer when
    the status allows a body. *)
Lemma flushTo_real_headers (b : bufferedWriter) (h1 : Header) :
  (forall resp,
     client_view (bw_flushTo b (newRealWriter h1)) = Some resp ->
     forall k,
       Header_values (resp_header resp) k
       = (Header_values h1 k ++ Header_values (head b) k)%list)
  /\ (200 <= bw_Status b <= 999 ->
      exists resp,
        client_view (bw_flushTo b (newRealWriter h1)) = Some resp
        /\ resp_body resp
           = if bodyAllowedForStatus (bw_Status b) then buf b else "").
Proof.
  pose proof (bw_flushTo_unwritten b (newRealWriter h1) eq_refl) as Hf.
  cbv zeta in Hf.
  cbn [rw_status rw_head sent_body sent_status sent_head conn_raw
         newRealWriter] in Hf.
  split.
  - intros resp Hview k. rewrite Hf in Hview.
    destruct (validStatusCode _); [|discriminate].
    unfold client_view in Hview.
    cbn [rw_written rw_sent andb sent_status sent_head sent_body] in Hview.
    injection Hview as <-. cbn [resp_header].
    rewrite Header_values_add_all by apply NoDup_fst_map_to_list.
    now rewrite list_to_map_to_list.
  - intros [Hlo Hhi].
    assert (Hpos : (0 <? bw_Status b) = true) by (apply Z.ltb_lt; lia).
    assert (Hvalid : validStatusCode (bw_Status b) = true).
    { unfold validStatusCode. apply andb_true_iff.
      split; apply Z.leb_le; lia. }
    rewrite Hpos, Hvalid in Hf. rewrite Hf.
    eexists. split; [reflexivity|]. cbn [resp_body].
    destruct (bodyAllowedForStatus (bw_Status b)); reflexivity.
Qed.

(** X10. [CorrelationIDMiddleware] hands the chain a context
    that holds the request's [X-Correlation-ID], or a fresh id when the
    request has none, under the key [correlation_id] and in the request
    context, whose deadline it leaves alone. With the timeout guard
    behind it, the client receives the id as the first value of the
    [X-Correlation-ID] header of every response the guard sends for a
    handler that completed, whatever the handler did to its own
    headers, and when the guard answers 504. For a completed handler
    with a final status, 200 to 999, a response is sent, with the
    handler's bytes when the status allows a body. *)
Theorem correlation_id_on_every_response (method fresh : string)
  (rq : Request) (h0 : Header) (keys : gmap string KeyValue) (ab : bool)
  (g : Globals) :
  let c := mkContext rq (newRealWriter h0) keys ab in
  let id :=
    if String.eqb (c_GetHeader c "X-Correlation-ID") "" then fresh
    else c_GetHeader c "X-Correlation-ID" in
  fresh <> "" ->
  exists c1 g1,
    (forall next, CorrelationIDMiddleware method fresh next c g = next c1 g1)
    /\ c_Get c1 "correlation_id" = Some (KString id)
    /\ ctx_correlation_id (req_Context (Request_ c1)) = Some id
    /\ ctx_deadline (req_Context (Request_ c1)) = ctx_deadline (req_Context rq)
    /\ (forall ops,
          let sent :=
            client_view
              (res_orig (RequestTimeoutMiddleware (RunFinished ops)
                           (Writer c1))) in
          (forall resp,
             sent = Some resp ->
             Header_values (resp_header resp) "X-Correlation-ID"
             = id :: Header_values (written_header ops) "X-Correlation-ID")
          /\ (200 <= written_status ops <= 999 ->
              exists resp,
                sent = Some resp
                /\ resp_body resp
                   = if bodyAllowedForStatus (written_status ops)
                     then written_bytes ops else ""))
    /\ (forall before sched,
          exists resp,
            client_view
              (res_orig (RequestTimeoutMiddleware (RunTimedOut before sched)
                           (Writer c1))) = Some resp
            /\ resp_status resp = 504
            /\ Header_values (resp_header resp) "X-Correlation-ID" = [id]).
Proof.
  intros c id Hfresh.
  assert (Hid : String.eqb id "" = false).
  { unfold id. destruct (String.eqb_spec (c_GetHeader c "X-Correlation-ID") "");
      now apply String.eqb_neq. }
  set (ctx := {| ctx_deadline := ctx_deadline (req_Context rq);
                 ctx_correlation_id := Some id |}).
  set (w1 := newRealWriter (Header_Set "X-Correlation-ID" id h0)).
  exists (mkContext
            (mkRequest (req_Header rq) (req_ContentLength rq) (req_Body rq)
               ctx (req_Path rq) (req_ClientIP rq))
            w1 (<["correlation_id" := KString id]> keys) ab),
    (log_Printf
       (String.concat ""
          ["[CorrelationID: "; id; "] "; method; " "; req_Path rq]) g).
  split.
  { intros next. unfold CorrelationIDMiddleware. fold c. fold id.
    unfold c_Header. cbn [c_Set Request_ Writer Keys aborted set_Request].
    rewrite Hid. reflexivity. }
  split; [apply lookup_insert_eq|]. split; [reflexivity|].
  split; [reflexivity|]. split.
  - intros ops sent. subst sent.
    cbn [Writer RequestTimeoutMiddleware res_orig].
    destruct (flushTo_real_headers (run_ops ops newBufferedWriter)
                (Header_Set "X-Correlation-ID" id h0))
      as (Hhd & Hsent).
    destruct (run_ops_open ops newBufferedWriter eq_refl) as (Hb & Hh & Hs).
    cbn [buf head status newBufferedWriter] in Hb, Hh, Hs.
    change (String.append "" (written_bytes ops))
      with (written_bytes ops) in Hb.
    assert (Hst : bw_Status (run_ops ops newBufferedWriter)
                  = written_status ops).
    { unfold bw_Status, written_status. now rewrite Hs. }
    split.
    + intros resp Hview. rewrite (Hhd resp Hview), Hh, Header_values_Set.
      rewrite decide_True by reflexivity. reflexivity.
    + intros Hfinal. rewrite Hst in Hsent.
      destruct (Hsent Hfinal) as (resp & Hview & Hbody).
      exists resp. split; [exact Hview|]. now rewrite Hbody, Hb.
  - intros before sched. cbn [Writer RequestTimeoutMiddleware res_orig].
    exists {| resp_status := 504;
              resp_header :=
                Header_Set "Content-Type" jsonContentType
                  (Header_Set "X-Correlation-ID" id h0);
              resp_body := timeoutBody |}.
    split; [rewrite run_ticks_orig; reflexivity|].
    split; [reflexivity|].
    cbn [resp_header].
    rewrite !Header_values_Set.
    rewrite decide_False by discriminate.
    now rewrite decide_True by reflexivity.
Qed.

(** ** What the verifier is asked *)

Section VerifierCall.
Context `{Library}.

Lemma verifyPayment_frame (env : Env) (ctx : GoContext)
  (signature nonce : string)
  (v' : string -> string -> option string -> GoContext -> VerifierReply) :
  let url :=
    String.append
      (if String.eqb (Getenv env "VERIFIER_URL") ""
       then "http://127.0.0.1:3002" else Getenv env "VERIFIER_URL")
      "/verify" in
  let vctx :=
    fst (context_WithTimeout (time_Now env) ctx (getVerifierTimeout env)) in
  (forall body,
     v' url body (ctx_correlation_id ctx) vctx
     = verifier_Do env url body (ctx_correlation_id ctx) vctx) ->
  verifyPayment (with_verifier v' env) ctx signature nonce
  = verifyPayment env ctx signature nonce.
Proof.
  intros url vctx Hsame. unfold verifyPayment.
  change (getRecipientAddress (with_verifier v' env))
    with (getRecipientAddress env).
  change (getPaymentAmount (with_verifier v' env))
    with (getPaymentAmount env).
  change (getChainID (with_verifier v' env)) with (getChainID env).
  destruct (json_Marshal _) as [e|verifyBody]; [reflexivity|].
  change (Getenv (with_verifier v' env)) with (Getenv env).
  change (time_Now (with_verifier v' env)) with (time_Now env).
  change (getVerifierTimeout (with_verifier v' env))
    with (getVerifierTimeout env).
  change (verifier_Do (with_verifier v' env)) with v'.
  fold url. fold vctx. now rewrite Hsame.
Qed.

(** X11. [verifyPayment] asks the verifier at most once: at
    [VERIFIER_URL] (by default [http://127.0.0.1:3002]) followed by
    [/verify], with the encoded verification request, with the
    correlation id of the caller's context, and under a deadline that is
    the earlier of the caller's deadline and now plus the verifier
    timeout. A verifier that agrees with the given one on such calls
    gives the same outcome. *)
Theorem verifier_called_within_its_deadline (env : Env) (ctx : GoContext)
  (signature nonce : string)
  (v' : string -> string -> option string -> GoContext -> VerifierReply) :
  let url :=
    String.append
      (if String.eqb (Getenv env "VERIFIER_URL") ""
       then "http://127.0.0.1:3002" else Getenv env "VERIFIER_URL")
      "/verify" in
  let limit := time_Now env + getVerifierTimeout env in
  let deadline :=
    match Deadline ctx with
    | Some d => Z.min d limit
    | None => limit
    end in
  (forall body vctx,
     json_Marshal
       (VerifyRequest_json
          {| vreq_Context :=
               {| Recipient := getRecipientAddress env; Token := "USDC";
                  Amount := getPaymentAmount env; Nonce := nonce;
                  ChainID := getChainID env |};
             vreq_Signature := signature |}) = inr body ->
     Deadline vctx = Some deadline ->
     ctx_correlation_id vctx = ctx_correlation_id ctx ->
     v' url body (ctx_correlation_id ctx) vctx
     = verifier_Do env url body (ctx_correlation_id ctx) vctx) ->
  verifyPayment (with_verifier v' env) ctx signature nonce
  = verifyPayment env ctx signature nonce.
Proof.
  intros url limit deadline Hsame. unfold verifyPayment.
  change (getRecipientAddress (with_verifier v' env))
    with (getRecipientAddress env).
  change (getPaymentAmount (with_verifier v' env))
    with (getPaymentAmount env).
  change (getChainID (with_verifier v' env)) with (getChainID env).
  destruct (json_Marshal _) as [e|verifyBody] eqn:Em; [reflexivity|].
  change (Getenv (with_verifier v' env)) with (Getenv env).
  change (time_Now (with_verifier v' env)) with (time_Now env).
  change (getVerifierTimeout (with_verifier v' env))
    with (getVerifierTimeout env).
  change (verifier_Do (with_verifier v' env)) with v'.
  fold url. rewrite (Hsame verifyBody); [reflexivity|reflexivity| |].
  - unfold context_WithTimeout. rewrite WithDeadline_deadline. reflexivity.
  - unfold context_WithTimeout, context_WithDeadline.
    destruct (Deadline ctx) as [cur|]; [|reflexivity].
    destruct (cur <? time_Now env + getVerifierTimeout env); reflexivity.
Qed.

Lemma handleSummarize_frame {W} `{ResponseWriter W} (env : Env)
  (v' : string -> string -> option string -> GoContext -> VerifierReply)
  (c : Context W) (g : Globals) :
  (forall url body vctx,
     v' url body (ctx_correlation_id (req_Context (Request_ c))) vctx
     = verifier_Do env url body
         (ctx_correlation_id (req_Context (Request_ c))) vctx) ->
  handleSummarize (with_verifier v' env) c g = handleSummarize env c g.
Proof.
  intros Hsame. unfold handleSummarize.
  assert (Hv : forall signature nonce requestBody,
            handleSummarize_verify (with_verifier v' env) signature nonce
              requestBody c g
            = handleSummarize_verify env signature nonce requestBody c g).
  { intros. unfold handleSummarize_verify.
    rewrite verifyPayment_frame by (intros; apply Hsame). reflexivity. }
  destruct (String.eqb (c_GetHeader c "X-402-Signature") ""
            || String.eqb (c_GetHeader c "X-402-Nonce") "");
    [reflexivity|].
  destruct (c_Get c "request_body") as [[b| | |]|]; try reflexivity.
  - now rewrite Hv.
  - destruct (req_Body (Request_ c)) as [b|]; [|reflexivity].
    destruct (ReadAll_MaxBytes maxBodySize b); [reflexivity|].
    now rewrite Hv.
Qed.

Lemma CacheMiddleware_frame {W} `{ResponseWriter W} (env : Env)
  (v' : string -> string -> option string -> GoContext -> VerifierReply)
  (c : Context W) (g : Globals) :
  (forall url body vctx,
     v' url body (ctx_correlation_id (req_Context (Request_ c))) vctx
     = verifier_Do env url body
         (ctx_correlation_id (req_Context (Request_ c))) vctx) ->
  CacheMiddleware (with_verifier v' env)
    (fun W' (inst : ResponseWriter W') =>
       handleSummarize (W := W') (with_verifier v' env)) c g
  = CacheMiddleware env
      (fun W' (inst : ResponseWriter W') => handleSummarize (W := W') env)
      c g.
Proof.
  intros Hsame. unfold CacheMiddleware.
  destruct (redisClient g) as [rc|];
    [|now apply handleSummarize_frame].
  destruct (String.eqb (c_GetHeader c "X-402-Signature") ""
            || String.eqb (c_GetHeader c "X-402-Nonce") "");
    [now apply handleSummarize_frame|].
  destruct (maxBodySize <? req_ContentLength (Request_ c)); [reflexivity|].
  cbv zeta.
  assert (Hlookup :
    forall (requestBody : string) (c1 : Context W),
      req_Context (Request_ c1) = req_Context (Request_ c) ->
      forall cacheKey,
        match getFromCache g cacheKey with
        | inl _ =>
            CacheMiddleware_miss
              (fun W' (inst : ResponseWriter W') =>
                 handleSummarize (W := W') (with_verifier v' env))
              cacheKey c1
              (log_Printf (String.append "Cache MISS: " cacheKey) g)
        | inr cached =>
            Some (CacheMiddleware_hit (with_verifier v' env)
                    (c_GetHeader c "X-402-Signature")
                    (c_GetHeader c "X-402-Nonce") requestBody cached c1
                    (log_Printf (String.append "Cache HIT: " cacheKey) g))
        end
        = match getFromCache g cacheKey with
          | inl _ =>
              CacheMiddleware_miss
                (fun W' (inst : ResponseWriter W') =>
                   handleSummarize (W := W') env)
                cacheKey c1
                (log_Printf (String.append "Cache MISS: " cacheKey) g)
          | inr cached =>
              Some (CacheMiddleware_hit env
                      (c_GetHeader c "X-402-Signature")
                      (c_GetHeader c "X-402-Nonce") requestBody cached c1
                      (log_Printf (String.append "Cache HIT: " cacheKey) g))
          end).
  { intros requestBody c1 Hctx cacheKey.
    destruct (getFromCache g cacheKey) as [e|cached].
    - unfold CacheMiddleware_miss.
      rewrite handleSummarize_frame; [reflexivity|].
      cbn [set_Writer Request_]. rewrite Hctx. exact Hsame.
    - f_equal. unfold CacheMiddleware_hit.
      rewrite verifyPayment_frame; [reflexivity|].
      intros body. rewrite Hctx. apply Hsame. }
  destruct (req_Body (Request_ c)) as [b|].
  - destruct (ReadAll_MaxBytes maxBodySize b) as [e|requestBody];
      [destruct (errors_As_MaxBytesError e); reflexivity|].
    destruct (json_Unmarshal_SummarizeRequest requestBody) as [e|req];
      [reflexivity|].
    destruct (String.eqb (Text req) ""); [reflexivity|].
    change (Getenv (with_verifier v' env)) with (Getenv env).
    apply Hlookup. reflexivity.
  - destruct (json_Unmarshal_SummarizeRequest "") as [e|req];
      [reflexivity|].
    destruct (String.eqb (Text req) ""); [reflexivity|].
    change (Getenv (with_verifier v' env)) with (Getenv env).
    apply Hlookup. reflexivity.
Qed.

(** X12. Behind [CorrelationIDMiddleware], [handleSummarize],
    alone or behind [CacheMiddleware], asks the verifier only with the
    correlation id of the request: a verifier that agrees with the given
    one on the calls that carry this id gives the same outcome. *)
Theorem correlation_id_forwarded_to_verifier {W} `{ResponseWriter W}
  (method fresh : string) (env : Env)
  (v' : string -> string -> option string -> GoContext -> VerifierReply)
  (c : Context W) (g : Globals) :
  let id :=
    if String.eqb (c_GetHeader c "X-Correlation-ID") "" then fresh
    else c_GetHeader c "X-Correlation-ID" in
  (forall url body vctx,
     v' url body (Some id) vctx = verifier_Do env url body (Some id) vctx) ->
  CorrelationIDMiddleware method fresh
    (handleSummarize (with_verifier v' env)) c g
  = CorrelationIDMiddleware method fresh (handleSummarize env) c g
  /\ CorrelationIDMiddleware method fresh
       (CacheMiddleware (with_verifier v' env)
          (fun W' (inst : ResponseWriter W') =>
             handleSummarize (W := W') (with_verifier v' env))) c g
     = CorrelationIDMiddleware method fresh
         (CacheMiddleware env
            (fun W' (inst : ResponseWriter W') =>
               handleSummarize (W := W') env)) c g.
Proof.
  intros id Hsame. unfold CorrelationIDMiddleware. fold id. split.
  - apply handleSummarize_frame. intros url body vctx.
    unfold c_Header; destruct (String.eqb id ""); apply Hsame.
  - apply CacheMiddleware_frame. intros url body vctx.
    unfold c_Header; destruct (String.eqb id ""); apply Hsame.
Qed.

End VerifierCall.

(** ** Nested guards (main.go, lines 177-191) *)

Lemma RequestTimeoutMiddleware_ctx_deadline (timeout : Duration)
  (now : Time) (parent : GoContext) :
  Deadline (fst (RequestTimeoutMiddleware_ctx timeout now parent))
  = Some (match Deadline parent with
          | Some d => Z.min d (now + timeout)
          | None => now + timeout
          end).
Proof.
  unfold RequestTimeoutMiddleware_ctx, context_WithTimeout.
  destruct (timeout <=? 0); [apply WithDeadline_deadline|].
  destruct (Deadline parent) as [d|] eqn:E.
  - destruct (Z.ltb_spec d (now + timeout)); simpl.
    + rewrite E. f_equal. lia.
    + rewrite WithDeadline_deadline, E. reflexivity.
  - rewrite WithDeadline_deadline, E. reflexivity.
Qed.

Lemma RequestTimeoutMiddleware_ctx_id (timeout : Duration) (now : Time)
  (parent : GoContext) :
  ctx_correlation_id (fst (RequestTimeoutMiddleware_ctx timeout now parent))
  = ctx_correlation_id parent.
Proof.
  unfold RequestTimeoutMiddleware_ctx, context_WithTimeout,
    context_WithDeadline.
  destruct (timeout <=? 0); destruct (Deadline parent) as [d|];
    repeat match goal with
           | |- context [if ?b then _ else _] => destruct b
           end; reflexivity.
Qed.

(** X13. Two timeout guards in a row, as [main] installs them
    for the AI routes, leave the request with the earliest of the
    deadline it came with, the first guard's and the second guard's, and
    with the correlation id it came with; the inner guard never moves
    the deadline of the outer guard back, and leaves the context as it
    is when the outer deadline is the earlier one. *)
Theorem nested_guards_keep_earliest_deadline (global route : Duration)
  (now1 now2 : Time) (parent : GoContext) :
  let outer := fst (RequestTimeoutMiddleware_ctx global now1 parent) in
  let inner := fst (RequestTimeoutMiddleware_ctx route now2 outer) in
  Deadline inner
  = Some (match Deadline parent with
          | Some d => Z.min d (Z.min (now1 + global) (now2 + route))
          | None => Z.min (now1 + global) (now2 + route)
          end)
  /\ ctx_correlation_id inner = ctx_correlation_id parent
  /\ (forall d, Deadline outer = Some d ->
        exists d', Deadline inner = Some d' /\ d' <= d)
  /\ (now1 + global < now2 + route -> inner = outer).
Proof.
  intros outer inner.
  assert (Ho := RequestTimeoutMiddleware_ctx_deadline global now1 parent).
  assert (Hi := RequestTimeoutMiddleware_ctx_deadline route now2 outer).
  fold outer in Ho. fold inner in Hi. rewrite Ho in Hi.
  split; [|split; [|split]].
  - rewrite Hi. f_equal. destruct (Deadline parent); lia.
  - unfold inner, outer. now rewrite !RequestTimeoutMiddleware_ctx_id.
  - intros d Hd. rewrite Ho in Hd. injection Hd as <-.
    eexists. split; [exact Hi|]. lia.
  - intros Hlt. unfold inner.
    unfold RequestTimeoutMiddleware_ctx at 1, context_WithTimeout.
    assert (Hd : exists d, Deadline outer = Some d /\ d < now2 + route).
    { rewrite Ho. eexists. split; [reflexivity|].
      destruct (Deadline parent); lia. }
    destruct Hd as (d & Hd & Hlt').
    destruct (route <=? 0).
    + now apply WithDeadline_keeps_earlier with (cur := d).
    + rewrite Hd. destruct (Z.ltb_spec d (now2 + route)); [reflexivity|lia].
Qed.

(** ** [cachedWriter] *)

(** X14. Whatever calls a handler makes on a [cachedWriter], the
    embedded writer ends as if the calls had been made on it directly,
    the captured body is the concatenation of the bytes written, and
    the status and the headers read through the wrapper are those of the
    embedded writer. *)
Theorem cachedWriter_is_transparent {W} `{ResponseWriter W}
  (ops : list HandlerOp) (w : W) (body0 key : string) :
  let cw := run_ops ops (mkCachedWriter w body0 key) in
  cw_ResponseWriter cw = run_ops ops w
  /\ cw_body cw = String.append body0 (written_bytes ops)
  /\ cw_cacheKey cw = key
  /\ rw_Status cw = rw_Status (run_ops ops w)
  /\ rw_Header cw = rw_Header (run_ops ops w).
Proof.
  intros cw.
  assert (Hmain : cw_ResponseWriter cw = run_ops ops w
                  /\ cw_body cw = String.append body0 (written_bytes ops)
                  /\ cw_cacheKey cw = key).
  { subst cw. revert w body0.
    induction ops as [|op ops IH]; intros w body0.
    - cbn. now rewrite append_nil_r.
    - rewrite !run_ops_cons.
      assert (Hstep : run_op op (mkCachedWriter w body0 key)
                      = mkCachedWriter (run_op op w)
                          (String.append body0 (op_bytes op)) key).
      { destruct op; cbn; rewrite ?append_nil_r; reflexivity. }
      rewrite Hstep. destruct (IH (run_op op w)
                                 (String.append body0 (op_bytes op)))
        as (H1 & H2 & H3).
      rewrite H1, H2, H3. split; [reflexivity|]. split; [|reflexivity].
      unfold written_bytes.
      change (map op_bytes (op :: ops))
        with (op_bytes op :: map op_bytes ops).
      now rewrite concat_cons, append_assoc. }
  destruct Hmain as (H1 & H2 & H3). repeat split; try assumption.
  - cbn [rw_Status cachedWriter_ResponseWriter]. now rewrite H1.
  - cbn [rw_Header cachedWriter_ResponseWriter]. now rewrite H1.
Qed.

(** ** [Flush] through the shim *)

Lemma run_shim_ops_cons (op : ShimOp) (ops : list ShimOp)
  (s : bufferedWriter * realWriter) :
  run_shim_ops (op :: ops) s = run_shim_ops ops (run_shim_op s op).
Proof. reflexivity. Qed.

Lemma run_shim_ops_app (l1 l2 : list ShimOp)
  (s : bufferedWriter * realWriter) :
  run_shim_ops (l1 ++ l2) s = run_shim_ops l2 (run_shim_ops l1 s).
Proof. apply fold_left_app. Qed.

Lemma run_shim_ops_buffer (ops : list ShimOp) (b : bufferedWriter)
  (w : realWriter) :
  fst (run_shim_ops ops (b, w)) = run_ops (buffered_calls ops) b.
Proof.
  revert b w. induction ops as [|op ops IH]; intros b w; [reflexivity|].
  rewrite run_shim_ops_cons.
  destruct op as [op|]; cbn [run_shim_op fst snd buffered_calls omap];
    rewrite IH; reflexivity.
Qed.

Lemma run_shim_ops_committed (ops : list ShimOp) (b : bufferedWriter)
  (w : realWriter) :
  rw_written w = true -> rw_sent w = true ->
  snd (run_shim_ops ops (b, w)) = w.
Proof.
  revert b. induction ops as [|op ops IH]; intros b Hw Hs; [reflexivity|].
  rewrite run_shim_ops_cons.
  destruct op as [op|]; cbn [run_shim_op fst snd].
  - now apply IH.
  - unfold real_Flush, real_commit_panic, real_WriteHeaderNow.
    rewrite Hw, Hs, orb_true_r. now apply IH.
Qed.

Lemma run_shim_ops_no_flush (ops : list ShimOp) (b : bufferedWriter)
  (w : realWriter) :
  Forall (fun op => op <> ShimFlush) ops ->
  snd (run_shim_ops ops (b, w)) = w.
Proof.
  revert b. induction ops as [|op ops IH]; intros b Hall; [reflexivity|].
  apply Forall_cons in Hall. destruct Hall as [Hop Hall].
  rewrite run_shim_ops_cons.
  destruct op as [op|]; [|congruence]. cbn [run_shim_op fst snd].
  now apply IH.
Qed.

(** X15. [Flush] on the shim goes to the original writer and
    commits its status and headers. A handler that calls it and then
    completes has the client receive status 200 with the headers the
    original writer carried, whatever status and headers the handler
    put into the buffer before or after, followed by the buffered
    bytes; [Size] is the number of bytes buffered. A handler that does
    not call [Flush] is flushed as the guard flushes a completed
    handler. *)
Theorem flush_commits_the_original_writer (before after : list ShimOp)
  (h0 : Header) :
  Forall (fun op => op <> ShimFlush) before ->
  let ops := (before ++ ShimFlush :: after)%list in
  let handler := buffered_calls ops in
  client_view (finished_with ops (newRealWriter h0))
  = Some {| resp_status := 200; resp_header := h0;
            resp_body := written_bytes handler |}
  /\ shim_Size (fst (run_shim_ops ops (newBufferedWriter, newRealWriter h0)))
     = len (written_bytes handler)
  /\ (Forall (fun op => op <> ShimFlush) after ->
      client_view
        (finished_with (before ++ after)%list (newRealWriter h0))
      = client_view
          (res_orig (RequestTimeoutMiddleware
                       (RunFinished (buffered_calls (before ++ after)%list))
                       (newRealWriter h0)))).
Proof.
  intros Hbefore ops handler.
  assert (Hbuf : forall l (w : realWriter),
            fst (run_shim_ops l (newBufferedWriter, w))
            = run_ops (buffered_calls l) newBufferedWriter)
    by (intros; apply run_shim_ops_buffer).
  destruct (run_ops_open handler newBufferedWriter eq_refl) as (Hb & _).
  cbn [buf newBufferedWriter] in Hb.
  change (String.append "" (written_bytes handler))
    with (written_bytes handler) in Hb.
  split; [|split].
  - unfold finished_with. rewrite Hbuf. fold handler.
    assert (Horig : snd (run_shim_ops ops (newBufferedWriter, newRealWriter h0))
                    = real_Flush (newRealWriter h0)).
    { unfold ops. rewrite run_shim_ops_app, run_shim_ops_cons.
      destruct (run_shim_ops before (newBufferedWriter, newRealWriter h0))
        as [b1 w1] eqn:E1.
      assert (Hw1 : w1 = newRealWriter h0).
      { change w1 with (snd (b1, w1)). rewrite <- E1.
        now apply run_shim_ops_no_flush. }
      subst w1. cbn [run_shim_op fst snd].
      apply run_shim_ops_committed; reflexivity. }
    rewrite Horig.
    rewrite bw_flushTo_sent by reflexivity.
    cbn. now rewrite Hb.
  - unfold shim_Size. rewrite Hbuf. fold handler. now rewrite Hb.
  - intros Hafter. unfold finished_with.
    cbn [RequestTimeoutMiddleware res_orig]. rewrite Hbuf.
    rewrite run_shim_ops_no_flush; [reflexivity|].
    apply Forall_app. auto.
Qed.

Lemma flush_commits_the_original_writer_witness :
  client_view
    (finished_with
       [ShimBuffered (OpWriteHeader 500); ShimFlush;
        ShimBuffered (OpHeaderSet "X-A" "1"); ShimBuffered (OpWrite "oops")]
       (newRealWriter ∅))
  = Some {| resp_status := 200; resp_header := ∅; resp_body := "oops" |}.
Proof.
  destruct (flush_commits_the_original_writer
              [ShimBuffered (OpWriteHeader 500)]
              [ShimBuffered (OpHeaderSet "X-A" "1");
               ShimBuffered (OpWrite "oops")] ∅) as (Hview & _).
  - repeat constructor. discriminate.
  - exact Hview.
Defined.

(** ** The handler before and around verification *)

Section HandlerProperties.
Context `{Library}.

(** X16. A request that lacks the signature or the nonce header
    is answered 402 with the payment context to sign: the configured
    recipient, amount and chain, the token USDC and a fresh nonce. The
    answer is the same behind [CacheMiddleware], leaves the Redis
    client, the receipt store and the goroutines as they were, and
    depends on the configuration and the fresh nonce only, not on the
    verifier, the provider or the cache. The log is left out of the
    statement: [getRecipientAddress] warns there when no recipient is
    configured. *)
Theorem unsigned_request_gets_payment_challenge {W} `{ResponseWriter W}
  (env : Env) (c : Context W) (g : Globals) :
  c_GetHeader c "X-402-Signature" = "" \/ c_GetHeader c "X-402-Nonce" = "" ->
  let challenge :=
    c_JSON 402
      (JObject
         [("error", JString "Payment Required");
          ("message", JString "Please sign the payment context");
          ("paymentContext",
           PaymentContext_json
             {| Recipient := getRecipientAddress env; Token := "USDC";
                Amount := getPaymentAmount env; Nonce := uuid_New env;
                ChainID := getChainID env |})]) c in
  exists g',
    handleSummarize env c g = Some (g', challenge)
    /\ CacheMiddleware env
         (fun W' (inst : ResponseWriter W') => handleSummarize (W := W') env)
         c g = Some (g', challenge)
    /\ redisClient g' = redisClient g
    /\ receiptStore g' = receiptStore g
    /\ goroutines g' = goroutines g
    /\ (forall env',
          (forall k, Getenv env' k = Getenv env k) ->
          uuid_New env' = uuid_New env ->
          handleSummarize env' c g = handleSummarize env c g).
Proof.
  intros Hmissing challenge.
  assert (Hb : String.eqb (c_GetHeader c "X-402-Signature") ""
               || String.eqb (c_GetHeader c "X-402-Nonce") "" = true).
  { apply orb_true_iff. destruct Hmissing as [-> | ->]; auto. }
  assert (Hh : forall env0,
            handleSummarize env0 c g
            = Some (g, c_JSON 402
                         (JObject
                            [("error", JString "Payment Required");
                             ("message",
                              JString "Please sign the payment context");
                             ("paymentContext",
                              PaymentContext_json
                                (createPaymentContext env0))]) c)).
  { intros env0. unfold handleSummarize. now rewrite Hb. }
  exists g. split; [apply Hh|]. split.
  - unfold CacheMiddleware. rewrite Hb.
    destruct (redisClient g); apply Hh.
  - repeat (split; [reflexivity|]).
    intros env' Hcfg Huuid. rewrite !Hh.
    destruct (config_agrees env env' Hcfg) as (Hr & Ha & Hc).
    unfold createPaymentContext. now rewrite Hr, Ha, Hc, Huuid.
Qed.

(** X17. A request body of up to 10485760 bytes goes on to
    verification; a longer one is answered 413 by the handler, and by
    [CacheMiddleware], which answers 413 as well when the declared
    content length is larger, with [Connection: close] and the chain
    aborted. The 413 is the same whatever the verifier and the provider
    are. *)
Theorem request_body_limit (env : Env) (c : Context bufferedWriter)
  (g : Globals) (data : string) :
  let signature := c_GetHeader c "X-402-Signature" in
  let nonce := c_GetHeader c "X-402-Nonce" in
  let next :=
    fun W' (inst : ResponseWriter W') => handleSummarize (W := W') env in
  signature <> "" -> nonce <> "" ->
  closed (Writer c) = false ->
  c_Get c "request_body" = None ->
  req_Body (Request_ c) = Some (BodyData data) ->
  (len data <= 10485760 ->
   handleSummarize env c g
   = Some (handleSummarize_verify env signature nonce data c g))
  /\ (10485760 < len data ->
      exists c',
        handleSummarize env c g = Some (g, c')
        /\ bw_Status (Writer c') = 413
        /\ forall env', handleSummarize env' c g = Some (g, c'))
  /\ (redisClient g <> None ->
      10485760 < len data \/ 10485760 < req_ContentLength (Request_ c) ->
      exists c',
        CacheMiddleware env next c g = Some (g, c')
        /\ bw_Status (Writer c') = 413
        /\ aborted c' = true
        /\ Header_values (head (Writer c')) "Connection" = ["close"]
        /\ forall env',
             CacheMiddleware env'
               (fun W' (inst : ResponseWriter W') =>
                  handleSummarize (W := W') env') c g
             = Some (g, c')).
Proof.
  intros signature nonce next Hs Hn Hopen Hkey Hbody.
  apply String.eqb_neq in Hs. apply String.eqb_neq in Hn.
  split; [|split].
  - intros Hfit. unfold handleSummarize. fold signature nonce.
    rewrite Hs, Hn, Hkey, Hbody. cbn [orb ReadAll_MaxBytes].
    assert (Hl : (maxBodySize <? len data) = false)
      by (apply Z.ltb_ge; exact Hfit).
    now rewrite Hl.
  - intros Hbig.
    assert (Hl : (maxBodySize <? len data) = true)
      by (apply Z.ltb_lt; exact Hbig).
    eexists. split; [|split].
    + unfold handleSummarize. fold signature nonce.
      rewrite Hs, Hn, Hkey, Hbody. cbn [orb ReadAll_MaxBytes].
      rewrite Hl. cbn [errors_As_MaxBytesError]. reflexivity.
    + apply c_JSON_bw; [exact Hopen|discriminate].
    + intros env'. unfold handleSummarize. fold signature nonce.
      rewrite Hs, Hn, Hkey, Hbody. cbn [orb ReadAll_MaxBytes].
      rewrite Hl. reflexivity.
  - intros Hredis Hbig.
    assert (Hrun : forall env0,
              CacheMiddleware env0
                (fun W' (inst : ResponseWriter W') =>
                   handleSummarize (W := W') env0) c g
              = Some (g, payload_too_large c)).
    { intros env0. unfold CacheMiddleware.
      destruct (redisClient g) as [rc|]; [|congruence].
      fold signature nonce. rewrite Hs, Hn. cbn [orb].
      destruct (Z.ltb_spec maxBodySize (req_ContentLength (Request_ c)))
        as [Hc|Hc]; [reflexivity|].
      destruct Hbig as [Hbig|Hbig]; [|unfold maxBodySize in Hc; lia].
      rewrite Hbody. cbn [ReadAll_MaxBytes].
      assert (Hl : (maxBodySize <? len data) = true)
        by (apply Z.ltb_lt; exact Hbig).
      rewrite Hl. reflexivity. }
    exists (payload_too_large c). split; [apply Hrun|].
    unfold payload_too_large.
    destruct (c_Header_bw "Connection" "close" c)
      as (_ & Hc1 & _ & _ & Hh1).
    cbv zeta in Hc1, Hh1.
    match goal with
    | |- context [c_JSON 413 ?obj ?c0] =>
        destruct (c_JSON_bw 413 obj c0) as (Hst & _ & _ & Hh2);
          [now rewrite Hc1 | discriminate |]
    end.
    cbv zeta in Hst, Hh2. cbn [c_Abort Writer aborted].
    split; [exact Hst|]. split; [reflexivity|]. split; [|apply Hrun].
    rewrite Hh2 by discriminate. rewrite Hh1.
    now rewrite decide_True by reflexivity.
Qed.

(** X18. A signed request whose body is not a JSON request is
    answered 400 by [CacheMiddleware] when Redis is there, without the
    verifier being asked; without Redis the verifier is asked first, and
    the answer is 403 for an invalid signature and 400 for a valid one. *)
Theorem malformed_body_checked_before_payment_only_with_cache (env : Env)
  (c : Context bufferedWriter) (g : Globals) (data : string)
  (err : GoError) :
  let signature := c_GetHeader c "X-402-Signature" in
  let nonce := c_GetHeader c "X-402-Nonce" in
  signature <> "" -> nonce <> "" ->
  closed (Writer c) = false ->
  c_Get c "request_body" = None ->
  req_Body (Request_ c) = Some (BodyData data) ->
  len data <= 10485760 ->
  req_ContentLength (Request_ c) <= 10485760 ->
  json_Unmarshal_SummarizeRequest data = inl err ->
  (redisClient g <> None ->
   exists g' c',
     (forall env',
        CacheMiddleware env'
          (fun W' (inst : ResponseWriter W') =>
             handleSummarize (W := W') env') c g = Some (g', c'))
     /\ bw_Status (Writer c') = 400
     /\ aborted c' = true)
  /\ (redisClient g = None ->
      forall verifyResp paymentCtx,
        verifyPayment env (req_Context (Request_ c)) signature nonce
        = inr (verifyResp, paymentCtx) ->
        exists c',
          CacheMiddleware env
            (fun W' (inst : ResponseWriter W') =>
               handleSummarize (W := W') env) c g = Some (g, c')
          /\ bw_Status (Writer c')
             = if IsValid verifyResp then 400 else 403).
Proof.
  intros signature nonce Hs Hn Hopen Hkey Hbody Hfit Hlen Hjson.
  apply String.eqb_neq in Hs. apply String.eqb_neq in Hn.
  assert (Hl : (maxBodySize <? len data) = false)
    by (apply Z.ltb_ge; exact Hfit).
  assert (Hcl : (maxBodySize <? req_ContentLength (Request_ c)) = false)
    by (apply Z.ltb_ge; exact Hlen).
  split.
  - intros Hredis. eexists _, _. split; [|split].
    + intros env'. unfold CacheMiddleware.
      destruct (redisClient g) as [rc|]; [|congruence].
      fold signature nonce. rewrite Hs, Hn, Hcl, Hbody.
      cbn [orb ReadAll_MaxBytes]. rewrite Hl, Hjson. reflexivity.
    + cbn [c_Abort Writer].
      apply c_JSON_bw; [exact Hopen|discriminate].
    + reflexivity.
  - intros Hredis verifyResp paymentCtx Hv.
    unfold CacheMiddleware. rewrite Hredis.
    unfold handleSummarize. fold signature nonce.
    rewrite Hs, Hn, Hkey, Hbody. cbn [orb ReadAll_MaxBytes]. rewrite Hl.
    unfold handleSummarize_verify. rewrite Hv.
    destruct (IsValid verifyResp); cbn [negb].
    + rewrite Hjson. eexists. split; [reflexivity|].
      apply c_JSON_bw; [exact Hopen|discriminate].
    + eexists. split; [reflexivity|].
      apply c_JSON_bw; [exact Hopen|discriminate].
Qed.

(** X19. When the payment has been verified and the provider
    call fails, the handler answers 504 if the error or the request
    context says the deadline was exceeded and 500 with the error text
    otherwise; no receipt is stored, the Redis client and the goroutines
    are as they were, and the response carries no [X-402-Receipt]
    header of the handler's. The log is left out of the statement:
    [callOpenRouter] prints a provider response that has no choices. *)
Theorem provider_failure_issues_no_receipt (env : Env)
  (c : Context bufferedWriter) (g : Globals)
  (signature nonce requestBody : string) (verifyResp : VerifyResponse)
  (paymentCtx : PaymentContext) (req : SummarizeRequest) (err : GoError) :
  closed (Writer c) = false ->
  verifyPayment env (req_Context (Request_ c)) signature nonce
  = inr (verifyResp, paymentCtx) ->
  IsValid verifyResp = true ->
  json_Unmarshal_SummarizeRequest requestBody = inr req ->
  Text req <> "" ->
  callOpenRouter env (req_Context (Request_ c)) (Text req) = inl err ->
  let timedOut :=
    errors_Is_DeadlineExceeded err
    || match ctx_Err env (req_Context (Request_ c)) with
       | Some DeadlineExceeded => true
       | _ => false
       end in
  let answer :=
    if timedOut then
      JObject [("error", JString "Gateway Timeout");
               ("message", JString "AI request timed out")]
    else
      JObject [("error", JString "AI Service Failed");
               ("details", JString (GoError_Error err))] in
  exists g' c',
    handleSummarize_verify env signature nonce requestBody c g = (g', c')
    /\ receiptStore g' = receiptStore g
    /\ redisClient g' = redisClient g
    /\ goroutines g' = goroutines g
    /\ bw_Status (Writer c') = (if timedOut then 504 else 500)
    /\ buf (Writer c')
       = String.append (buf (Writer c))
           (match json_Marshal answer with
            | inr bytes => bytes
            | inl _ => ""
            end)
    /\ Header_values (head (Writer c')) "X-402-Receipt"
       = Header_values (head (Writer c)) "X-402-Receipt".
Proof.
  intros Hopen Hv Hvalid Hjson Htext Hcall timedOut answer.
  apply String.eqb_neq in Htext.
  unfold handleSummarize_verify.
  rewrite Hv, Hvalid, Hjson, Htext, Hcall. cbn [negb]. fold timedOut.
  subst answer. destruct timedOut.
  - eexists _, _. split; [reflexivity|]. do 3 (split; [reflexivity|]).
    match goal with
    | |- context [c_JSON 504 ?obj c] =>
        destruct (c_JSON_bw 504 obj c Hopen ltac:(discriminate))
          as (Hst & _ & Hb & Hh)
    end.
    cbv zeta in Hst, Hb, Hh. split; [exact Hst|]. split.
    + rewrite Hb. reflexivity.
    + apply Hh. discriminate.
  - eexists _, _. split; [reflexivity|]. do 3 (split; [reflexivity|]).
    match goal with
    | |- context [c_JSON 500 ?obj c] =>
        destruct (c_JSON_bw 500 obj c Hopen ltac:(discriminate))
          as (Hst & _ & Hb & Hh)
    end.
    cbv zeta in Hst, Hb, Hh. split; [exact Hst|]. split.
    + rewrite Hb. reflexivity.
    + apply Hh. discriminate.
Qed.

End HandlerProperties.

(** ** The cache *)

Lemma append_inj_l (p s1 s2 : string) :
  String.append p s1 = String.append p s2 -> s1 = s2.
Proof.
  induction p as [|a p IH]; [auto|].
  change (String a (String.append p s1) = String a (String.append p s2)
          -> s1 = s2).
  intros [= Heq]. auto.
Qed.

Lemma append_inj_r (s1 s2 q : string) :
  String.append s1 q = String.append s2 q -> s1 = s2.
Proof.
  revert s2. induction s1 as [|a s1 IH]; intros [|b s2] Heq.
  - reflexivity.
  - exfalso. apply (f_equal String.length) in Heq.
    change (String.append "" q) with q in Heq.
    change (String.append (String b s2) q)
      with (String b (String.append s2 q)) in Heq.
    cbn [String.length] in Heq. rewrite length_append in Heq. lia.
  - exfalso. apply (f_equal String.length) in Heq.
    change (String.append "" q) with q in Heq.
    change (String.append (String a s1) q)
      with (String a (String.append s1 q)) in Heq.
    cbn [String.length] in Heq. rewrite length_append in Heq. lia.
  - change (String a (String.append s1 q) = String b (String.append s2 q))
      in Heq.
    injection Heq as -> Heq. f_equal. now apply IH.
Qed.

Section CacheProperties.
Context `{Library}.

(** X20. For one model, two different texts get different cache
    keys unless SHA-256 has a collision; every key starts with
    [ai:summary:]. Across models the key does not keep text and model
    apart: a text that ends in [:m] under the model [m'] has the key of
    the text without that ending under the model [m:m']. *)
Theorem cache_key_separates_texts (text1 text2 model : string) :
  text1 <> text2 ->
  (getCacheKey text1 model <> getCacheKey text2 model
   \/ exists x y, x <> y /\ sha256_hex x = sha256_hex y)
  /\ String.prefix "ai:summary:" (getCacheKey text1 model) = true
  /\ (forall model',
        getCacheKey (String.append text1 (String.append ":" model)) model'
        = getCacheKey text1 (String.append model (String.append ":" model'))).
Proof.
  intros Hne. split; [|split].
  - destruct (string_dec (getCacheKey text1 model)
                (getCacheKey text2 model)) as [Heq|Hd]; [|now left].
    right. unfold getCacheKey in Heq. apply append_inj_l in Heq.
    eexists _, _. split; [|exact Heq].
    intros Hc. apply Hne. rewrite !concat_cons in Hc.
    apply append_inj_l, append_inj_l in Hc.
    now apply append_inj_r in Hc.
  - unfold getCacheKey.
    generalize (sha256_hex (String.concat "" ["v1"; ":"; text1; ":"; model])).
    intros h. destruct h; reflexivity.
  - intros model'. unfold getCacheKey. do 2 f_equal.
    rewrite !concat_cons. do 2 f_equal.
    change (String.concat "" []) with "".
    rewrite !append_nil_r, !append_assoc. reflexivity.
Qed.


End CacheProperties.

(** ** The provider call *)

Section ProviderCall.
Context `{Library}.

(** X22. [callOpenRouter] asks the provider at most once: at
    [OPENROUTER_URL] (by default the chat completions endpoint of
    OpenRouter), under the caller's context, for the model that
    [CacheMiddleware] puts into the cache key and with the text behind
    the summarizing prompt. A provider that agrees with the given one on
    this call gives the same outcome. *)
Theorem provider_asked_for_the_cached_model (env : Env) (ctx : GoContext)
  (text : string)
  (p' : string -> string -> GoContext -> ProviderReply) :
  let url :=
    if String.eqb (Getenv env "OPENROUTER_URL") ""
    then "https://openrouter.ai/api/v1/chat/completions"
    else Getenv env "OPENROUTER_URL" in
  let request :=
    JObject
      [("model", JString (cache_model env));
       ("messages",
        JArray
          [JObject
             [("role", JString "user");
              ("content",
               JString
                 (String.append "Summarize this text in 2 sentences: "
                    text))]])] in
  (forall body,
     (json_Marshal request = inr body
      \/ (body = "" /\ exists e, json_Marshal request = inl e)) ->
     p' url body ctx = provider_Do env url body ctx) ->
  callOpenRouter (with_provider p' env) ctx text
  = callOpenRouter env ctx text.
Proof.
  intros url request Hsame. unfold callOpenRouter.
  change (Getenv (with_provider p' env)) with (Getenv env).
  change (provider_Do (with_provider p' env)) with p'.
  change (ctx_Err (with_provider p' env)) with (ctx_Err env).
  fold (cache_model env). fold request. fold url.
  rewrite Hsame; [reflexivity|].
  destruct (json_Marshal request) as [e|b]; eauto.
Qed.

End ProviderCall.

(** ** Rate-limit tiers *)

Section RateLimitProperties.
Context `{Library}.

Lemma tier_is_standard_or_anonymous {W} (c : Context W) :
  (selectRateLimitTier c = "standard"
   /\ getRateLimitKey c
      = String.append "nonce:"
          (String.substring 0 32 (sha256_hex (c_GetHeader c "X-402-Nonce")))
   /\ c_GetHeader c "X-402-Signature" <> ""
   /\ c_GetHeader c "X-402-Nonce" <> "")
  \/ (selectRateLimitTier c = "anonymous"
      /\ getRateLimitKey c
         = String.append "ip:" (req_ClientIP (Request_ c))
      /\ (c_GetHeader c "X-402-Signature" = ""
          \/ c_GetHeader c "X-402-Nonce" = "")).
Proof.
  unfold selectRateLimitTier, getRateLimitKey.
  destruct (String.eqb_spec (c_GetHeader c "X-402-Signature") "");
    destruct (String.eqb_spec (c_GetHeader c "X-402-Nonce") "");
    cbn [negb andb]; auto.
Qed.

(** X23. The rate limiter puts a request with both payment
    headers into the tier [standard] under a key made of the hash of its
    nonce, and every other request into the tier [anonymous] under its
    client address. It changes the limiter of that tier only, so the
    limiter registered as [verified] is never used, and it does not
    panic when limiters for the two tiers are registered and the chain
    does not panic. *)
Theorem rate_limit_uses_two_tiers {W L} `{ResponseWriter W}
  `{RateLimiter L} (env : Env) (limiters : gmap string L)
  (next : Context W -> Globals -> option (Globals * Context W))
  (c : Context W) (g : Globals) :
  let tier := selectRateLimitTier c in
  (tier = "standard" \/ tier = "anonymous")
  /\ (tier = "standard"
      <-> c_GetHeader c "X-402-Signature" <> ""
          /\ c_GetHeader c "X-402-Nonce" <> "")
  /\ (tier = "standard" ->
      getRateLimitKey c
      = String.append "nonce:"
          (String.substring 0 32 (sha256_hex (c_GetHeader c "X-402-Nonce"))))
  /\ (tier = "anonymous" ->
      getRateLimitKey c = String.append "ip:" (req_ClientIP (Request_ c)))
  /\ (forall limiters' r,
        RateLimitMiddleware env limiters next c g = Some (limiters', r) ->
        forall other, other <> tier -> limiters' !! other = limiters !! other)
  /\ (is_Some (limiters !! "standard") ->
      is_Some (limiters !! "anonymous") ->
      (forall c1 g1, is_Some (next c1 g1)) ->
      is_Some (RateLimitMiddleware env limiters next c g)).
Proof.
  intros tier. subst tier.
  destruct (tier_is_standard_or_anonymous c)
    as [(Ht & Hk & Hs & Hn) | (Ht & Hk & Hm)].
  - split; [auto|]. split; [tauto|]. split; [auto|].
    split; [rewrite Ht; discriminate|]. split.
    + intros limiters' r Hrun other Hother.
      unfold RateLimitMiddleware in Hrun.
      destruct (limiters !! selectRateLimitTier c) as [l|]; [|discriminate].
      destruct (Allow _ l) as [allowed l1].
      destruct allowed; cbn [negb] in Hrun.
      * destruct (GetRemaining _ l1) as [rem l2].
        destruct (GetResetTime _ l2) as [reset l3].
        destruct (next _ g) as [r0|]; [|discriminate].
        injection Hrun as <- _. now rewrite lookup_insert_ne by congruence.
      * destruct (calculateRetryAfter env l1 _) as [ra l2].
        destruct (GetResetTime _ l2) as [reset l3].
        injection Hrun as <- _. now rewrite lookup_insert_ne by congruence.
    + intros [l Hl] _ Hnext. unfold RateLimitMiddleware. rewrite Ht, Hl.
      destruct (Allow _ l) as [allowed l1].
      destruct allowed; cbn [negb].
      * destruct (GetRemaining _ l1) as [rem l2].
        destruct (GetResetTime _ l2) as [reset l3].
        destruct (Hnext
                    (c_Header "X-RateLimit-Reset" (Itoa reset)
                       (c_Header "X-RateLimit-Remaining" (Itoa rem)
                          (c_Header "X-RateLimit-Limit"
                             (Itoa (getLimitForTier env "standard")) c))) g)
          as [r0 Hr0].
        rewrite Hr0. eauto.
      * destruct (calculateRetryAfter env l1 _) as [ra l2].
        destruct (GetResetTime _ l2) as [reset l3]. eauto.
  - split; [auto|]. split.
    { rewrite Ht. split; [discriminate|]. intros [Hs Hn]. tauto. }
    split; [rewrite Ht; discriminate|]. split; [auto|]. split.
    + intros limiters' r Hrun other Hother.
      unfold RateLimitMiddleware in Hrun.
      destruct (limiters !! selectRateLimitTier c) as [l|]; [|discriminate].
      destruct (Allow _ l) as [allowed l1].
      destruct allowed; cbn [negb] in Hrun.
      * destruct (GetRemaining _ l1) as [rem l2].
        destruct (GetResetTime _ l2) as [reset l3].
        destruct (next _ g) as [r0|]; [|discriminate].
        injection Hrun as <- _. now rewrite lookup_insert_ne by congruence.
      * destruct (calculateRetryAfter env l1 _) as [ra l2].
        destruct (GetResetTime _ l2) as [reset l3].
        injection Hrun as <- _. now rewrite lookup_insert_ne by congruence.
    + intros _ [l Hl] Hnext. unfold RateLimitMiddleware. rewrite Ht, Hl.
      destruct (Allow _ l) as [allowed l1].
      destruct allowed; cbn [negb].
      * destruct (GetRemaining _ l1) as [rem l2].
        destruct (GetResetTime _ l2) as [reset l3].
        destruct (Hnext
                    (c_Header "X-RateLimit-Reset" (Itoa reset)
                       (c_Header "X-RateLimit-Remaining" (Itoa rem)
                          (c_Header "X-RateLimit-Limit"
                             (Itoa (getLimitForTier env "anonymous")) c))) g)
          as [r0 Hr0].
        rewrite Hr0. eauto.
      * destruct (calculateRetryAfter env l1 _) as [ra l2].
        destruct (GetResetTime _ l2) as [reset l3]. eauto.
Qed.

(** X24. A request the limiter allows is handed on with
    nothing changed but three response headers: [X-RateLimit-Limit] with
    the configured requests per minute of its tier,
    [X-RateLimit-Remaining] and [X-RateLimit-Reset] with what the
    limiter reports; the limiter is stored back as these calls left
    it. *)
Theorem allowed_request_carries_rate_limit_headers {L} `{RateLimiter L}
  (env : Env) (limiters : gmap string L)
  (next : Context realWriter -> Globals
          -> option (Globals * Context realWriter))
  (c : Context realWriter) (g : Globals)
  (limiter l1 l2 l3 : L) (remaining reset : Z) :
  let key := getRateLimitKey c in
  let tier := selectRateLimitTier c in
  limiters !! tier = Some limiter ->
  Allow key limiter = (true, l1) ->
  GetRemaining key l1 = (remaining, l2) ->
  GetResetTime key l2 = (reset, l3) ->
  exists c1,
    RateLimitMiddleware env limiters next c g
    = option_map (fun r => (<[tier := l3]> limiters, r)) (next c1 g)
    /\ Request_ c1 = Request_ c
    /\ Keys c1 = Keys c
    /\ aborted c1 = aborted c
    /\ rw_written (Writer c1) = rw_written (Writer c)
    /\ rw_status (Writer c1) = rw_status (Writer c)
    /\ Header_values (rw_head (Writer c1)) "X-RateLimit-Limit"
       = [Itoa (if String.eqb tier "standard"
                then getEnvAsInt env "RATE_LIMIT_STANDARD_RPM" 60
                else getEnvAsInt env "RATE_LIMIT_ANONYMOUS_RPM" 10)]
    /\ Header_values (rw_head (Writer c1)) "X-RateLimit-Remaining"
       = [Itoa remaining]
    /\ Header_values (rw_head (Writer c1)) "X-RateLimit-Reset"
       = [Itoa reset]
    /\ (forall k,
          k <> "X-RateLimit-Limit" -> k <> "X-RateLimit-Remaining" ->
          k <> "X-RateLimit-Reset" ->
          Header_values (rw_head (Writer c1)) k
          = Header_values (rw_head (Writer c)) k).
Proof.
  intros key tier Hl Hallow Hrem Hreset.
  set (ca := c_Header "X-RateLimit-Limit"
               (Itoa (getLimitForTier env tier)) c).
  set (cb := c_Header "X-RateLimit-Remaining" (Itoa remaining) ca).
  set (cc := c_Header "X-RateLimit-Reset" (Itoa reset) cb).
  exists cc. split.
  { unfold RateLimitMiddleware. fold key tier.
    rewrite Hl, Hallow. cbn [negb]. rewrite Hrem, Hreset.
    fold ca. fold cb. fold cc. destruct (next cc g); reflexivity. }
  destruct (c_Header_real "X-RateLimit-Limit"
              (Itoa (getLimitForTier env tier)) c)
    as (Hs1 & Hw1 & _ & Ha1 & Hh1).
  destruct (c_Header_real "X-RateLimit-Remaining" (Itoa remaining) ca)
    as (Hs2 & Hw2 & _ & Ha2 & Hh2).
  destruct (c_Header_real "X-RateLimit-Reset" (Itoa reset) cb)
    as (Hs3 & Hw3 & _ & Ha3 & Hh3).
  fold ca in Hs1, Hw1, Ha1, Hh1. fold cb in Hs2, Hw2, Ha2, Hh2.
  fold cc in Hs3, Hw3, Ha3, Hh3.
  assert (Hreq : Request_ cc = Request_ c /\ Keys cc = Keys c).
  { unfold cc, cb, ca, c_Header.
    repeat match goal with
           | |- context [if ?b then _ else _] => destruct b
           end; split; reflexivity. }
  destruct Hreq as [Hrq Hkeys].
  split; [exact Hrq|]. split; [exact Hkeys|].
  split; [congruence|]. split; [congruence|]. split; [congruence|].
  rewrite !Hh3, !Hh2, !Hh1, !Itoa_nonempty.
  assert (Htier : getLimitForTier env tier
                  = if String.eqb tier "standard"
                    then getEnvAsInt env "RATE_LIMIT_STANDARD_RPM" 60
                    else getEnvAsInt env "RATE_LIMIT_ANONYMOUS_RPM" 10).
  { destruct (tier_is_standard_or_anonymous c) as [(Ht & _) | (Ht & _)];
      fold tier in Ht; rewrite Ht; reflexivity. }
  split.
  { rewrite decide_False by discriminate.
    rewrite decide_False by discriminate.
    rewrite decide_True by reflexivity. now rewrite Htier. }
  split.
  { rewrite decide_False by discriminate.
    now rewrite decide_True by reflexivity. }
  split; [now rewrite decide_True by reflexivity|].
  intros k Hk1 Hk2 Hk3. rewrite !Hh3, !Hh2, !Hh1.
  rewrite !decide_False by congruence. reflexivity.
Qed.

End RateLimitProperties.

(** ** Failures of receipt issuance *)

Section IssuanceFailures.
Context `{Library}.


End IssuanceFailures.

Section MoreExamples.
Import Example Deployment.

Lemma configured_timeouts_are_positive_witness :
  getRequestTimeout (H := library)
    (setenv "REQUEST_TIMEOUT_SECONDS" "0" (env accepts)) = 60 * Second
  /\ getHealthCheckTimeout (H := library)
       (setenv "HEALTH_CHECK_TIMEOUT_SECONDS" "3" (env accepts))
     = 3 * Second.
Proof.
  destruct (configured_timeouts_are_positive (H := library)
              (setenv "REQUEST_TIMEOUT_SECONDS" "0" (env accepts))
              "REQUEST_TIMEOUT_SECONDS" 60 ltac:(lia)
              ltac:(vm_compute; discriminate))
    as (_ & _ & Hfallback & _).
  destruct (configured_timeouts_are_positive (H := library)
              (setenv "HEALTH_CHECK_TIMEOUT_SECONDS" "3" (env accepts))
              "HEALTH_CHECK_TIMEOUT_SECONDS" 2 ltac:(lia)
              ltac:(vm_compute; discriminate))
    as (_ & _ & _ & Hcustom & _).
  split.
  - apply Hfallback. vm_compute. discriminate.
  - unfold getHealthCheckTimeout. rewrite Hcustom; [reflexivity|].
    vm_compute. reflexivity.
Defined.

Lemma correlation_id_on_every_response_witness :
  exists resp,
    client_view
      (res_orig
         (RequestTimeoutMiddleware
            (RunTimedOut [OpWrite "partial"] [HandlerTick (OpWrite "late")])
            (newRealWriter
               (Header_Set "X-Correlation-ID" "trace-7" ∅)))) = Some resp
    /\ resp_status resp = 504
    /\ Header_values (resp_header resp) "X-Correlation-ID" = ["trace-7"].
Proof.
  destruct (correlation_id_on_every_response "POST"
              "6f1c2a9e-0000-4000-8000-000000000003"
              (Request_ traced) ∅ ∅ false cold ltac:(discriminate))
    as (c1 & g1 & Hnext & _ & _ & _ & _ & Htimeout).
  specialize (Hnext (fun c g => Some (g, c))).
  vm_compute in Hnext. injection Hnext as <- <-.
  exact (Htimeout [OpWrite "partial"] [HandlerTick (OpWrite "late")]).
Defined.

Lemma correlation_id_forwarded_to_verifier_witness :
  CorrelationIDMiddleware "POST" "6f1c2a9e-0000-4000-8000-000000000003"
    (handleSummarize (H := library)
       (with_verifier tracing_verifier (env accepts))) traced cold
  = CorrelationIDMiddleware "POST" "6f1c2a9e-0000-4000-8000-000000000003"
      (handleSummarize (H := library) (env accepts)) traced cold.
Proof.
  destruct (correlation_id_forwarded_to_verifier (H := library) "POST"
              "6f1c2a9e-0000-4000-8000-000000000003" (env accepts)
              tracing_verifier traced cold
              ltac:(intros; reflexivity)) as [Hsame _].
  exact Hsame.
Defined.

Lemma verifier_called_within_its_deadline_witness :
  verifyPayment (H := library)
    (with_verifier punctual_verifier (env accepts)) context_Background
    "0xfeed" "n-1"
  = verifyPayment (H := library) (env accepts) context_Background
      "0xfeed" "n-1".
Proof.
  apply (verifier_called_within_its_deadline (H := library) (env accepts)
           context_Background "0xfeed" "n-1" punctual_verifier).
  intros body vctx _ Hd _. unfold punctual_verifier. rewrite Hd.
  vm_compute. reflexivity.
Defined.

Lemma unsigned_request_gets_payment_challenge_witness :
  exists g' c',
    handleSummarize (H := library) (env rejects) unsigned warm
    = Some (g', c')
    /\ CacheMiddleware (H := library) (env rejects) (handler (env rejects))
         unsigned warm = Some (g', c')
    /\ receiptStore g' = receiptStore warm
    /\ bw_Status (Writer c') = 402.
Proof.
  destruct (unsigned_request_gets_payment_challenge (H := library)
              (env rejects) unsigned warm ltac:(left; reflexivity))
    as (g' & Hh & Hc & _ & Hstore & _).
  eexists g', _. split; [exact Hh|]. split; [exact Hc|].
  split; [exact Hstore|]. vm_compute. reflexivity.
Defined.

Lemma request_body_limit_witness :
  handleSummarize (H := library) (env accepts) context cold
  = Some (handleSummarize_verify (H := library) (env accepts) "0xfeed"
            "n-1" requestBody context cold).
Proof.
  destruct (request_body_limit (H := library) (env accepts) context cold
              requestBody ltac:(vm_compute; discriminate)
              ltac:(vm_compute; discriminate) eq_refl eq_refl eq_refl)
    as (Hfit & _).
  apply Hfit. vm_compute. discriminate.
Defined.

Lemma malformed_body_checked_before_payment_only_with_cache_witness :
  (exists g' c',
     CacheMiddleware (H := library) (env rejects) (handler (env rejects))
       garbled cold = Some (g', c')
     /\ bw_Status (Writer c') = 400)
  /\ (exists c',
        CacheMiddleware (H := library) (env rejects) (handler (env rejects))
          garbled (set_redisClient None cold) = Some (set_redisClient None cold, c')
        /\ bw_Status (Writer c') = 403).
Proof.
  destruct (malformed_body_checked_before_payment_only_with_cache
              (H := library) (env rejects) garbled cold "summarize this"
              syntax_error ltac:(vm_compute; discriminate)
              ltac:(vm_compute; discriminate) eq_refl eq_refl eq_refl
              ltac:(vm_compute; discriminate)
              ltac:(vm_compute; discriminate) eq_refl)
    as (Hcached & _).
  destruct (malformed_body_checked_before_payment_only_with_cache
              (H := library) (env rejects) garbled
              (set_redisClient None cold) "summarize this"
              syntax_error ltac:(vm_compute; discriminate)
              ltac:(vm_compute; discriminate) eq_refl eq_refl eq_refl
              ltac:(vm_compute; discriminate)
              ltac:(vm_compute; discriminate) eq_refl)
    as (_ & Hplain).
  split.
  - destruct (Hcached ltac:(discriminate)) as (g' & c' & Hrun & Hst & _).
    exists g', c'. split; [apply Hrun | exact Hst].
  - destruct (Hplain eq_refl
                {| IsValid := false; RecoveredAddress := "";
                   Error := "signer mismatch" |}
                {| Recipient := "0x2cAF48b4BA1C58721a85dFADa5aC01C2DFa62219";
                   Token := "USDC"; Amount := "0.001"; Nonce := "n-1";
                   ChainID := 8453 |}
                ltac:(vm_compute; reflexivity)) as (c' & Hrun & Hst).
    exists c'. split; [exact Hrun | exact Hst].
Defined.

Lemma provider_failure_issues_no_receipt_witness :
  exists g' c',
    handleSummarize_verify (H := library)
      (with_provider slow_provider (env accepts)) "0xfeed" "n-1"
      requestBody context cold = (g', c')
    /\ receiptStore g' = receiptStore cold
    /\ bw_Status (Writer c') = 504.
Proof.
  destruct (provider_failure_issues_no_receipt (H := library)
              (with_provider slow_provider (env accepts)) context cold
              "0xfeed" "n-1" requestBody
              {| IsValid := true; RecoveredAddress := "0x1111"; Error := "" |}
              {| Recipient := "0x2cAF48b4BA1C58721a85dFADa5aC01C2DFa62219";
                 Token := "USDC"; Amount := "0.001"; Nonce := "n-1";
                 ChainID := 8453 |}
              {| Text := "hello" |} DeadlineExceeded eq_refl
              ltac:(vm_compute; reflexivity) eq_refl
              ltac:(vm_compute; reflexivity) ltac:(discriminate)
              ltac:(vm_compute; reflexivity))
    as (g' & c' & Hrun & Hstore & _ & _ & Hst & _).
  exists g', c'. split; [exact Hrun|]. split; [exact Hstore | exact Hst].
Defined.


Lemma cache_key_separates_texts_witness :
  (getCacheKey (H := library) "hello" "z-ai/glm-4.5-air:free"
   <> getCacheKey (H := library) "goodbye" "z-ai/glm-4.5-air:free"
   \/ exists x y,
        x <> y
        /\ sha256_hex (Library := library) x
           = sha256_hex (Library := library) y)
  /\ String.prefix "ai:summary:"
       (getCacheKey (H := library) "hello" "z-ai/glm-4.5-air:free") = true.
Proof.
  destruct (cache_key_separates_texts (H := library) "hello" "goodbye"
              "z-ai/glm-4.5-air:free" ltac:(discriminate))
    as (Hdiff & Hprefix & _).
  split; [exact Hdiff | exact Hprefix].
Defined.

Lemma provider_asked_for_the_cached_model_witness :
  callOpenRouter (H := library)
    (with_provider strict_provider (env accepts)) context_Background "hello"
  = callOpenRouter (H := library) (env accepts) context_Background "hello".
Proof.
  apply (provider_asked_for_the_cached_model (H := library) (env accepts)
           context_Background "hello" strict_provider).
  intros body [Hbody | [_ [e He]]]; [|discriminate He].
  injection Hbody as <-. vm_compute. reflexivity.
Defined.

Lemma allowed_request_carries_rate_limit_headers_witness :
  exists c1,
    RateLimitMiddleware (H := library) (env accepts)
      open_limiters (fun c g => Some (g, c)) throttled cold
    = Some (<["standard" := generous]> open_limiters, (cold, c1))
    /\ Header_values (rw_head (Writer c1)) "X-RateLimit-Remaining" = ["19"].
Proof.
  destruct (allowed_request_carries_rate_limit_headers (H := library)
              (env accepts) open_limiters
              (fun c g => Some (g, c)) throttled cold
              generous generous generous generous 19 1700000003
              ltac:(vm_compute; reflexivity) eq_refl eq_refl eq_refl)
    as (c1 & Hrun & _ & _ & _ & _ & _ & _ & Hrem & _).
  exists c1. split; [exact Hrun | exact Hrem].
Defined.


End MoreExamples.
